(** * Bulk-Mailer: the background send pipeline of [app.py]

    A shallow embedding of [send_emails_background] (app.py, lines 147-499)
    and of the module-level state it uses, followed by the properties of the
    pipeline that the specification states.

    Modelling conventions.
    - Python [str] values are [string]s whose characters are the code
      points below 256; [str.strip], [str.lower] and the [in] test are
      written out for that range.
    - Timestamps ([datetime]) are integers counting microseconds, the
      resolution of [datetime]; [timedelta(hours=1)] is [3600000000].
    - Exceptions are values of [Exn]: a class of the Python hierarchy and the
      text of [str(e)].  Matching an [except] clause evaluates the clause's
      expression in the module namespace first, as Python does.
    - The namespace in which the function body looks up global names is
      explicit: the names bound by the module's own statements
      ([module_globals]) plus a list of further names.  The module as
      shipped runs with no further names.
    - The file system, the Jinja template, the SMTP server are a [World] of
      outcomes; SQL statements on the job record, SMTP commands, sleeps and
      lock operations are recorded, in order, in the [trace] of the state.
      Statements sent to the job store succeed (the store is an external
      collaborator); [print] calls are not recorded.
    - One job runs at a time on the shared rate window, which starts in an
      arbitrary state: what other threads write to the window between two
      critical sections of a job is not modelled.  In the module as it is
      this leaves nothing out, for there every pass through the rate limit
      raises before the window is compared, reset or counted
      ([rate_gate_unbound]). *)

From Stdlib Require Import ZArith Lia Ascii String.
From stdpp Require Import gmap strings list pretty.

Local Open Scope string_scope.
Local Open Scope Z_scope.

(** ** Python strings *)

Module PyStr.

(** [str.isspace] on a character: TAB..CR, FS..US, the blank, NEL (U+0085)
    and the no-break space (U+00A0); these are what [str.strip] removes. *)
Definition is_space (c : ascii) : bool :=
  let n := nat_of_ascii c in
  ((9 <=? n)%nat && (n <=? 13)%nat) || ((28 <=? n)%nat && (n <=? 32)%nat)
  || (n =? 133)%nat || (n =? 160)%nat.

Fixpoint lstrip (s : string) : string :=
  match s with
  | EmptyString => EmptyString
  | String c s' => if is_space c then lstrip s' else s
  end.

Fixpoint rstrip (s : string) : string :=
  match s with
  | EmptyString => EmptyString
  | String c s' =>
      match rstrip s' with
      | EmptyString => if is_space c then EmptyString else String c EmptyString
      | t => String c t
      end
  end.

(** [s.strip()] *)
Definition strip (s : string) : string := rstrip (lstrip s).

(** The lower-case form of a character: [A]..[Z] and the capital letters
    U+00C0..U+00DE (all but the sign U+00D7) move up by 32. *)
Definition lower_char (c : ascii) : ascii :=
  let n := nat_of_ascii c in
  if ((65 <=? n)%nat && (n <=? 90)%nat)
     || ((192 <=? n)%nat && (n <=? 222)%nat && negb (n =? 215)%nat)
  then ascii_of_nat (n + 32) else c.

(** [s.lower()] *)
Fixpoint lower (s : string) : string :=
  match s with
  | EmptyString => EmptyString
  | String c s' => String (lower_char c) (lower s')
  end.

(** [c in s] for a one-character [c] *)
Fixpoint contains (c : ascii) (s : string) : bool :=
  match s with
  | EmptyString => false
  | String d s' => Ascii.eqb c d || contains c s'
  end.

(** truth value of a string: [bool(s)] *)
Definition truthy (s : string) : bool :=
  match s with EmptyString => false | _ => true end.

(** [x in l] for a list of strings *)
Definition mem (x : string) (l : list string) : bool :=
  existsb (String.eqb x) l.

Definition first_char (s : string) : option ascii :=
  match s with EmptyString => None | String c _ => Some c end.

Fixpoint last_char (s : string) : option ascii :=
  match s with
  | EmptyString => None
  | String c EmptyString => Some c
  | String _ s' => last_char s'
  end.

(** No whitespace at either end. *)
Definition trimmed (s : string) : Prop :=
  (forall c, first_char s = Some c -> is_space c = false) /\
  (forall c, last_char s = Some c -> is_space c = false).

End PyStr.

(** ** Exceptions *)

(** The exception classes that the pipeline can meet, with the base classes
    its [except] clauses name.  [PyOther n] is any other class named [n]
    deriving directly from [Exception] (Jinja errors, [TypeError], ...). *)
Inductive ExcClass : Type :=
  | Exception
  | OSError
  | ValueError
  | UnicodeDecodeError
  | FileNotFoundError
  | PermissionError
  | ConnectionRefusedError
  | gaierror
  | timeout
  | SSLError
  | SMTPException
  | SMTPResponseException
  | SMTPServerDisconnected
  | SMTPAuthenticationError
  | SMTPConnectError
  | SMTPHeloError
  | SMTPDataError
  | SMTPSenderRefused
  | SMTPRecipientsRefused
  | SMTPNotSupportedError
  | NameError
  | AttributeError
  | PyOther (name : string).

#[global] Instance ExcClass_eq_dec : EqDecision ExcClass.
Proof. solve_decision. Defined.

(** The direct base class. *)
Definition base (c : ExcClass) : option ExcClass :=
  match c with
  | Exception => None
  | OSError | ValueError | NameError | AttributeError | PyOther _ => Some Exception
  | UnicodeDecodeError => Some ValueError
  | FileNotFoundError | PermissionError | ConnectionRefusedError
  | gaierror | timeout | SSLError | SMTPException => Some OSError
  | SMTPResponseException | SMTPServerDisconnected
  | SMTPRecipientsRefused | SMTPNotSupportedError => Some SMTPException
  | SMTPAuthenticationError | SMTPConnectError | SMTPHeloError
  | SMTPDataError | SMTPSenderRefused => Some SMTPResponseException
  end.

Fixpoint issubclass_upto (depth : nat) (c d : ExcClass) : bool :=
  bool_decide (c = d) ||
  match depth with
  | O => false
  | S n => match base c with
           | Some b => issubclass_upto n b d
           | None => false
           end
  end.

(** [issubclass(c, d)]; the hierarchy above is four levels deep. *)
Definition issubclass (c d : ExcClass) : bool := issubclass_upto 4 c d.

(** [type(e).__name__] *)
Definition type_name (c : ExcClass) : string :=
  match c with
  | Exception => "Exception"
  | OSError => "OSError"
  | ValueError => "ValueError"
  | UnicodeDecodeError => "UnicodeDecodeError"
  | FileNotFoundError => "FileNotFoundError"
  | PermissionError => "PermissionError"
  | ConnectionRefusedError => "ConnectionRefusedError"
  | gaierror => "gaierror"
  | timeout => "TimeoutError"
  | SSLError => "SSLError"
  | SMTPException => "SMTPException"
  | SMTPResponseException => "SMTPResponseException"
  | SMTPServerDisconnected => "SMTPServerDisconnected"
  | SMTPAuthenticationError => "SMTPAuthenticationError"
  | SMTPConnectError => "SMTPConnectError"
  | SMTPHeloError => "SMTPHeloError"
  | SMTPDataError => "SMTPDataError"
  | SMTPSenderRefused => "SMTPSenderRefused"
  | SMTPRecipientsRefused => "SMTPRecipientsRefused"
  | SMTPNotSupportedError => "SMTPNotSupportedError"
  | NameError => "NameError"
  | AttributeError => "AttributeError"
  | PyOther n => n
  end.

(** A raised exception: its class and [str(e)]. *)
Record Exn : Type := mkExn { exc_type : ExcClass; exc_str : string }.

(** The result of running Python code: a value, a raised exception, or the
    polling budget of the model used up (see [rate_gate]). *)
Inductive Res (A : Type) : Type :=
  | Val (a : A)
  | Raise (e : Exn)
  | OutOfFuel.
Arguments Val {A} a.
Arguments Raise {A} e.
Arguments OutOfFuel {A}.

(** ** The module namespace *)

(** Names bound by the module's statements before any request is served:
    the imports of lines 1-16, the assignments of lines 19-33 and 104, and
    the functions. *)
Definition module_globals : list string :=
  [ "os"; "csv"; "smtplib"; "ssl"; "threading"; "uuid"; "sqlite3"; "time";
    "datetime"; "MIMEMultipart"; "MIMEText";
    "Flask"; "request"; "render_template"; "redirect"; "url_for"; "flash"; "g";
    "secure_filename"; "Template";
    "hourly_sent_count"; "current_hour_start_time"; "rate_limit_lock";
    "SMTP_HOURLY_LIMIT";
    "UPLOAD_FOLDER"; "ALLOWED_EXTENSIONS_CSV"; "ALLOWED_EXTENSIONS_HTML";
    "DATABASE"; "app";
    "get_db"; "close_connection"; "init_db"; "db_path";
    "allowed_file"; "send_emails_background";
    "index"; "dashboard"; "job_failures" ].

(** The namespace at call time: the module's names and [extra] further
    ones.  [shipped] is the module as it is. *)
Record Namespace : Type := mkNamespace { extra : list string }.

Definition shipped : Namespace := mkNamespace [].

Definition bound (G : Namespace) (x : string) : bool :=
  PyStr.mem x module_globals || PyStr.mem x (extra G).

Arguments issubclass : simpl never.
Arguments bound : simpl never.

(** Looking a global name up: [NameError] when it is not bound. *)
Definition name_error (x : string) : Exn :=
  mkExn NameError ("name '" +:+ x +:+ "' is not defined").

Definition load_global {A} (G : Namespace) (x : string) (v : A) : Res A :=
  if bound G x then Val v else Raise (name_error x).

(** ** Data model *)

(** An entry of [recipients] (lines 202-205). *)
Record Recipient : Type := mkRecipient { email : string; first_name : string }.

(** A row as [csv.DictReader] yields it: a dict from the header's names to
    the cells; a cell missing from a short line is [None] ([restval]). *)
Abbreviation Row := (gmap string (option string)).

(** The SQL statements the function sends, each with its commit. *)
Inductive Sql : Type :=
  | UpdateStatusStart (status : string) (start_time : Z)       (* l.166 *)
  | UpdateTotal (total : nat)                                   (* l.211 *)
  | UpdateStatusEnd (status : string) (end_time : Z)            (* l.247 *)
  | UpdateStatus (status : string)                              (* l.290, 303, 315 *)
  | UpdateSent (sent : nat)                                     (* l.356 *)
  | InsertFailedEmail (recipient_email error_message : string)  (* l.376, 391, 402 *)
  | UpdateFailedStatus (failed : nat) (status : string)         (* l.379 *)
  | UpdateFailed (failed : nat)                                 (* l.393, 404 *)
  | UpdateFinal (status : string) (sent failed : nat) (end_time : Z). (* l.471 *)

(** What the function does to the outside, in order. *)
Inductive Event : Type :=
  | Db (q : Sql)
  | OpenCsv
  | OpenHtml
  | CompileTemplate
  | Connect (implicit_tls : bool)
  | StartTLS
  | Login
  | SendMail (to_email body : string)
  | Quit
  | Sleep (microseconds : Z)
  | Acquire
  | Release.

(** A compiled template: [render(first_name=..., email=...)] gives the HTML
    or raises an exception of class [class_name]. *)
Inductive Rendered : Type :=
  | Html (body : string)
  | RenderFails (class_name text : string).

Definition Template : Type := string -> string -> Rendered.

Inductive CsvFile : Type :=
  | CsvRaises (e : Exn)
  | CsvTable (fieldnames : list string) (rows : list Row).

Inductive HtmlFile : Type :=
  | HtmlRaises (e : Exn)
  | HtmlBadTemplate (e : Exn)
  | HtmlTemplate (t : Template).

(** The outcomes the function meets outside itself. [smtp_sendmail i] is
    what [server.sendmail] does for the recipient of index [i]. *)
Record World : Type := mkWorld {
  csv_file : CsvFile;
  html_file : HtmlFile;
  smtp_connect : option Exn;
  smtp_starttls : option Exn;
  smtp_login : option Exn;
  smtp_sendmail : nat -> option Exn
}.

(** The module's shared variables (lines 19-20), the clock, the function's
    counters and flags, and the trace. *)
Record State : Type := mkState {
  clock : Z;
  hourly_sent_count : nat;
  current_hour_start_time : Z;
  sent_count : nat;
  failed_count : nat;
  total_emails : nat;
  connection_error : option string;
  server : bool;
  trace : list Event
}.

Definition SMTP_HOURLY_LIMIT : nat := 300.
Definition SEND_DELAY_SECONDS : Z := 1500000.
Definition POLL_SLEEP : Z := 30000000.
Definition ONE_HOUR : Z := 3600000000.

(** The state in which a job starts: the clock, the shared window as earlier
    jobs left it, and the locals of lines 174-178 and 255-256. *)
Definition initial (t : Z) (count : nat) (window_start : Z) : State :=
  mkState t count window_start 0 0 0 None false [].

(** ** State and exceptions *)

Definition M (A : Type) : Type := State -> Res A * State.

Definition ret {A} (a : A) : M A := fun st => (Val a, st).

Definition raise {A} (e : Exn) : M A := fun st => (Raise e, st).

Definition bind {A B} (m : M A) (k : A -> M B) : M B :=
  fun st =>
    match m st with
    | (Val a, st') => k a st'
    | (Raise e, st') => (Raise e, st')
    | (OutOfFuel, st') => (OutOfFuel, st')
    end.

Declare Scope py_scope.
Delimit Scope py_scope with py.
Notation "x <- m ;; k" := (bind m (fun x => k))
  (at level 100, m at next level, right associativity) : py_scope.
Notation "m ;; k" := (bind m (fun _ => k))
  (at level 100, right associativity) : py_scope.
Local Open Scope py_scope.

Definition lift {A} (r : Res A) : M A := fun st => (r, st).

Definition gets {A} (f : State -> A) : M A := fun st => (Val (f st), st).

Definition modify (f : State -> State) : M unit := fun st => (Val tt, f st).

(** Field updates. *)
Definition add_event (ev : Event) (st : State) : State :=
  mkState (clock st) (hourly_sent_count st) (current_hour_start_time st)
          (sent_count st) (failed_count st) (total_emails st)
          (connection_error st) (server st) (trace st ++ [ev]).

Definition with_clock (t : Z) (st : State) : State :=
  mkState t (hourly_sent_count st) (current_hour_start_time st)
          (sent_count st) (failed_count st) (total_emails st)
          (connection_error st) (server st) (trace st).

Definition with_hourly_sent_count (n : nat) (st : State) : State :=
  mkState (clock st) n (current_hour_start_time st)
          (sent_count st) (failed_count st) (total_emails st)
          (connection_error st) (server st) (trace st).

Definition with_current_hour_start_time (t : Z) (st : State) : State :=
  mkState (clock st) (hourly_sent_count st) t
          (sent_count st) (failed_count st) (total_emails st)
          (connection_error st) (server st) (trace st).

Definition with_sent_count (n : nat) (st : State) : State :=
  mkState (clock st) (hourly_sent_count st) (current_hour_start_time st)
          n (failed_count st) (total_emails st)
          (connection_error st) (server st) (trace st).

Definition with_failed_count (n : nat) (st : State) : State :=
  mkState (clock st) (hourly_sent_count st) (current_hour_start_time st)
          (sent_count st) n (total_emails st)
          (connection_error st) (server st) (trace st).

Definition with_total_emails (n : nat) (st : State) : State :=
  mkState (clock st) (hourly_sent_count st) (current_hour_start_time st)
          (sent_count st) (failed_count st) n
          (connection_error st) (server st) (trace st).

Definition with_connection_error (msg : string) (st : State) : State :=
  mkState (clock st) (hourly_sent_count st) (current_hour_start_time st)
          (sent_count st) (failed_count st) (total_emails st)
          (Some msg) (server st) (trace st).

Definition with_server (st : State) : State :=
  mkState (clock st) (hourly_sent_count st) (current_hour_start_time st)
          (sent_count st) (failed_count st) (total_emails st)
          (connection_error st) true (trace st).

Definition emit (ev : Event) : M unit := modify (add_event ev).
Definition set_clock (t : Z) : M unit := modify (with_clock t).
Definition set_hourly_sent_count (n : nat) : M unit := modify (with_hourly_sent_count n).
Definition set_current_hour_start_time (t : Z) : M unit :=
  modify (with_current_hour_start_time t).
Definition set_sent_count (n : nat) : M unit := modify (with_sent_count n).
Definition set_failed_count (n : nat) : M unit := modify (with_failed_count n).
Definition set_total_emails (n : nat) : M unit := modify (with_total_emails n).
Definition set_connection_error (msg : string) : M unit :=
  modify (with_connection_error msg).
Definition set_server : M unit := modify with_server.

(** [datetime.now()] *)
Definition datetime_now : M Z := gets clock.

(** [time.sleep(d)]: the clock moves on by [d]. *)
Definition sleep (d : Z) : M unit :=
  emit (Sleep d) ;; t <- gets clock ;; set_clock (t + d).

(** [with rate_limit_lock: body]: released however the body ends. *)
Definition with_lock {A} (body : M A) : M A :=
  fun st =>
    match body (add_event Acquire st) with
    | (r, st') => (r, add_event Release st')
    end.

(** An [except] clause names its class by an attribute of a module
    ([except smtplib.SMTPException]) or by a builtin name. *)
Inductive Clause : Type :=
  | Attr (module_name : string) (cls : ExcClass)
  | Builtin (cls : ExcClass).

Definition eval_clause (G : Namespace) (c : Clause) : Res ExcClass :=
  match c with
  | Attr m cls => load_global G m cls
  | Builtin cls => Val cls
  end.

(** Matching a raised exception against the clauses in order.  A clause
    whose expression cannot be evaluated raises in its turn, and that
    exception replaces the one being matched. *)
Fixpoint except_ {A} (G : Namespace) (e : Exn)
    (handlers : list (Clause * (Exn -> M A))) : M A :=
  match handlers with
  | [] => raise e
  | (c, h) :: rest =>
      match eval_clause G c with
      | Val cls => if issubclass (exc_type e) cls then h e else except_ G e rest
      | Raise e' => raise e'
      | OutOfFuel => lift OutOfFuel
      end
  end.

Definition try_except {A} (G : Namespace) (body : M A)
    (handlers : list (Clause * (Exn -> M A))) : M A :=
  fun st =>
    match body st with
    | (Raise e, st') => except_ G e handlers st'
    | r => r
    end.

(** [try: body finally: fin]: [fin] runs after a value and after an
    exception, which is raised again afterwards. *)
Definition try_finally {A} (body : M A) (fin : M unit) : M A :=
  fun st =>
    match body st with
    | (OutOfFuel, st') => (OutOfFuel, st')
    | (r, st') =>
        match fin st' with
        | (Val _, st'') => (r, st'')
        | (Raise e, st'') => (Raise e, st'')
        | (OutOfFuel, st'') => (OutOfFuel, st'')
        end
    end.

(** Truth value of a variable that is [None] or a string. *)
Definition truthy_opt (o : option string) : bool :=
  match o with
  | Some s => PyStr.truthy s
  | None => false
  end.

(** ** Reading the recipient list (lines 181-227) *)

(** [row.get(col, '')]: the default only when the key is absent. *)
Definition row_get (row : Row) (col : string) : option string :=
  match row !! col with
  | Some cell => cell
  | None => Some ""
  end.

(** [v.strip()] for a cell [v]; [None] has no [strip]. *)
Definition strip_cell (v : option string) : Res string :=
  match v with
  | Some s => Val (PyStr.strip s)
  | None => Raise (mkExn AttributeError "'NoneType' object has no attribute 'strip'")
  end.

(** The test of line 201: [email_addr and '@' in email_addr]. *)
Definition valid_email (email_addr : string) : bool :=
  PyStr.truthy email_addr && PyStr.contains "@"%char email_addr.

(** The loop of lines 197-207 over the rows still to read, [recipients]
    being the list built so far. *)
Fixpoint read_rows (email_col first_name_col : string) (rows : list Row)
    (recipients : list Recipient) : Res (list Recipient) :=
  match rows with
  | [] => Val recipients
  | row :: rest =>
      match strip_cell (row_get row email_col) with
      | Val email_addr =>
          match strip_cell (row_get row first_name_col) with
          | Val first_name =>
              if valid_email email_addr
              then read_rows email_col first_name_col rest
                     (recipients ++ [mkRecipient email_addr first_name])
              else read_rows email_col first_name_col rest recipients
          | Raise e => Raise e
          | OutOfFuel => OutOfFuel
          end
      | Raise e => Raise e
      | OutOfFuel => OutOfFuel
      end
  end.

(** [next((name for name in fieldnames if name.lower() == wanted), None)] *)
Definition find_column (wanted : string) (fieldnames : list string) : option string :=
  List.find (fun name => String.eqb (PyStr.lower name) wanted) fieldnames.

(** Lines 186-195: the two columns, under the names the header uses. *)
Definition csv_header (fieldnames : list string) : Res (string * string) :=
  let fieldnames_lower := map PyStr.lower fieldnames in
  if negb (PyStr.mem "firstname" fieldnames_lower)
     || negb (PyStr.mem "email" fieldnames_lower)
  then Raise (mkExn ValueError
         "CSV must contain 'FirstName' and 'Email' columns (case-insensitive).")
  else
    let first_name_col := find_column "firstname" fieldnames in
    let email_col := find_column "email" fieldnames in
    if negb (truthy_opt first_name_col) || negb (truthy_opt email_col)
    then Raise (mkExn ValueError "Could not find 'FirstName' or 'Email' column headers.")
    else Val (default "" first_name_col, default "" email_col).

(** The body of the [try] of line 181. *)
Definition read_csv (w : World) : M (list Recipient * option string) :=
  emit OpenCsv ;;
  match csv_file w with
  | CsvRaises e => raise e
  | CsvTable fieldnames rows =>
      cols <- lift (csv_header fieldnames) ;;
      recipients <- lift (read_rows (snd cols) (fst cols) rows []) ;;
      set_total_emails (length recipients) ;;
      emit (Db (UpdateTotal (length recipients))) ;;
      if (length recipients =? 0)%nat
      then ret (recipients, Some "Completed (No valid recipients found)")
      else ret (recipients, None)
  end.

(** Step 1 with its [except] clauses: the recipients and [initial_error]. *)
Definition load_recipients (G : Namespace) (w : World) (csv_path : string)
    : M (list Recipient * option string) :=
  try_except G (read_csv w)
    [ (Builtin FileNotFoundError, fun _ =>
         ret ([], Some ("Failed: CSV file not found at " +:+ csv_path)));
      (Builtin ValueError, fun e =>
         ret ([], Some ("Failed: Error reading CSV - " +:+ exc_str e)));
      (Builtin Exception, fun e =>
         ret ([], Some ("Failed: Unexpected error reading CSV - "
                        +:+ type_name (exc_type e) +:+ ": " +:+ exc_str e))) ].

(** ** Reading the template (lines 230-242) *)

Definition read_html (w : World) : M (option Template * option string) :=
  emit OpenHtml ;;
  match html_file w with
  | HtmlRaises e => raise e
  | HtmlBadTemplate e => emit CompileTemplate ;; raise e
  | HtmlTemplate t => emit CompileTemplate ;; ret (Some t, None)
  end.

Definition load_template (G : Namespace) (w : World) (html_path : string)
    (initial_error : option string) : M (option Template * option string) :=
  n <- gets total_emails ;;
  if negb (truthy_opt initial_error) && (0 <? n)%nat then
    try_except G (read_html w)
      [ (Builtin FileNotFoundError, fun _ =>
           ret (None, Some ("Failed: HTML template not found at " +:+ html_path)));
        (Builtin Exception, fun e =>
           ret (None, Some ("Failed: Error reading HTML - "
                            +:+ type_name (exc_type e) +:+ ": " +:+ exc_str e))) ]
  else ret (None, initial_error).

(** ** The rate limit (lines 277-329) *)

(** [timedelta(hours=1)]: the name is looked up when the call is made. *)
Definition timedelta_hours_1 (G : Namespace) : M Z :=
  lift (load_global G "timedelta" ONE_HOUR).

Definition two_digits (n : Z) : string :=
  if n <? 10 then "0" +:+ pretty n else pretty n.

(** [t.strftime("%H:%M:%S")] *)
Definition strftime_HMS (t : Z) : string :=
  let s := (t / 1000000) mod 86400 in
  two_digits (s / 3600) +:+ ":" +:+ two_digits ((s mod 3600) / 60)
  +:+ ":" +:+ two_digits (s mod 60).

Definition paused_status (resume_time_approx : Z) : string :=
  "Paused - Hourly Limit (" +:+ pretty SMTP_HOURLY_LIMIT +:+ "/hr). Resumes ~"
  +:+ strftime_HMS resume_time_approx.

(** One pass through the critical section of lines 280-320.  The result is
    whether the [break] of line 320 was taken, and the new value of
    [waiting_for_rate_limit_reset]. *)
Definition check_rate_limit (G : Namespace) (waiting_for_rate_limit_reset : bool)
    : M (bool * bool) :=
  with_lock (
    t <- datetime_now ;;
    start <- gets current_hour_start_time ;;
    hour <- timedelta_hours_1 G ;;
    waiting <-
      (if start + hour <=? t then
         set_hourly_sent_count 0 ;;
         t' <- datetime_now ;;
         set_current_hour_start_time t' ;;
         if waiting_for_rate_limit_reset
         then emit (Db (UpdateStatus "Running")) ;; ret false
         else ret waiting_for_rate_limit_reset
       else ret waiting_for_rate_limit_reset) ;;
    count <- gets hourly_sent_count ;;
    if (SMTP_HOURLY_LIMIT <=? count)%nat then
      if negb waiting then
        start' <- gets current_hour_start_time ;;
        hour' <- timedelta_hours_1 G ;;
        emit (Db (UpdateStatus (paused_status (start' + hour')))) ;;
        ret (false, true)
      else ret (false, waiting)
    else
      (if waiting then emit (Db (UpdateStatus "Running")) else ret tt) ;;
      ret (true, false)).

(** The [while True] of line 279, for at most [fuel] passes. *)
Fixpoint rate_gate_loop (G : Namespace) (fuel : nat)
    (waiting_for_rate_limit_reset : bool) : M unit :=
  match fuel with
  | O => lift OutOfFuel
  | S fuel' =>
      r <- check_rate_limit G waiting_for_rate_limit_reset ;;
      if fst r then ret tt
      else
        (if snd r then sleep POLL_SLEEP else ret tt) ;;
        rate_gate_loop G fuel' (snd r)
  end.

(** Passes that the loop can need from a state: one per 30 seconds left in
    the window, and the one that goes through. *)
Definition polls_needed (st : State) : nat :=
  S (Z.to_nat ((current_hour_start_time st + ONE_HOUR - clock st + POLL_SLEEP - 1)
               / POLL_SLEEP)).

Definition rate_gate (G : Namespace) : M unit :=
  fun st => rate_gate_loop G (polls_needed st) false st.

(** ** One recipient (lines 331-406) *)

(** [email_template.render(first_name=..., email=...)] *)
Definition render (email_template : option Template) (r : Recipient) : M string :=
  match email_template with
  | None => raise (mkExn AttributeError "'NoneType' object has no attribute 'render'")
  | Some t =>
      match t (first_name r) (email r) with
      | Html body => ret body
      | RenderFails class_name text => raise (mkExn (PyOther class_name) text)
      end
  end.

(** [server.sendmail(sender_email, to_email, msg.as_string())] for the
    recipient of index [i]. *)
Definition sendmail (w : World) (i : nat) (to_email body : string) : M unit :=
  emit (SendMail to_email body) ;;
  match smtp_sendmail w i with
  | Some e => raise e
  | None => ret tt
  end.

(** Lines 371-385, 388-394 and 399-405.  The result is whether the handler
    leaves the [for] loop. *)
Definition on_disconnect (to_email : string) (_ : Exn) : M bool :=
  n <- gets failed_count ;;
  set_failed_count (n + 1) ;;
  emit (Db (InsertFailedEmail to_email "SMTPServerDisconnected (mid-send)")) ;;
  emit (Db (UpdateFailedStatus (n + 1) "Error: Server Disconnected")) ;;
  set_connection_error
    "Server disconnected unexpectedly (mid-send). Might be rate limited or timed out." ;;
  ret true.

Definition on_send_error (to_email : string) (e : Exn) : M bool :=
  n <- gets failed_count ;;
  set_failed_count (n + 1) ;;
  emit (Db (InsertFailedEmail to_email (exc_str e))) ;;
  emit (Db (UpdateFailed (n + 1))) ;;
  ret false.

(** The [try] of line 341 for the recipient [r] of index [i]. *)
Definition send_one (G : Namespace) (w : World) (email_template : option Template)
    (i : nat) (r : Recipient) : M bool :=
  try_except G
    (personalized_html <- render email_template r ;;
     sendmail w i (email r) personalized_html ;;
     n <- gets sent_count ;;
     set_sent_count (n + 1) ;;
     emit (Db (UpdateSent (n + 1))) ;;
     with_lock (c <- gets hourly_sent_count ;; set_hourly_sent_count (c + 1)) ;;
     sleep SEND_DELAY_SECONDS ;;
     ret false)
    [ (Attr "smtplib" SMTPServerDisconnected, on_disconnect (email r));
      (Attr "smtplib" SMTPException, on_send_error (email r));
      (Builtin Exception, on_send_error (email r)) ].

(** The [for] loop of line 276 over the recipients from index [i] on. *)
Fixpoint send_loop (G : Namespace) (w : World) (email_template : option Template)
    (i : nat) (recipients : list Recipient) : M unit :=
  match recipients with
  | [] => ret tt
  | r :: rest =>
      rate_gate G ;;
      stop <- send_one G w email_template i r ;;
      if (stop : bool) then ret tt else send_loop G w email_template (S i) rest
  end.

(** ** The SMTP session (lines 257-273) and its errors (lines 411-435) *)

Definition may_raise (o : option Exn) : M unit :=
  match o with
  | Some e => raise e
  | None => ret tt
  end.

Definition smtp_setup (w : World) (use_tls use_ssl : bool) : M unit :=
  (if use_ssl then
     emit (Connect true) ;; may_raise (smtp_connect w) ;; set_server
   else
     emit (Connect false) ;; may_raise (smtp_connect w) ;; set_server ;;
     if use_tls then emit StartTLS ;; may_raise (smtp_starttls w) else ret tt) ;;
  emit Login ;;
  may_raise (smtp_login w).

Definition setup_handlers : list (Clause * (Exn -> M unit)) :=
  [ (Attr "smtplib" SMTPAuthenticationError, fun _ =>
       set_connection_error
         "Failed: SMTP Authentication Error. Check email/password/app password.");
    (Attr "smtplib" SMTPConnectError, fun e =>
       set_connection_error
         ("Failed: Could not connect to SMTP server. Check server address/port. Detail: "
          +:+ exc_str e));
    (Attr "smtplib" SMTPServerDisconnected, fun e =>
       set_connection_error
         ("Failed: SMTP server disconnected unexpectedly during setup. Detail: "
          +:+ exc_str e));
    (Attr "socket" gaierror, fun e =>
       set_connection_error
         ("Failed: SMTP server address not found (DNS lookup failed). Check server name. Detail: "
          +:+ exc_str e));
    (Attr "socket" timeout, fun e =>
       set_connection_error
         ("Failed: Connection to SMTP server timed out (30s). Detail: " +:+ exc_str e));
    (Attr "ssl" SSLError, fun e =>
       set_connection_error
         ("Failed: SSL Error during connection/TLS. Check port/SSL/TLS settings. Detail: "
          +:+ exc_str e));
    (Attr "smtplib" SMTPException, fun e =>
       set_connection_error
         ("Failed: SMTP Error during setup - " +:+ type_name (exc_type e)
          +:+ ": " +:+ exc_str e));
    (Builtin Exception, fun e =>
       set_connection_error
         ("Failed: Unexpected Error during setup - " +:+ type_name (exc_type e)
          +:+ ": " +:+ exc_str e)) ].

(** ** The final update (lines 437-496) *)

(** Lines 453-464: the status when no connection error is recorded. *)
Definition status_from_counts (sent failed total : nat) : string :=
  if (failed =? 0)%nat && (sent =? total)%nat then "Completed"
  else if (0 <? failed)%nat && (0 <? sent)%nat then "Partial Failure"
  else if (failed =? total)%nat && (sent =? 0)%nat then "Failed: All emails"
  else if (sent =? 0)%nat && (failed =? 0)%nat && (0 <? total)%nat
       then "Failed: Unknown (No emails sent or failed)"
  else if (total =? 0)%nat then "Completed (No recipients)"
  else "Completed with errors (check counts)".

(** Lines 443-464: [final_status], and the counts as they are stored. *)
Definition final_record (connection_error : option string)
    (sent failed total : nat) : string * nat * nat :=
  if truthy_opt connection_error then
    (default "" connection_error, 0%nat, total)
  else if truthy_opt connection_error
          && String.prefix "Error: Server Disconnected" (default "" connection_error) then
    (default "" connection_error, sent, failed)
  else
    (status_from_counts sent failed total, sent, failed).

Definition finalize : M unit :=
  end_time <- datetime_now ;;
  ce <- gets connection_error ;;
  sent <- gets sent_count ;;
  failed <- gets failed_count ;;
  total <- gets total_emails ;;
  let rec := final_record ce sent failed total in
  set_sent_count (snd (fst rec)) ;;
  set_failed_count (snd rec) ;;
  emit (Db (UpdateFinal (fst (fst rec)) (snd (fst rec)) (snd rec) end_time)) ;;
  srv <- gets server ;;
  if srv && negb (truthy_opt ce) then emit Quit
  else if srv && truthy_opt ce then emit Quit
  else ret tt.

(** ** The whole function *)

(** Step 3, lines 255-496: the [try] with its clauses and its [finally]. *)
Definition smtp_session (G : Namespace) (w : World) (use_tls use_ssl : bool)
    (email_template : option Template) (recipients : list Recipient) : M unit :=
  try_finally
    (try_except G
       (smtp_setup w use_tls use_ssl ;; send_loop G w email_template 0 recipients)
       setup_handlers)
    finalize.

Definition send_emails_background (G : Namespace) (w : World)
    (csv_path html_path : string) (use_tls use_ssl : bool) : M unit :=
  start_time <- datetime_now ;;
  emit (Db (UpdateStatusStart "Running" start_time)) ;;
  p <- load_recipients G w csv_path ;;
  q <- load_template G w html_path (snd p) ;;
  if truthy_opt (snd q) then
    t <- datetime_now ;;
    emit (Db (UpdateStatusEnd (default "" (snd q)) t))
  else
    smtp_session G w use_tls use_ssl (fst q) (fst p).

(** ** The job record as the store holds it *)

Record JobRow : Type := mkJobRow {
  row_status : string;
  row_total : option nat;
  row_sent : nat;
  row_failed : nat;
  row_end_time : option Z
}.

(** The row as [index] inserts it (line 566), with the schema's defaults. *)
Definition created : JobRow := mkJobRow "Pending" None 0 0 None.

Definition apply_sql (r : JobRow) (q : Sql) : JobRow :=
  match q with
  | UpdateStatusStart s _ =>
      mkJobRow s (row_total r) (row_sent r) (row_failed r) (row_end_time r)
  | UpdateTotal n =>
      mkJobRow (row_status r) (Some n) (row_sent r) (row_failed r) (row_end_time r)
  | UpdateStatusEnd s t =>
      mkJobRow s (row_total r) (row_sent r) (row_failed r) (Some t)
  | UpdateStatus s =>
      mkJobRow s (row_total r) (row_sent r) (row_failed r) (row_end_time r)
  | UpdateSent n =>
      mkJobRow (row_status r) (row_total r) n (row_failed r) (row_end_time r)
  | InsertFailedEmail _ _ => r
  | UpdateFailedStatus n s =>
      mkJobRow s (row_total r) (row_sent r) n (row_end_time r)
  | UpdateFailed n =>
      mkJobRow (row_status r) (row_total r) (row_sent r) n (row_end_time r)
  | UpdateFinal s sent failed t =>
      mkJobRow s (row_total r) sent failed (Some t)
  end.

Definition statements (tr : list Event) : list Sql :=
  omap (fun ev => match ev with Db q => Some q | _ => None end) tr.

(** The job's row after the statements of a trace. *)
Definition job_row (tr : list Event) : JobRow :=
  fold_left apply_sql (statements tr) created.

(** The rows of [failed_emails] that a trace inserts. *)
Definition failure_records (tr : list Event) : list (string * string) :=
  omap (fun ev => match ev with
                  | Db (InsertFailedEmail a m) => Some (a, m)
                  | _ => None
                  end) tr.

(** The values that successive statements store in [sent_count], and in
    [failed_count]. *)
Definition sent_written (tr : list Event) : list nat :=
  omap (fun q => match q with
                 | UpdateSent n | UpdateFinal _ n _ _ => Some n
                 | _ => None
                 end) (statements tr).

Definition failed_written (tr : list Event) : list nat :=
  omap (fun q => match q with
                 | UpdateFailed n | UpdateFailedStatus n _ | UpdateFinal _ _ n _ => Some n
                 | _ => None
                 end) (statements tr).

(** The recipients to whom [sendmail] was called. *)
Definition send_attempts (tr : list Event) : list string :=
  omap (fun ev => match ev with SendMail a _ => Some a | _ => None end) tr.

Definition is_smtp_command (ev : Event) : bool :=
  match ev with
  | Connect _ | StartTLS | Login | SendMail _ _ | Quit => true
  | _ => false
  end.

(** Running a job from a state: how it ends, and the state it leaves. *)
Definition run (G : Namespace) (w : World) (csv_path html_path : string)
    (use_tls use_ssl : bool) (st : State) : Res unit * State :=
  send_emails_background G w csv_path html_path use_tls use_ssl st.

(** ** What the specification asks of the parser *)

(** The cell of a row, for a row that has it. *)
Definition cell (row : Row) (col : string) : string :=
  default "" (row_get row col).

(** The row gives a string for both columns. *)
Definition has_cells (email_col first_name_col : string) (row : Row) : Prop :=
  is_Some (row_get row email_col) /\ is_Some (row_get row first_name_col).

(** The row's trimmed address is not empty and has an [@]. *)
Definition kept (email_col : string) (row : Row) : bool :=
  valid_email (PyStr.strip (cell row email_col)).

Definition recipient_of (email_col first_name_col : string) (row : Row) : Recipient :=
  mkRecipient (PyStr.strip (cell row email_col))
              (PyStr.strip (cell row first_name_col)).

(** The rows that are kept, in their order, each with both fields trimmed. *)
Definition recipients_of (email_col first_name_col : string) (rows : list Row)
    : list Recipient :=
  map (recipient_of email_col first_name_col) (List.filter (kept email_col) rows).

(** The state after step 1 for a table read without error. *)
Definition after_csv (n : nat) (st : State) : State :=
  add_event (Db (UpdateTotal n)) (with_total_emails n (add_event OpenCsv st)).

(** ** Sample jobs *)

(** A row of a table whose header is [FirstName,Email]. *)
Definition row2 (first : string) (address : string) : Row :=
  <["FirstName" := Some first]> (<["Email" := Some address]> ∅).

(** A line with the address only: [DictReader] fills the other cell. *)
Definition short_row (address : string) : Row :=
  <["FirstName" := None]> (<["Email" := Some address]> ∅).

Definition greeting : Template :=
  fun first _ => Html ("Hello " +:+ first).

Definition sample_rows : list Row :=
  [ row2 " Al " "  a@b.com "; row2 "Cy" "notanemail"; row2 "Bo" "b@c.org" ].

(** A job on a table with the usual header and a template that renders. *)
Definition sample_world (rows : list Row) (connect login : option Exn)
    (sending : nat -> option Exn) : World :=
  mkWorld (CsvTable ["FirstName"; "Email"] rows) (HtmlTemplate greeting)
          connect None login sending.

Definition all_accepted : nat -> option Exn := fun _ => None.

(** The server accepts every message but the one of index [k]. *)
Definition fails_at (k : nat) (e : Exn) : nat -> option Exn :=
  fun i => if (i =? k)%nat then Some e else None.

Definition three_rows : list Row :=
  [ row2 "Al" "a@b.com"; row2 "Bo" "b@c.org"; row2 "Cy" "c@d.net" ].

Definition disconnected : Exn :=
  mkExn SMTPServerDisconnected "Connection unexpectedly closed".

Definition name_not_known : Exn :=
  mkExn gaierror "[Errno -2] Name or service not known".

(** The module with [timedelta] bound as well, and with both missing names. *)
Definition with_timedelta : Namespace := mkNamespace ["timedelta"].
Definition with_imports : Namespace := mkNamespace ["timedelta"; "socket"].

(** ** States along a job *)

(** After step 2 for a template that compiles. *)
Definition after_html (st : State) : State :=
  add_event CompileTemplate (add_event OpenHtml st).

(** After a session set up without error (lines 258-273). *)
Definition after_setup (use_tls use_ssl : bool) (st : State) : State :=
  add_event Login
    (if use_ssl then with_server (add_event (Connect true) st)
     else if use_tls
          then add_event StartTLS (with_server (add_event (Connect false) st))
          else with_server (add_event (Connect false) st)).

(** After a critical section that changed nothing. *)
Definition after_lock (st : State) : State :=
  add_event Release (add_event Acquire st).

(** The state in which the [try] of line 257 starts, for a job with [n]
    recipients. *)
Definition before_session (t : Z) (count : nat) (window_start : Z) (n : nat) : State :=
  after_html (after_csv n
    (add_event (Db (UpdateStatusStart "Running" t)) (initial t count window_start))).


(** After the [finally] of line 437. *)
Definition after_finalize (st : State) : State :=
  let rec := final_record (connection_error st) (sent_count st) (failed_count st)
               (total_emails st) in
  let st' :=
    add_event (Db (UpdateFinal (fst (fst rec)) (snd (fst rec)) (snd rec) (clock st)))
      (with_failed_count (snd rec) (with_sent_count (snd (fst rec)) st)) in
  if server st then add_event Quit st' else st'.

(** The SMTP commands of a session set up without error. *)
Definition setup_commands (use_tls use_ssl : bool) : list Event :=
  if use_ssl then [Connect true; Login]
  else if use_tls then [Connect false; StartTLS; Login]
  else [Connect false; Login].


(** ** The rate window *)

Definition add_events (evs : list Event) (st : State) : State :=
  fold_left (fun s ev => add_event ev s) evs st.

(** The window is over: [now >= current_hour_start_time + 1h]. *)
Definition expired (st : State) : bool :=
  current_hour_start_time st + ONE_HOUR <=? clock st.

(** Lines 284-285: a new window starts now, with no send counted. *)
Definition reset_window (st : State) : State :=
  if expired st
  then with_current_hour_start_time (clock st) (with_hourly_sent_count 0 st)
  else st.

(** The test of line 297 after the reset, negated: a slot is free. *)
Definition granted (st : State) : bool :=
  negb (SMTP_HOURLY_LIMIT <=? hourly_sent_count (reset_window st))%nat.

(** The status that a pass stores: [Running] when a paused job goes on, the
    pause with the end of the window when a job starts to wait. *)
Definition status_updates (waiting : bool) (st : State) : list Event :=
  if granted st then
    if waiting then [Db (UpdateStatus "Running")] else []
  else
    if waiting then []
    else [Db (UpdateStatus
                (paused_status (current_hour_start_time (reset_window st) + ONE_HOUR)))].

(** After one pass through the critical section, with [timedelta] bound. *)
Definition after_check (waiting : bool) (st : State) : State :=
  add_event Release
    (add_events (status_updates waiting st) (reset_window (add_event Acquire st))).

Definition after_sleep (d : Z) (st : State) : State :=
  with_clock (clock st + d) (add_event (Sleep d) st).

(** What the specification describes as [tryReserveSlot]: reset the window
    when it is over, then take a slot if one is free. *)
Inductive Reservation : Type :=
  | Granted
  | Denied (expiry : Z).

Definition tryReserveSlot (limit : nat) (now : Z) (count : nat) (start : Z)
    : Reservation * (nat * Z) :=
  let count' := if start + ONE_HOUR <=? now then 0%nat else count in
  let start' := if start + ONE_HOUR <=? now then now else start in
  if (count' <? limit)%nat then (Granted, (S count', start'))
  else (Denied (start' + ONE_HOUR), (count', start')).

(** ** One attempt *)

(** How the attempt for the recipient of index [i] goes. *)
Inductive Attempt : Type :=
  | Sent (body : string)
  | NotRendered (e : Exn)
  | NotSent (body : string) (e : Exn).

Definition attempt_of (w : World) (email_template : option Template) (i : nat)
    (r : Recipient) : Attempt :=
  match email_template with
  | None => NotRendered (mkExn AttributeError "'NoneType' object has no attribute 'render'")
  | Some t =>
      match t (first_name r) (email r) with
      | RenderFails class_name text => NotRendered (mkExn (PyOther class_name) text)
      | Html body =>
          match smtp_sendmail w i with
          | None => Sent body
          | Some e => NotSent body e
          end
      end
  end.

(** The call of [sendmail], when the attempt gets that far. *)
Definition attempted (to_email : string) (a : Attempt) (st : State) : State :=
  match a with
  | NotRendered _ => st
  | Sent body | NotSent body _ => add_event (SendMail to_email body) st
  end.

(** Lines 354-366 after a send that went through. *)
Definition after_sent (st : State) : State :=
  after_sleep SEND_DELAY_SECONDS
    (add_event Release
       (with_hourly_sent_count (hourly_sent_count st + 1)
          (add_event Acquire
             (add_event (Db (UpdateSent (sent_count st + 1)))
                (with_sent_count (sent_count st + 1) st))))).

(** Lines 388-394 and 399-405. *)
Definition after_failure (to_email detail : string) (st : State) : State :=
  add_event (Db (UpdateFailed (failed_count st + 1)))
    (add_event (Db (InsertFailedEmail to_email detail))
       (with_failed_count (failed_count st + 1) st)).

(** Lines 371-385. *)
Definition after_disconnect (to_email : string) (st : State) : State :=
  with_connection_error
    "Server disconnected unexpectedly (mid-send). Might be rate limited or timed out."
    (add_event (Db (UpdateFailedStatus (failed_count st + 1) "Error: Server Disconnected"))
       (add_event (Db (InsertFailedEmail to_email "SMTPServerDisconnected (mid-send)"))
          (with_failed_count (failed_count st + 1) st))).

(** The failures that concern one recipient only: the template does not
    render for it, or the server rejects its message with the session
    still open. *)
Definition render_error (a : Attempt) (e : Exn) : Prop :=
  a = NotRendered e.

Definition send_rejected (a : Attempt) (e : Exn) : Prop :=
  exists body, a = NotSent body e
               /\ issubclass (exc_type e) SMTPException = true
               /\ issubclass (exc_type e) SMTPServerDisconnected = false.


(** ** Status classes *)

(** The [Failed: <reason>] statuses. *)
Definition is_Failed (status : string) : bool := String.prefix "Failed" status.

(** The labels of lines 460-464. *)
Definition fallback_labels : list string :=
  [ "Failed: Unknown (No emails sent or failed)";
    "Completed (No recipients)";
    "Completed with errors (check counts)" ].


(** ** What the steps of a job leave alone *)

(** The function's own counters and flags are the same in both states. *)
Definition same_locals (st st1 : State) : Prop :=
  sent_count st1 = sent_count st
  /\ failed_count st1 = failed_count st
  /\ total_emails st1 = total_emails st
  /\ connection_error st1 = connection_error st
  /\ server st1 = server st.

(** The events of the rate limit: the lock, the sleep, a status. *)
Definition gate_event (ev : Event) : Prop :=
  match ev with
  | Acquire | Release | Sleep _ | Db (UpdateStatus _) => True
  | _ => False
  end.

(** The statements that the rate limit and the handling of one recipient
    send to the store. *)
Definition loop_statement (q : Sql) : Prop :=
  match q with
  | UpdateStatus _ | UpdateSent _ | InsertFailedEmail _ _
  | UpdateFailedStatus _ _ | UpdateFailed _ => True
  | _ => False
  end.

(** What the send loop keeps, from the state [st] in which it starts on
    the recipients [rs] to its result [res]. *)
Definition loop_facts (rs : list Recipient) (st : State) (res : Res unit * State)
    : Prop :=
  total_emails (snd res) = total_emails st
  /\ server (snd res) = server st
  /\ (sent_count st <= sent_count (snd res))%nat
  /\ (failed_count st <= failed_count (snd res))%nat
  /\ (sent_count (snd res) + failed_count (snd res)
      <= sent_count st + failed_count st + length rs)%nat
  /\ (fst res = Val tt -> connection_error (snd res) = None ->
      (sent_count (snd res) + failed_count (snd res)
       = sent_count st + failed_count st + length rs)%nat)
  /\ (length (failure_records (trace (snd res))) + failed_count st
      = length (failure_records (trace st)) + failed_count (snd res))%nat
  /\ (exists l,
        send_attempts (trace (snd res)) = (send_attempts (trace st) ++ l)%list
        /\ l `sublist_of` map email rs)
  /\ ((hourly_sent_count st <= SMTP_HOURLY_LIMIT)%nat ->
      (hourly_sent_count (snd res) <= SMTP_HOURLY_LIMIT)%nat)
  /\ (connection_error (snd res) = connection_error st
      \/ connection_error (snd res)
         = Some "Server disconnected unexpectedly (mid-send). Might be rate limited or timed out.")
  /\ clock st <= clock (snd res)
  /\ (exists qs,
        statements (trace (snd res)) = (statements (trace st) ++ qs)%list
        /\ Forall loop_statement qs).


(** ** The statuses of the early exits *)

(** The status that the clauses of lines 219-227 give for an exception [e]
    raised while the table is read. *)
Definition csv_error_status (csv_path : string) (e : Exn) : string :=
  if issubclass (exc_type e) FileNotFoundError
  then "Failed: CSV file not found at " +:+ csv_path
  else if issubclass (exc_type e) ValueError
  then "Failed: Error reading CSV - " +:+ exc_str e
  else "Failed: Unexpected error reading CSV - "
       +:+ type_name (exc_type e) +:+ ": " +:+ exc_str e.

(** The status that the clauses of lines 237-242 give. *)
Definition html_error_status (html_path : string) (e : Exn) : string :=
  if issubclass (exc_type e) FileNotFoundError
  then "Failed: HTML template not found at " +:+ html_path
  else "Failed: Error reading HTML - "
       +:+ type_name (exc_type e) +:+ ": " +:+ exc_str e.

(** The exception, if any, that reading the table raises. *)
Definition csv_failure (w : World) : option Exn :=
  match csv_file w with
  | CsvRaises e => Some e
  | CsvTable fieldnames rows =>
      match csv_header fieldnames with
      | Raise e => Some e
      | Val cols =>
          match read_rows (snd cols) (fst cols) rows [] with
          | Raise e => Some e
          | _ => None
          end
      | OutOfFuel => None
      end
  end.

(** The recipients of a table that is read without error. *)
Definition csv_recipients (w : World) : list Recipient :=
  match csv_file w with
  | CsvRaises _ => []
  | CsvTable fieldnames rows =>
      match csv_header fieldnames with
      | Val cols =>
          match read_rows (snd cols) (fst cols) rows [] with
          | Val rs => rs
          | _ => []
          end
      | _ => []
      end
  end.

(** The exception, if any, that reading or compiling the template raises,
    and whether the compiler was reached. *)
Definition html_failure (w : World) : option (Exn * bool) :=
  match html_file w with
  | HtmlRaises e => Some (e, false)
  | HtmlBadTemplate e => Some (e, true)
  | HtmlTemplate _ => None
  end.

(** The error of the header check (line 188). *)
Definition missing_columns : Exn :=
  mkExn ValueError
    "CSV must contain 'FirstName' and 'Email' columns (case-insensitive).".

(** ** The terminal statuses *)

(** The terminal statuses that the specification names, as the code words
    them.  The labels of lines 460-464 are fallbacks, whatever their
    wording; a [Failed: <reason>] text that is none of them is a failed
    status. *)
Inductive Terminal : Type :=
  | Completed
  | PartialFailure
  | FailedStatus
  | FallbackLabel
  | NoTerminalStatus.

Definition status_class (status : string) : Terminal :=
  if PyStr.mem status fallback_labels then FallbackLabel
  else if String.eqb status "Completed" then Completed
  else if String.eqb status "Partial Failure" then PartialFailure
  else if is_Failed status then FailedStatus
  else NoTerminalStatus.

(** A sequence of stored values in which no value is smaller than one
    stored before it. *)
Definition never_decreases (l : list nat) : Prop :=
  forall i j a b,
    (i < j)%nat -> l !! i = Some a -> l !! j = Some b -> (a <= b)%nat.

(** ** A table with a short line *)

(** What [None.strip()] raises (lines 198-199). *)
Definition no_strip : Exn :=
  mkExn AttributeError "'NoneType' object has no attribute 'strip'".

(** The table [Email,FirstName / a@b.com,Al / b@c.org / c@d.net,Cy]: the
    second line has no first name. *)
Definition short_line_world : World :=
  mkWorld (CsvTable ["Email"; "FirstName"]
             [row2 "Al" "a@b.com"; short_row "b@c.org"; row2 "Cy" "c@d.net"])
          (HtmlTemplate greeting) None None None all_accepted.

(** A server that refuses the login. *)
Definition login_refused : Exn :=
  mkExn SMTPAuthenticationError
        "(535, b'5.7.8 Username and Password not accepted')".

(** * The upload form

    [allowed_file] (lines 142-145) and the view [index] (lines 503-600).
    What the view meets outside itself is a [Web] of outcomes: the value
    of [int] on the port, werkzeug's [secure_filename], the time stamp and
    the UUIDs drawn, and how the two saves, [get_db] and the insert with its
    commit go.  What it does is recorded, in order, in the [effects] of the
    [Site], next to the set of paths that exist under the upload folder.
    Paths are joined as on POSIX; removing a file that exists and starting
    the thread succeed. *)

(** ** Allowed file names *)

(** The text before the last [sep] of [s] and the text after it, when [s]
    has one. *)
Fixpoint rsplit_once (sep : ascii) (s : string) : option (string * string) :=
  match s with
  | EmptyString => None
  | String c s' =>
      match rsplit_once sep s' with
      | Some (head, tail) => Some (String c head, tail)
      | None => if Ascii.eqb c sep then Some (EmptyString, s') else None
      end
  end.

(** [s.rsplit(sep, 1)] for a one-character [sep]. *)
Definition rsplit1 (sep : ascii) (s : string) : list string :=
  match rsplit_once sep s with
  | Some (head, tail) => [head; tail]
  | None => [s]
  end.

Definition ALLOWED_EXTENSIONS_CSV : gset string := {["csv"]}.
Definition ALLOWED_EXTENSIONS_HTML : gset string := {["html"; "htm"]}.

(** [l[1]] on a list too short. *)
Definition index_error : Exn :=
  mkExn (PyOther "IndexError") "list index out of range".

Definition allowed_file (filename : string) (allowed_extensions : gset string)
    : Res bool :=
  if PyStr.contains "."%char filename then
    match rsplit1 "."%char filename !! 1%nat with
    | Some ext => Val (bool_decide (PyStr.lower ext ∈ allowed_extensions))
    | None => Raise index_error
    end
  else Val false.

(** ** The request and the site *)

(** [GET] stands for every method other than POST that reaches the view. *)
Inductive Method : Type := GET | POST.

(** An uploaded file, as far as the view looks at it. *)
Record FileStorage : Type := mkFileStorage { filename : string }.

Record Request : Type := mkRequest {
  method : Method;
  files : gmap string FileStorage;
  form : gmap string string
}.

(** The arguments of the thread (lines 581-592). *)
Record JobArgs : Type := mkJobArgs {
  arg_job_uuid : string;
  arg_csv_path : string;
  arg_html_path : string;
  arg_subject : string;
  arg_sender_email : string;
  arg_sender_password : string;
  arg_smtp_server : string;
  arg_smtp_port : Z;
  arg_use_tls : bool;
  arg_use_ssl : bool
}.

Inductive Effect : Type :=
  | Flash (message category : string)
  | SaveFile (path : string)
  | RemoveFile (path : string)
  | InsertJob (job_uuid csv_filename html_filename subject sender_email
               status : string)
  | StartThread (args : JobArgs).

(** How [file.save(path)] goes; a save that fails may leave a file. *)
Inductive SaveOutcome : Type :=
  | Saved
  | SaveFails (e : Exn) (file_left : bool).

(** How the insert and its commit go: a [sqlite3.Error] (or a subclass)
    with its text, or any other exception. *)
Inductive InsertOutcome : Type :=
  | Inserted
  | SqliteError (text : string)
  | InsertRaises (e : Exn).

Record Web : Type := mkWeb {
  int_ : string -> option Z;            (* [int(s)]; [None] for ValueError *)
  secure_filename : string -> string;
  timestamp : string;                   (* strftime("%Y%m%d%H%M%S") of now *)
  csv_uuid_hex : string;                (* uuid4().hex, line 547 *)
  html_uuid_hex : string;               (* uuid4().hex, line 548 *)
  job_uuid_str : string;                (* str(uuid4()), line 562 *)
  save_csv : SaveOutcome;
  save_html : SaveOutcome;
  db_connect : option Exn;              (* get_db(), line 563 *)
  db_insert : InsertOutcome
}.

Record Site : Type := mkSite {
  disk : gset string;
  effects : list Effect
}.

Inductive Response : Type :=
  | RedirectRequestUrl
  | RedirectDashboard
  | RenderIndex.

Definition effect (ev : Effect) (s : Site) : Site :=
  mkSite (disk s) (effects s ++ [ev]).

Definition flash (message category : string) (s : Site) : Site :=
  effect (Flash message category) s.

(** [file.save(path)]: the exception raised, if any, and the site after. *)
Definition save (outcome : SaveOutcome) (path : string) (s : Site)
    : option Exn * Site :=
  match outcome with
  | Saved => (None, mkSite ({[path]} ∪ disk s) (effects s ++ [SaveFile path]))
  | SaveFails e file_left =>
      (Some e,
       mkSite (if file_left then {[path]} ∪ disk s else disk s)
              (effects s ++ [SaveFile path]))
  end.

(** [if os.path.exists(path): os.remove(path)] *)
Definition remove_if_exists (path : string) (s : Site) : Site :=
  if bool_decide (path ∈ disk s)
  then mkSite (disk s ∖ {[path]}) (effects s ++ [RemoveFile path])
  else s.

(** [f"{timestamp}_{uuid.uuid4().hex[:8]}_{name}"] *)
Definition unique_filename (env : Web) (hex name : string) : string :=
  timestamp env +:+ "_" +:+ substring 0 8 hex +:+ "_" +:+ name.

(** [os.path.join(app.config['UPLOAD_FOLDER'], name)] *)
Definition upload_path (name : string) : string := "uploads/" +:+ name.

(** Lines 543-597, for a form that passed the checks. *)
Definition create_job (env : Web) (csv_file html_file : FileStorage)
    (subject sender_email sender_password smtp_server : string) (smtp_port : Z)
    (use_tls use_ssl : bool) (s : Site) : Res Response * Site :=
  let csv_filename := secure_filename env (filename csv_file) in
  let html_filename := secure_filename env (filename html_file) in
  let unique_csv_filename := unique_filename env (csv_uuid_hex env) csv_filename in
  let unique_html_filename := unique_filename env (html_uuid_hex env) html_filename in
  let csv_path := upload_path unique_csv_filename in
  let html_path := upload_path unique_html_filename in
  let on_save_error (e : Exn) (s' : Site) :=
    (Val RedirectRequestUrl, flash ("Error saving files: " +:+ exc_str e) "danger" s') in
  match save (save_csv env) csv_path s with
  | (Some e, s1) => on_save_error e s1
  | (None, s1) =>
      match save (save_html env) html_path s1 with
      | (Some e, s2) => on_save_error e s2
      | (None, s2) =>
          let job_uuid := job_uuid_str env in
          match db_connect env with
          | Some e => (Raise e, s2)
          | None =>
              match db_insert env with
              | SqliteError text =>
                  (Val RedirectRequestUrl,
                   remove_if_exists html_path
                     (remove_if_exists csv_path
                        (flash ("Database error creating job: " +:+ text) "danger" s2)))
              | InsertRaises e => (Raise e, s2)
              | Inserted =>
                  let s3 :=
                    effect (InsertJob job_uuid unique_csv_filename unique_html_filename
                              subject sender_email "Pending") s2 in
                  let s4 :=
                    effect (StartThread
                              (mkJobArgs job_uuid csv_path html_path subject sender_email
                                 sender_password smtp_server smtp_port use_tls use_ssl))
                           s3 in
                  (Val RedirectDashboard,
                   flash ("Email sending job started (Job ID: "
                          +:+ substring 0 8 job_uuid
                          +:+ "...). Check the dashboard for status.") "success" s4)
              end
          end
      end
  end.

(** The view of the route [/]. *)
Definition index (env : Web) (request : Request) (s : Site) : Res Response * Site :=
  match method request with
  | GET => (Val RenderIndex, s)
  | POST =>
      match files request !! "csv_file", files request !! "html_template" with
      | Some csv_file, Some html_file =>
          let subject := form request !! "subject" in
          let sender_email := form request !! "sender_email" in
          let sender_password := form request !! "sender_password" in
          let smtp_server := form request !! "smtp_server" in
          let smtp_port_str := form request !! "smtp_port" in
          let use_tls := bool_decide (form request !! "use_tls" = Some "true") in
          let use_ssl := bool_decide (form request !! "use_ssl" = Some "true") in
          if String.eqb (filename csv_file) "" || String.eqb (filename html_file) ""
          then (Val RedirectRequestUrl, flash "No selected file" "warning" s)
          else if negb (truthy_opt subject) || negb (truthy_opt sender_email)
                  || negb (truthy_opt sender_password) || negb (truthy_opt smtp_server)
                  || negb (truthy_opt smtp_port_str)
          then (Val RedirectRequestUrl, flash "Missing required form fields" "danger" s)
          else
            match int_ env (default "" smtp_port_str) with
            | None =>
                (Val RedirectRequestUrl, flash "Invalid SMTP port number" "danger" s)
            | Some smtp_port =>
                match allowed_file (filename csv_file) ALLOWED_EXTENSIONS_CSV with
                | Raise e => (Raise e, s)
                | OutOfFuel => (OutOfFuel, s)
                | Val false =>
                    (Val RedirectRequestUrl, flash "Invalid CSV file type" "danger" s)
                | Val true =>
                    match allowed_file (filename html_file) ALLOWED_EXTENSIONS_HTML with
                    | Raise e => (Raise e, s)
                    | OutOfFuel => (OutOfFuel, s)
                    | Val false =>
                        (Val RedirectRequestUrl,
                         flash "Invalid HTML file type" "danger" s)
                    | Val true =>
                        create_job env csv_file html_file
                          (default "" subject) (default "" sender_email)
                          (default "" sender_password) (default "" smtp_server)
                          smtp_port use_tls use_ssl s
                    end
                end
            end
      | _, _ => (Val RedirectRequestUrl, flash "Missing file part" "danger" s)
      end
  end.

(** ** What the form must be for a job to start *)

(** The fields that the view requires (line 525). *)
Definition required_fields : list string :=
  [ "subject"; "sender_email"; "sender_password"; "smtp_server"; "smtp_port" ].

(** A name that ends in a dot and an extension of the set, whatever the
    case of the extension. *)
Definition has_extension (allowed_extensions : gset string) (name : string) : Prop :=
  exists stem ext,
    name = stem +:+ "." +:+ ext
    /\ PyStr.contains "."%char ext = false
    /\ PyStr.lower ext ∈ allowed_extensions.

(** Both files are there, named, and of the right kind; every required
    field is filled in; the port is an integer. *)
Definition well_formed (env : Web) (request : Request) : Prop :=
  method request = POST
  /\ (exists csv_file, files request !! "csv_file" = Some csv_file
                       /\ has_extension ALLOWED_EXTENSIONS_CSV (filename csv_file))
  /\ (exists html_file, files request !! "html_template" = Some html_file
                        /\ has_extension ALLOWED_EXTENSIONS_HTML (filename html_file))
  /\ Forall (fun field => exists v, form request !! field = Some v /\ v <> "")
            required_fields
  /\ (exists v, form request !! "smtp_port" = Some v /\ is_Some (int_ env v)).

(** The thread that a request starts, if it starts one. *)
Definition started (s : Site) : list JobArgs :=
  omap (fun ev => match ev with StartThread args => Some args | _ => None end)
       (effects s).

Definition flashes (s : Site) : list (string * string) :=
  omap (fun ev => match ev with Flash m c => Some (m, c) | _ => None end)
       (effects s).

(** The paths under which a request saves its two files. *)
Definition csv_path_of (env : Web) (request : Request) : string :=
  upload_path
    (unique_filename env (csv_uuid_hex env)
       (secure_filename env
          (default "" (filename <$> files request !! "csv_file")))).

Definition html_path_of (env : Web) (request : Request) : string :=
  upload_path
    (unique_filename env (html_uuid_hex env)
       (secure_filename env
          (default "" (filename <$> files request !! "html_template")))).

(** ** A sample request *)

(** [int] on a plain run of decimal digits. *)
Fixpoint decimal (acc : Z) (s : string) : option Z :=
  match s with
  | EmptyString => Some acc
  | String c s' =>
      let n := nat_of_ascii c in
      if ((48 <=? n)%nat && (n <=? 57)%nat)
      then decimal (10 * acc + Z.of_nat (n - 48)) s'
      else None
  end.

Definition int_of_digits (s : string) : option Z :=
  match s with
  | EmptyString => None
  | _ => decimal 0 s
  end.

Definition sample_web (csv html : SaveOutcome) (insert : InsertOutcome) : Web :=
  mkWeb int_of_digits (fun name => name) "20240101120000"
        "0123456789abcdef0123456789abcdef" "fedcba9876543210fedcba9876543210"
        "8c1f4b1e-0d3a-4a52-9d57-0a1b2c3d4e5f"
        csv html None insert.

Definition sample_request : Request :=
  mkRequest POST
    (<["csv_file" := mkFileStorage "list.CSV"]>
       (<["html_template" := mkFileStorage "mail.html"]> ∅))
    (<["subject" := "Hello"]>
       (<["sender_email" := "me@example.org"]>
          (<["sender_password" := "secret"]>
             (<["smtp_server" := "smtp.example.org"]>
                (<["smtp_port" := "587"]>
                   (<["use_tls" := "true"]> (<["use_ssl" := "on"]> ∅))))))).

Definition empty_site : Site := mkSite ∅ [].

Definition removed (s : Site) : list string :=
  omap (fun ev => match ev with RemoveFile path => Some path | _ => None end)
       (effects s).

(** A form whose port is not a number. *)
Definition bad_port_request : Request :=
  mkRequest POST (files sample_request) (<["smtp_port" := "5x7"]> (form sample_request)).

(** * Properties *)

(** ** Python strings *)

Module PyStrFacts.
Import PyStr.

Lemma lstrip_first s c : first_char (lstrip s) = Some c -> is_space c = false.
Proof.
  induction s as [|d s IH]; simpl; [discriminate|].
  destruct (is_space d) eqn:E; [exact IH|].
  simpl. intros [= <-]. exact E.
Qed.

Lemma rstrip_last s c : last_char (rstrip s) = Some c -> is_space c = false.
Proof.
  revert c. induction s as [|d s IH]; simpl; intros c; [discriminate|].
  destruct (rstrip s) as [|e t] eqn:E.
  - destruct (is_space d) eqn:Ed; simpl; [discriminate|].
    intros [= <-]. exact Ed.
  - intros H. apply IH. exact H.
Qed.

Lemma rstrip_first s c :
  first_char s = Some c -> is_space c = false -> first_char (rstrip s) = Some c.
Proof.
  destruct s as [|d s]; simpl; [discriminate|].
  intros [= ->] Hc. destruct (rstrip s); [rewrite Hc|]; reflexivity.
Qed.

Lemma rstrip_first_inv s c :
  first_char (rstrip s) = Some c -> first_char s = Some c.
Proof.
  destruct s as [|d s]; simpl; [discriminate|].
  destruct (rstrip s); [destruct (is_space d)|]; simpl; congruence.
Qed.

Lemma strip_trimmed s : trimmed (strip s).
Proof.
  split; intros c H.
  - apply (lstrip_first s). apply rstrip_first_inv. exact H.
  - apply (rstrip_last (lstrip s)). exact H.
Qed.

Lemma rstrip_id s :
  (forall c, last_char s = Some c -> is_space c = false) -> rstrip s = s.
Proof.
  induction s as [|d s IH]; simpl; [reflexivity|].
  intros H. destruct s as [|e t].
  - simpl. rewrite (H d eq_refl). reflexivity.
  - rewrite IH by (intros c Hc; apply H; exact Hc). reflexivity.
Qed.

Lemma lstrip_id s :
  (forall c, first_char s = Some c -> is_space c = false) -> lstrip s = s.
Proof.
  destruct s as [|d s]; simpl; [reflexivity|].
  intros H. rewrite (H d eq_refl). reflexivity.
Qed.

(** Stripping a string that is already trimmed changes nothing. *)
Lemma strip_of_trimmed s : trimmed s -> strip s = s.
Proof.
  intros [Hf Hl]. unfold strip. rewrite (lstrip_id s Hf). apply rstrip_id, Hl.
Qed.

Lemma strip_idempotent s : strip (strip s) = strip s.
Proof. apply strip_of_trimmed, strip_trimmed. Qed.

End PyStrFacts.

(** ** Namespace and exception classes *)

Lemma bound_smtplib G : bound G "smtplib" = true.
Proof. reflexivity. Qed.

Lemma bound_ssl G : bound G "ssl" = true.
Proof. reflexivity. Qed.

Lemma shipped_lacks_timedelta : bound shipped "timedelta" = false.
Proof. reflexivity. Qed.

Lemma shipped_lacks_socket : bound shipped "socket" = false.
Proof. reflexivity. Qed.

Lemma issubclass_refl c : issubclass c c = true.
Proof.
  unfold issubclass. simpl. rewrite bool_decide_eq_true_2 by reflexivity.
  reflexivity.
Qed.

Lemma PyOther_not_smtp n : issubclass (PyOther n) SMTPException = false.
Proof. reflexivity. Qed.

Lemma PyOther_is_exception n : issubclass (PyOther n) Exception = true.
Proof. reflexivity. Qed.

(** Every class is an [Exception]. *)
Lemma issubclass_Exception c : issubclass c Exception = true.
Proof. destruct c; reflexivity. Qed.

(** A disconnection is an [SMTPException], so the order of the clauses of
    lines 369 and 387 matters. *)
Lemma disconnected_is_smtp c :
  issubclass c SMTPServerDisconnected = true -> issubclass c SMTPException = true.
Proof. destruct c; try reflexivity; discriminate. Qed.

(** Unfolding the combinators of the state and exception monad. *)
Ltac unfold_py :=
  unfold sleep, emit, set_clock, set_hourly_sent_count,
    set_current_hour_start_time, set_sent_count, set_failed_count,
    set_total_emails, set_connection_error, set_server, datetime_now,
    may_raise, with_lock, try_except, try_finally in *;
  unfold bind, ret, raise, lift, gets, modify in *.

(** ** The recipient list *)

Section RecipientSource.

Variables email_col first_name_col : string.

Lemma read_rows_app rows : forall acc,
  Forall (has_cells email_col first_name_col) rows ->
  read_rows email_col first_name_col rows acc
  = Val (acc ++ recipients_of email_col first_name_col rows)%list.
Proof.
  induction rows as [|row rows IH]; intros acc Hrows.
  - simpl. unfold recipients_of. simpl. rewrite app_nil_r. reflexivity.
  - inversion Hrows as [|? ? [[e He] [f Hf]] Hrest]; subst.
    assert (Hstep : read_rows email_col first_name_col (row :: rows) acc
                    = if kept email_col row
                      then read_rows email_col first_name_col rows
                             (acc ++ [recipient_of email_col first_name_col row])
                      else read_rows email_col first_name_col rows acc).
    { simpl. unfold kept, recipient_of, cell. rewrite He, Hf. reflexivity. }
    rewrite Hstep. unfold recipients_of. simpl. destruct (kept email_col row).
    + rewrite IH by assumption. simpl. rewrite <- app_assoc. reflexivity.
    + apply IH; assumption.
Qed.

Lemma kept_false_iff row :
  kept email_col row = false <->
  PyStr.strip (cell row email_col) = ""
  \/ PyStr.contains "@"%char (PyStr.strip (cell row email_col)) = false.
Proof.
  unfold kept, valid_email.
  destruct (PyStr.strip (cell row email_col)) as [|c s] eqn:E; simpl.
  - split; [left; reflexivity | reflexivity].
  - split.
    + intros H. right. exact H.
    + intros [H|H]; [discriminate | exact H].
Qed.

Lemma recipients_of_trimmed rows :
  Forall (fun r => PyStr.trimmed (email r) /\ PyStr.trimmed (first_name r)
                   /\ valid_email (email r) = true)
         (recipients_of email_col first_name_col rows).
Proof.
  unfold recipients_of. induction rows as [|row rows IH]; simpl.
  - constructor.
  - destruct (kept email_col row) eqn:K; [|exact IH].
    simpl. constructor; [|exact IH].
    repeat split; try apply PyStrFacts.strip_trimmed. exact K.
Qed.

(** A row without a cell for one of the columns stops the reading with an
    [AttributeError]. *)
Lemma read_rows_short_row row rows acc :
  row_get row email_col = None \/
  (is_Some (row_get row email_col) /\ row_get row first_name_col = None) ->
  read_rows email_col first_name_col (row :: rows) acc
  = Raise (mkExn AttributeError "'NoneType' object has no attribute 'strip'").
Proof.
  intros [H | [[e He] H]]; simpl.
  - rewrite H. reflexivity.
  - rewrite He, H. reflexivity.
Qed.

End RecipientSource.

Lemma load_recipients_table G w csv_path st fieldnames rows cols recipients :
  csv_file w = CsvTable fieldnames rows ->
  csv_header fieldnames = Val cols ->
  read_rows (snd cols) (fst cols) rows [] = Val recipients ->
  load_recipients G w csv_path st
  = (Val (recipients,
          if (length recipients =? 0)%nat
          then Some "Completed (No valid recipients found)" else None),
     after_csv (length recipients) st).
Proof.
  intros Hw Hh Hr. unfold load_recipients, read_csv. unfold_py.
  rewrite Hw. simpl. rewrite Hh, Hr.
  destruct (length recipients =? 0)%nat; reflexivity.
Qed.

(** For a table whose lines all have both cells: every data row has both
    fields trimmed; a row whose trimmed address is empty or has no [@] is
    skipped without error and is not counted in the job's total; the other
    rows become the recipients, in the order of the rows. *)
Theorem rows_become_recipients (G : Namespace) (w : World) (csv_path : string)
    (st : State) (fieldnames : list string) (rows : list Row)
    (first_name_col email_col : string) :
  csv_file w = CsvTable fieldnames rows ->
  csv_header fieldnames = Val (first_name_col, email_col) ->
  Forall (has_cells email_col first_name_col) rows ->
  (exists initial_error,
     fst (load_recipients G w csv_path st)
     = Val (map (recipient_of email_col first_name_col)
                (List.filter (kept email_col) rows), initial_error))
  /\ total_emails (snd (load_recipients G w csv_path st))
     = length (List.filter (kept email_col) rows)
  /\ (forall row,
        kept email_col row = false <->
        PyStr.strip (cell row email_col) = ""
        \/ PyStr.contains "@"%char (PyStr.strip (cell row email_col)) = false)
  /\ Forall (fun r => PyStr.trimmed (email r) /\ PyStr.trimmed (first_name r))
            (map (recipient_of email_col first_name_col)
                 (List.filter (kept email_col) rows)).
Proof.
  intros Hw Hh Hrows.
  pose proof (read_rows_app email_col first_name_col rows [] Hrows) as Hr.
  simpl in Hr.
  rewrite (load_recipients_table G w csv_path st fieldnames rows
             (first_name_col, email_col) _ Hw Hh Hr).
  unfold recipients_of. simpl. repeat split.
  - eexists. reflexivity.
  - rewrite length_map. reflexivity.
  - apply kept_false_iff.
  - apply kept_false_iff.
  - eapply Forall_impl; [apply recipients_of_trimmed|].
    simpl. intros r (He & Hf & _). split; assumption.
Qed.

Lemma sample_rows_have_cells : Forall (has_cells "Email" "FirstName") sample_rows.
Proof. repeat constructor; eexists; vm_compute; reflexivity. Qed.

Lemma rows_become_recipients_witness :
  exists initial_error,
    fst (load_recipients shipped (sample_world sample_rows None None all_accepted)
           "recipients.csv" (initial 0 0 0))
    = Val ([mkRecipient "a@b.com" "Al"; mkRecipient "b@c.org" "Bo"], initial_error).
Proof.
  exact (proj1 (rows_become_recipients shipped
                  (sample_world sample_rows None None all_accepted)
                  "recipients.csv" (initial 0 0 0)
                  ["FirstName"; "Email"] sample_rows "FirstName" "Email"
                  eq_refl eq_refl sample_rows_have_cells)).
Defined.

(** ** A job without recipients *)

(** C8. When the source parses to no valid recipient, the job ends in the
    status for a job without recipients (the text the function stores is
    [Completed (No valid recipients found)]); the template is not compiled
    and no SMTP command is issued. *)
Theorem no_recipients_no_session (G : Namespace) (w : World)
    (csv_path html_path : string) (use_tls use_ssl : bool)
    (t : Z) (count : nat) (window_start : Z)
    (fieldnames : list string) (rows : list Row) (cols : string * string) :
  csv_file w = CsvTable fieldnames rows ->
  csv_header fieldnames = Val cols ->
  read_rows (snd cols) (fst cols) rows [] = Val [] ->
  fst (run G w csv_path html_path use_tls use_ssl (initial t count window_start))
  = Val tt
  /\ trace (snd (run G w csv_path html_path use_tls use_ssl
                   (initial t count window_start)))
     = [ Db (UpdateStatusStart "Running" t); OpenCsv; Db (UpdateTotal 0);
         Db (UpdateStatusEnd "Completed (No valid recipients found)" t) ]
  /\ job_row (trace (snd (run G w csv_path html_path use_tls use_ssl
                            (initial t count window_start))))
     = mkJobRow "Completed (No valid recipients found)" (Some 0%nat) 0 0 (Some t)
  /\ Forall (fun ev => ev <> OpenHtml /\ ev <> CompileTemplate
                       /\ is_smtp_command ev = false)
            (trace (snd (run G w csv_path html_path use_tls use_ssl
                           (initial t count window_start)))).
Proof.
  intros Hw Hh Hr.
  assert (E : run G w csv_path html_path use_tls use_ssl (initial t count window_start)
              = (Val tt,
                 mkState t count window_start 0 0 0 None false
                   [ Db (UpdateStatusStart "Running" t); OpenCsv; Db (UpdateTotal 0);
                     Db (UpdateStatusEnd "Completed (No valid recipients found)" t) ])).
  { unfold run, send_emails_background.
    unfold bind at 1. unfold datetime_now, gets. simpl.
    unfold bind at 1. unfold emit at 1, modify. simpl.
    unfold bind at 1.
    rewrite (load_recipients_table G w csv_path _ fieldnames rows cols [] Hw Hh Hr).
    simpl. unfold load_template. unfold_py. simpl. reflexivity. }
  rewrite E. simpl. repeat split; try reflexivity.
  repeat constructor; discriminate.
Qed.

Lemma no_recipients_no_session_witness :
  job_row (trace (snd (run shipped
                         (sample_world [row2 "Cy" "notanemail"] None None all_accepted)
                         "recipients.csv" "mail.html" true false (initial 7 0 0))))
  = mkJobRow "Completed (No valid recipients found)" (Some 0%nat) 0 0 (Some 7).
Proof.
  exact (proj1 (proj2 (proj2 (no_recipients_no_session shipped
           (sample_world [row2 "Cy" "notanemail"] None None all_accepted)
           "recipients.csv" "mail.html" true false 7 0%nat 0
           ["FirstName"; "Email"] [row2 "Cy" "notanemail"] ("FirstName", "Email")
           eq_refl eq_refl eq_refl)))).
Defined.

(** ** Sequencing *)

Lemma bind_val {A B} (m : M A) (k : A -> M B) st a st' :
  m st = (Val a, st') -> bind m k st = k a st'.
Proof. intros H. unfold bind. rewrite H. reflexivity. Qed.

Lemma bind_raise {A B} (m : M A) (k : A -> M B) st e st' :
  m st = (Raise e, st') -> bind m k st = (Raise e, st').
Proof. intros H. unfold bind. rewrite H. reflexivity. Qed.

Lemma try_except_val {A} G (m : M A) hs st a st' :
  m st = (Val a, st') -> try_except G m hs st = (Val a, st').
Proof. intros H. unfold try_except. rewrite H. reflexivity. Qed.

Lemma try_except_raise {A} G (m : M A) hs st e st' :
  m st = (Raise e, st') -> try_except G m hs st = except_ G e hs st'.
Proof. intros H. unfold try_except. rewrite H. reflexivity. Qed.

(** ** Steps 1 and 2 *)

Lemma load_template_compiles G w html_path st t :
  html_file w = HtmlTemplate t ->
  (0 < total_emails st)%nat ->
  load_template G w html_path None st = (Val (Some t, None), after_html st).
Proof.
  intros Hw Hn. unfold load_template, read_html. unfold_py. simpl.
  apply Nat.ltb_lt in Hn. rewrite Hn, Hw. reflexivity.
Qed.

(** A job with a readable table of at least one recipient and a template
    that compiles reaches the [try] of line 257. *)
Lemma job_reaches_session G w csv_path html_path use_tls use_ssl t count window_start
    fieldnames rows cols r rest tpl :
  csv_file w = CsvTable fieldnames rows ->
  csv_header fieldnames = Val cols ->
  read_rows (snd cols) (fst cols) rows [] = Val (r :: rest) ->
  html_file w = HtmlTemplate tpl ->
  run G w csv_path html_path use_tls use_ssl (initial t count window_start)
  = smtp_session G w use_tls use_ssl (Some tpl) (r :: rest)
      (before_session t count window_start (S (length rest))).
Proof.
  intros Hw Hh Hr Ht. unfold run, send_emails_background.
  unfold bind at 1. unfold datetime_now, gets. simpl.
  unfold bind at 1. unfold emit at 1, modify. simpl.
  unfold bind at 1.
  rewrite (load_recipients_table G w csv_path _ fieldnames rows cols _ Hw Hh Hr).
  simpl.
  erewrite bind_val; [|apply load_template_compiles; [exact Ht | simpl; lia]].
  reflexivity.
Qed.

Lemma smtp_setup_succeeds w use_tls use_ssl st :
  smtp_connect w = None ->
  (use_ssl = false -> use_tls = true -> smtp_starttls w = None) ->
  smtp_login w = None ->
  smtp_setup w use_tls use_ssl st = (Val tt, after_setup use_tls use_ssl st).
Proof.
  intros Hc Ht Hl. unfold smtp_setup, after_setup. unfold_py.
  destruct use_ssl, use_tls; simpl; rewrite Hc; simpl;
    try rewrite (Ht eq_refl eq_refl); simpl; rewrite Hl; reflexivity.
Qed.

(** ** The two unbound names *)

(** Without [timedelta] a pass through the rate limit raises [NameError]
    on line 282 and releases the lock. *)
Lemma check_rate_limit_unbound G waiting st :
  bound G "timedelta" = false ->
  check_rate_limit G waiting st = (Raise (name_error "timedelta"), after_lock st).
Proof.
  intros H. unfold check_rate_limit, timedelta_hours_1, load_global. unfold_py.
  rewrite H. reflexivity.
Qed.

Lemma rate_gate_unbound G st :
  bound G "timedelta" = false ->
  rate_gate G st = (Raise (name_error "timedelta"), after_lock st).
Proof.
  intros H. unfold rate_gate, polls_needed. simpl.
  apply bind_raise. apply check_rate_limit_unbound. exact H.
Qed.

(** Without [socket] an exception that none of the first three clauses of
    line 411 takes is replaced by a [NameError] on line 421, and no handler
    runs. *)
Lemma setup_clauses_unbound G e st :
  bound G "socket" = false ->
  issubclass (exc_type e) SMTPAuthenticationError = false ->
  issubclass (exc_type e) SMTPConnectError = false ->
  issubclass (exc_type e) SMTPServerDisconnected = false ->
  except_ G e setup_handlers st = (Raise (name_error "socket"), st).
Proof.
  intros H H1 H2 H3. unfold setup_handlers.
  cbn [except_ eval_clause]. unfold load_global.
  rewrite !bound_smtplib, H1, H2, H3, H. reflexivity.
Qed.

(** ** The final update *)

Lemma finalize_runs st : finalize st = (Val tt, after_finalize st).
Proof.
  unfold finalize, after_finalize. unfold_py. simpl.
  destruct (server st), (truthy_opt (connection_error st)); reflexivity.
Qed.

(** Whatever way the [try] ends, the [finally] runs in the state it left. *)
Lemma try_finally_finalize {A} (body : M A) st r st1 :
  body st = (r, st1) ->
  r <> OutOfFuel ->
  try_finally body finalize st = (r, after_finalize st1).
Proof.
  intros H Hr. unfold try_finally. rewrite H, finalize_runs.
  destruct r; [reflexivity | reflexivity | contradiction].
Qed.

(** ** The module as shipped *)

(** C1. In the module as it is, neither [timedelta] nor [socket] is bound.
    For a job with at least one valid recipient whose SMTP connection and
    login succeed, the first pass of the send loop raises [NameError] on
    [timedelta]; matching it against the clauses of the setup [try] raises
    [NameError] on [socket], so no clause runs; no message is sent; and the
    [finally] stores [Failed: Unknown (No emails sent or failed)] with both
    counts zero. *)
Theorem unbound_names_end_every_job (w : World) (csv_path html_path : string)
    (use_tls use_ssl : bool) (t : Z) (count : nat) (window_start : Z)
    (fieldnames : list string) (rows : list Row) (cols : string * string)
    (r : Recipient) (rest : list Recipient) (tpl : Template) :
  csv_file w = CsvTable fieldnames rows ->
  csv_header fieldnames = Val cols ->
  read_rows (snd cols) (fst cols) rows [] = Val (r :: rest) ->
  html_file w = HtmlTemplate tpl ->
  smtp_connect w = None ->
  (use_ssl = false -> use_tls = true -> smtp_starttls w = None) ->
  smtp_login w = None ->
  bound shipped "timedelta" = false
  /\ bound shipped "socket" = false
  /\ (forall st, fst (rate_gate shipped st) = Raise (name_error "timedelta"))
  /\ (forall st, except_ shipped (name_error "timedelta") setup_handlers st
                 = (Raise (name_error "socket"), st))
  /\ fst (run shipped w csv_path html_path use_tls use_ssl
            (initial t count window_start))
     = Raise (name_error "socket")
  /\ connection_error (snd (run shipped w csv_path html_path use_tls use_ssl
                              (initial t count window_start))) = None
  /\ send_attempts (trace (snd (run shipped w csv_path html_path use_tls use_ssl
                                  (initial t count window_start)))) = []
  /\ trace (snd (run shipped w csv_path html_path use_tls use_ssl
                   (initial t count window_start)))
     = ([ Db (UpdateStatusStart "Running" t); OpenCsv;
          Db (UpdateTotal (S (length rest))); OpenHtml; CompileTemplate ]
        ++ setup_commands use_tls use_ssl
        ++ [ Acquire; Release;
             Db (UpdateFinal "Failed: Unknown (No emails sent or failed)" 0 0 t);
             Quit ])%list
  /\ job_row (trace (snd (run shipped w csv_path html_path use_tls use_ssl
                            (initial t count window_start))))
     = mkJobRow "Failed: Unknown (No emails sent or failed)"
                (Some (S (length rest))) 0 0 (Some t).
Proof.
  intros Hw Hh Hr Ht Hc Hs Hl.
  split; [reflexivity|]. split; [reflexivity|].
  split; [intros st; rewrite rate_gate_unbound by reflexivity; reflexivity|].
  split; [intros st; apply setup_clauses_unbound; reflexivity|].
  rewrite (job_reaches_session shipped w csv_path html_path use_tls use_ssl
             t count window_start fieldnames rows cols r rest tpl Hw Hh Hr Ht).
  set (st0 := before_session t count window_start (S (length rest))).
  assert (E : smtp_session shipped w use_tls use_ssl (Some tpl) (r :: rest) st0
              = (Raise (name_error "socket"),
                 after_finalize (after_lock (after_setup use_tls use_ssl st0)))).
  { unfold smtp_session. apply try_finally_finalize; [|discriminate].
    rewrite (try_except_raise _ _ _ _ (name_error "timedelta")
               (after_lock (after_setup use_tls use_ssl st0))).
    - apply setup_clauses_unbound; reflexivity.
    - erewrite bind_val; [|apply smtp_setup_succeeds; assumption].
      simpl send_loop. apply bind_raise. apply rate_gate_unbound. reflexivity. }
  rewrite E. subst st0.
  destruct use_ssl, use_tls; simpl; repeat split; reflexivity.
Qed.

Lemma unbound_names_end_every_job_witness :
  fst (run shipped (sample_world sample_rows None None all_accepted)
         "recipients.csv" "mail.html" true false (initial 0 0 0))
  = Raise (name_error "socket")
  /\ job_row (trace (snd (run shipped (sample_world sample_rows None None all_accepted)
                            "recipients.csv" "mail.html" true false (initial 0 0 0))))
     = mkJobRow "Failed: Unknown (No emails sent or failed)" (Some 2%nat) 0 0 (Some 0).
Proof.
  pose proof (unbound_names_end_every_job
                (sample_world sample_rows None None all_accepted)
                "recipients.csv" "mail.html" true false 0 0%nat 0
                ["FirstName"; "Email"] sample_rows ("FirstName", "Email")
                (mkRecipient "a@b.com" "Al") [mkRecipient "b@c.org" "Bo"] greeting
                eq_refl eq_refl eq_refl eq_refl eq_refl (fun _ _ => eq_refl) eq_refl)
    as H.
  split; [apply H | apply H].
Defined.

(** ** One pass through the rate limit *)

Lemma limit_positive : (SMTP_HOURLY_LIMIT <=? 0)%nat = false.
Proof. reflexivity. Qed.

Lemma check_rate_limit_bound G waiting st :
  bound G "timedelta" = true ->
  check_rate_limit G waiting st
  = (Val (granted st, negb (granted st)), after_check waiting st).
Proof.
  intros H.
  unfold check_rate_limit, timedelta_hours_1, load_global, after_check,
    status_updates, granted, reset_window, expired.
  unfold_py. rewrite H.
  cbn -[Nat.leb Z.leb Z.add SMTP_HOURLY_LIMIT ONE_HOUR paused_status].
  destruct (current_hour_start_time st + ONE_HOUR <=? clock st) eqn:E.
  - cbn -[Nat.leb Z.leb Z.add SMTP_HOURLY_LIMIT ONE_HOUR paused_status].
    rewrite limit_positive.
    destruct waiting; reflexivity.
  - cbn -[Nat.leb Z.leb Z.add SMTP_HOURLY_LIMIT ONE_HOUR paused_status].
    destruct (SMTP_HOURLY_LIMIT <=? hourly_sent_count st)%nat eqn:L;
      destruct waiting;
      cbn -[Nat.leb Z.leb Z.add SMTP_HOURLY_LIMIT ONE_HOUR paused_status];
      try rewrite H; reflexivity.
Qed.

Lemma rate_gate_loop_step G fuel waiting st :
  bound G "timedelta" = true ->
  rate_gate_loop G (S fuel) waiting st
  = if granted st then (Val tt, after_check waiting st)
    else rate_gate_loop G fuel true (after_sleep POLL_SLEEP (after_check waiting st)).
Proof.
  intros H. simpl rate_gate_loop.
  erewrite bind_val; [|apply check_rate_limit_bound; exact H].
  cbn [fst snd]. destruct (granted st); reflexivity.
Qed.

Lemma add_events_eq evs : forall st,
  add_events evs st
  = mkState (clock st) (hourly_sent_count st) (current_hour_start_time st)
            (sent_count st) (failed_count st) (total_emails st)
            (connection_error st) (server st) (trace st ++ evs)%list.
Proof.
  unfold add_events.
  induction evs as [|ev evs IH]; intros st; simpl.
  - rewrite app_nil_r. destruct st; reflexivity.
  - rewrite IH. simpl. rewrite <- app_assoc. reflexivity.
Qed.

(** A pass is one critical section; it leaves the clock and the job's
    counters alone, and the window as [reset_window] gives it. *)
Lemma after_check_eq waiting st :
  after_check waiting st
  = mkState (clock st) (hourly_sent_count (reset_window st))
            (current_hour_start_time (reset_window st))
            (sent_count st) (failed_count st) (total_emails st)
            (connection_error st) (server st)
            (trace st ++ [Acquire] ++ status_updates waiting st ++ [Release])%list.
Proof.
  unfold after_check. rewrite add_events_eq.
  unfold reset_window, expired, add_event. simpl.
  destruct (current_hour_start_time st + ONE_HOUR <=? clock st);
    simpl; rewrite <- !app_assoc; reflexivity.
Qed.

Lemma expired_granted st : expired st = true -> granted st = true.
Proof. unfold granted, reset_window. intros ->. reflexivity. Qed.

Lemma reset_window_count_le st :
  (hourly_sent_count (reset_window st) <= hourly_sent_count st)%nat.
Proof. unfold reset_window. destruct (expired st); simpl; lia. Qed.

(** ** The polling loop ends *)

Lemma polls_needed_after_sleep waiting st :
  granted st = false ->
  polls_needed st = S (polls_needed (after_sleep POLL_SLEEP (after_check waiting st))).
Proof.
  intros Hg.
  assert (He : expired st = false).
  { destruct (expired st) eqn:E; [|reflexivity].
    rewrite (expired_granted st E) in Hg. discriminate. }
  unfold polls_needed. rewrite after_check_eq. unfold after_sleep, reset_window.
  rewrite He. simpl. f_equal.
  unfold expired in He. apply Z.leb_gt in He.
  unfold POLL_SLEEP, ONE_HOUR in *.
  set (a := current_hour_start_time st + 3600000000 - clock st) in *.
  replace (current_hour_start_time st + 3600000000 - (clock st + 30000000)
           + 30000000 - 1) with (a - 1) by (subst a; lia).
  replace (a + 30000000 - 1) with (a - 1 + 1 * 30000000) by lia.
  rewrite Z.div_add by lia.
  assert (0 <= (a - 1) / 30000000) by (apply Z.div_pos; subst a; lia).
  rewrite Z2Nat.inj_add by lia. simpl. lia.
Qed.

Lemma rate_gate_loop_ends G : forall fuel waiting st,
  (polls_needed st <= fuel)%nat ->
  fst (rate_gate_loop G fuel waiting st) <> OutOfFuel.
Proof.
  destruct (bound G "timedelta") eqn:B.
  - induction fuel as [|fuel IH]; intros waiting st Hf.
    + unfold polls_needed in Hf. lia.
    + rewrite rate_gate_loop_step by exact B.
      destruct (granted st) eqn:Hg; [discriminate|].
      apply IH. rewrite (polls_needed_after_sleep waiting st Hg) in Hf. lia.
  - intros [|fuel] waiting st Hf.
    + unfold polls_needed in Hf. lia.
    + simpl rate_gate_loop.
      erewrite bind_raise; [|apply check_rate_limit_unbound; exact B].
      discriminate.
Qed.

Lemma rate_gate_ends G st : fst (rate_gate G st) <> OutOfFuel.
Proof. unfold rate_gate. apply rate_gate_loop_ends. lia. Qed.

(** More passes than are needed change nothing: the result of [rate_gate]
    is that of the unbounded loop. *)
Lemma rate_gate_loop_more_fuel G : forall fuel waiting st,
  (polls_needed st <= fuel)%nat ->
  rate_gate_loop G fuel waiting st
  = rate_gate_loop G (polls_needed st) waiting st.
Proof.
  destruct (bound G "timedelta") eqn:B.
  - induction fuel as [|fuel IH]; intros waiting st Hf.
    + unfold polls_needed in Hf. lia.
    + destruct (granted st) eqn:Hg.
      * unfold polls_needed.
        rewrite !rate_gate_loop_step by exact B. rewrite Hg. reflexivity.
      * rewrite (polls_needed_after_sleep waiting st Hg) in Hf |- *.
        rewrite !rate_gate_loop_step by exact B. rewrite Hg.
        apply IH. lia.
  - intros [|fuel] waiting st Hf.
    + unfold polls_needed in Hf. lia.
    + unfold polls_needed. simpl rate_gate_loop.
      erewrite !bind_raise by (apply check_rate_limit_unbound; exact B).
      reflexivity.
Qed.

(** The loop never raises the shared count. *)
Lemma rate_gate_loop_count_le G : forall fuel waiting st,
  (hourly_sent_count (snd (rate_gate_loop G fuel waiting st))
   <= hourly_sent_count st)%nat.
Proof.
  destruct (bound G "timedelta") eqn:B.
  - induction fuel as [|fuel IH]; intros waiting st.
    + simpl. lia.
    + rewrite rate_gate_loop_step by exact B.
      destruct (granted st).
      * cbn [snd]. rewrite after_check_eq. cbn [hourly_sent_count].
        apply reset_window_count_le.
      * etransitivity; [apply IH|].
        rewrite after_check_eq. unfold after_sleep.
        cbn [hourly_sent_count with_clock add_event].
        apply reset_window_count_le.
  - intros [|fuel] waiting st.
    + simpl. lia.
    + simpl rate_gate_loop.
      erewrite bind_raise; [|apply check_rate_limit_unbound; exact B].
      simpl. lia.
Qed.

(** ** One recipient *)

Lemma send_one_eq G w email_template i r st :
  send_one G w email_template i r st
  = match attempt_of w email_template i r with
    | Sent body =>
        (Val false, after_sent (add_event (SendMail (email r) body) st))
    | NotRendered e =>
        (Val false, after_failure (email r) (exc_str e) st)
    | NotSent body e =>
        if issubclass (exc_type e) SMTPServerDisconnected
        then (Val true,
              after_disconnect (email r) (add_event (SendMail (email r) body) st))
        else (Val false,
              after_failure (email r) (exc_str e)
                (add_event (SendMail (email r) body) st))
    end.
Proof.
  unfold send_one, attempt_of, render, sendmail.
  destruct email_template as [t|].
  - destruct (t (first_name r) (email r)) as [body|c txt].
    + destruct (smtp_sendmail w i) as [e|].
      * unfold_py. simpl.
        destruct (issubclass (exc_type e) SMTPServerDisconnected);
          [reflexivity|].
        rewrite issubclass_Exception.
        destruct (issubclass (exc_type e) SMTPException); reflexivity.
      * unfold_py. reflexivity.
    + unfold_py. reflexivity.
  - unfold_py. reflexivity.
Qed.

Lemma failure_records_app tr1 tr2 :
  failure_records (tr1 ++ tr2) = (failure_records tr1 ++ failure_records tr2)%list.
Proof. unfold failure_records. apply omap_app. Qed.

(** C7. For a recipient of the send loop whose message does not render, or
    whose message the server rejects, the handling of that recipient (the
    [try] of line 341 with its clauses) adds one to the count of failures,
    appends one failure record with the recipient's address and the text of
    the error, leaves the sent count, the connection error and the shared
    count alone, and does not ask the loop to stop; and the loop, once the
    rate limit has let that recipient through, goes on with the next
    recipient from the state that the handling left.  This holds in every
    namespace. *)
Theorem recipient_failure_continues (G : Namespace) (w : World)
    (email_template : option Template) (i : nat) (r : Recipient)
    (rest : list Recipient) (st : State) (e : Exn) :
  render_error (attempt_of w email_template i r) e
  \/ send_rejected (attempt_of w email_template i r) e ->
  fst (send_one G w email_template i r st) = Val false
  /\ failed_count (snd (send_one G w email_template i r st))
     = (failed_count st + 1)%nat
  /\ failure_records (trace (snd (send_one G w email_template i r st)))
     = (failure_records (trace st) ++ [(email r, exc_str e)])%list
  /\ sent_count (snd (send_one G w email_template i r st)) = sent_count st
  /\ connection_error (snd (send_one G w email_template i r st))
     = connection_error st
  /\ hourly_sent_count (snd (send_one G w email_template i r st))
     = hourly_sent_count st
  /\ (forall st0,
        send_loop G w email_template i (r :: rest) st0
        = match rate_gate G st0 with
          | (Val _, st1) =>
              send_loop G w email_template (S i) rest
                (snd (send_one G w email_template i r st1))
          | (Raise e', st1) => (Raise e', st1)
          | (OutOfFuel, st1) => (OutOfFuel, st1)
          end).
Proof.
  intros Hf.
  assert (Hs : forall s,
            send_one G w email_template i r s
            = (Val false,
               after_failure (email r) (exc_str e)
                 (attempted (email r) (attempt_of w email_template i r) s))).
  { intros s. rewrite send_one_eq.
    destruct Hf as [Hr | (body & Ha & _ & Hd)].
    - unfold render_error in Hr. rewrite Hr. reflexivity.
    - rewrite Ha, Hd. reflexivity. }
  rewrite Hs. cbn [fst snd]. unfold after_failure.
  split; [reflexivity|].
  split; [destruct (attempt_of w email_template i r); reflexivity|].
  split.
  { destruct (attempt_of w email_template i r); simpl;
      rewrite ?failure_records_app; simpl; rewrite ?app_nil_r; reflexivity. }
  split; [destruct (attempt_of w email_template i r); reflexivity|].
  split; [destruct (attempt_of w email_template i r); reflexivity|].
  split; [destruct (attempt_of w email_template i r); reflexivity|].
  intros st0. simpl send_loop. unfold bind at 1.
  destruct (rate_gate G st0) as [[[]|e'|] st1]; try reflexivity.
  unfold bind. rewrite Hs. reflexivity.
Qed.

Lemma recipient_failure_continues_witness :
  fst (send_one shipped
         (sample_world three_rows None None
            (fails_at 1 (mkExn SMTPRecipientsRefused "550 mailbox unavailable")))
         (Some greeting) 1 (mkRecipient "b@c.org" "Bo") (initial 0 0 0))
  = Val false
  /\ failed_count
       (snd (send_one shipped
               (sample_world three_rows None None
                  (fails_at 1 (mkExn SMTPRecipientsRefused "550 mailbox unavailable")))
               (Some greeting) 1 (mkRecipient "b@c.org" "Bo") (initial 0 0 0)))
     = 1%nat
  /\ failure_records
       (trace (snd (send_one shipped
                      (sample_world three_rows None None
                         (fails_at 1 (mkExn SMTPRecipientsRefused
                                        "550 mailbox unavailable")))
                      (Some greeting) 1 (mkRecipient "b@c.org" "Bo") (initial 0 0 0))))
     = [("b@c.org", "550 mailbox unavailable")].
Proof.
  destruct (recipient_failure_continues shipped
              (sample_world three_rows None None
                 (fails_at 1 (mkExn SMTPRecipientsRefused "550 mailbox unavailable")))
              (Some greeting) 1 (mkRecipient "b@c.org" "Bo")
              [mkRecipient "c@d.net" "Cy"] (initial 0 0 0)
              (mkExn SMTPRecipientsRefused "550 mailbox unavailable")
              (or_intror (ex_intro _ "Hello Bo" (conj eq_refl (conj eq_refl eq_refl)))))
    as (H1 & H2 & H3 & _).
  split; [exact H1|]. split; [exact H2 | exact H3].
Defined.

(** ** The shared count *)

(** The polling loop leaves the job's own counters alone. *)
Lemma rate_gate_loop_sent_count G : forall fuel waiting st,
  sent_count (snd (rate_gate_loop G fuel waiting st)) = sent_count st.
Proof.
  destruct (bound G "timedelta") eqn:B.
  - induction fuel as [|fuel IH]; intros waiting st; [reflexivity|].
    rewrite rate_gate_loop_step by exact B.
    destruct (granted st).
    + cbn [snd]. rewrite after_check_eq. reflexivity.
    + rewrite IH. rewrite after_check_eq. reflexivity.
  - intros [|fuel] waiting st; [reflexivity|].
    simpl rate_gate_loop.
    erewrite bind_raise; [|apply check_rate_limit_unbound; exact B].
    reflexivity.
Qed.

(** Over the send loop the shared count grows by at most the number of
    sends that went through. *)
Lemma send_loop_count G w email_template : forall recipients i st,
  (hourly_sent_count (snd (send_loop G w email_template i recipients st))
   + sent_count st
   <= hourly_sent_count st
      + sent_count (snd (send_loop G w email_template i recipients st)))%nat.
Proof.
  induction recipients as [|r rest IH]; intros i st.
  - simpl. lia.
  - simpl send_loop. unfold bind.
    pose proof (rate_gate_loop_count_le G (polls_needed st) false st) as Hc.
    pose proof (rate_gate_loop_sent_count G (polls_needed st) false st) as Hs.
    change (rate_gate_loop G (polls_needed st) false st) with (rate_gate G st) in *.
    destruct (rate_gate G st) as [[[]|e|] st1]; cbn [snd] in *; try lia.
    rewrite send_one_eq.
    destruct (attempt_of w email_template i r) as [body|e|body e].
    + specialize (IH (S i) (after_sent (add_event (SendMail (email r) body) st1))).
      simpl in IH. lia.
    + specialize (IH (S i) (after_failure (email r) (exc_str e) st1)).
      simpl in IH. lia.
    + destruct (issubclass (exc_type e) SMTPServerDisconnected).
      * simpl. lia.
      * specialize (IH (S i) (after_failure (email r) (exc_str e)
                                (add_event (SendMail (email r) body) st1))).
        simpl in IH. lia.
Qed.

(** C10. The shared count of the rolling window grows only after a send
    went through: an attempt that fails to render, that the server rejects
    or on which the server disconnects leaves it as it is; a send that went
    through adds one, after the call of [sendmail] and the store of the
    job's count; neither the polling loop nor the send loop adds more. *)
Theorem hourly_count_follows_sends (G : Namespace) (w : World)
    (email_template : option Template) (i : nat) (r : Recipient) (st : State) :
  hourly_sent_count (snd (send_one G w email_template i r st))
  = (hourly_sent_count st
     + match attempt_of w email_template i r with Sent _ => 1 | _ => 0 end)%nat
  /\ trace (snd (send_one G w email_template i r st))
     = (trace st
        ++ match attempt_of w email_template i r with
           | Sent body =>
               [ SendMail (email r) body; Db (UpdateSent (sent_count st + 1));
                 Acquire; Release; Sleep SEND_DELAY_SECONDS ]
           | NotRendered e =>
               [ Db (InsertFailedEmail (email r) (exc_str e));
                 Db (UpdateFailed (failed_count st + 1)) ]
           | NotSent body e =>
               if issubclass (exc_type e) SMTPServerDisconnected
               then [ SendMail (email r) body;
                      Db (InsertFailedEmail (email r) "SMTPServerDisconnected (mid-send)");
                      Db (UpdateFailedStatus (failed_count st + 1)
                            "Error: Server Disconnected") ]
               else [ SendMail (email r) body;
                      Db (InsertFailedEmail (email r) (exc_str e));
                      Db (UpdateFailed (failed_count st + 1)) ]
           end)%list
  /\ (forall fuel waiting st',
        (hourly_sent_count (snd (rate_gate_loop G fuel waiting st'))
         <= hourly_sent_count st')%nat)
  /\ (forall recipients j st',
        (hourly_sent_count (snd (send_loop G w email_template j recipients st'))
         + sent_count st'
         <= hourly_sent_count st'
            + sent_count (snd (send_loop G w email_template j recipients st')))%nat).
Proof.
  split; [|split; [|split]].
  - rewrite send_one_eq.
    destruct (attempt_of w email_template i r) as [body|e|body e]; simpl;
      try lia.
    destruct (issubclass (exc_type e) SMTPServerDisconnected); simpl; lia.
  - rewrite send_one_eq.
    destruct (attempt_of w email_template i r) as [body|e|body e]; simpl;
      rewrite <- ?app_assoc; try reflexivity.
    destruct (issubclass (exc_type e) SMTPServerDisconnected); simpl;
      rewrite <- ?app_assoc; reflexivity.
  - apply rate_gate_loop_count_le.
  - apply send_loop_count.
Qed.

(** ** The rate limit *)

(** C4.  In the module as it is, no reservation attempt is answered.  Every
    pass through the critical section of lines 280-320 raises [NameError]
    on [timedelta] at line 282, inside the lock, which is released; the
    window is neither reset nor counted, no status is stored, the caller
    does not sleep, and the polling loop ends with that exception at its
    first pass.  The operation of the specification answers every attempt,
    and grants it when a slot is free. *)
Theorem reservation_raises_name_error (waiting : bool) (st : State) :
  fst (check_rate_limit shipped waiting st) = Raise (name_error "timedelta")
  /\ trace (snd (check_rate_limit shipped waiting st))
     = (trace st ++ [Acquire; Release])%list
  /\ hourly_sent_count (snd (check_rate_limit shipped waiting st))
     = hourly_sent_count st
  /\ current_hour_start_time (snd (check_rate_limit shipped waiting st))
     = current_hour_start_time st
  /\ fst (rate_gate shipped st) = Raise (name_error "timedelta")
  /\ trace (snd (rate_gate shipped st)) = (trace st ++ [Acquire; Release])%list
  /\ ((hourly_sent_count st < SMTP_HOURLY_LIMIT)%nat ->
      fst (tryReserveSlot SMTP_HOURLY_LIMIT (clock st) (hourly_sent_count st)
             (current_hour_start_time st)) = Granted)
  /\ (fst (tryReserveSlot SMTP_HOURLY_LIMIT (clock st) (hourly_sent_count st)
             (current_hour_start_time st)) = Granted
      \/ exists expiry,
           fst (tryReserveSlot SMTP_HOURLY_LIMIT (clock st) (hourly_sent_count st)
                  (current_hour_start_time st)) = Denied expiry).
Proof.
  rewrite (check_rate_limit_unbound shipped waiting st eq_refl).
  rewrite (rate_gate_unbound shipped st eq_refl).
  cbn [fst snd]. unfold after_lock, add_event.
  cbn [trace hourly_sent_count current_hour_start_time].
  split; [reflexivity|]. split; [rewrite <- app_assoc; reflexivity|].
  split; [reflexivity|]. split; [reflexivity|]. split; [reflexivity|].
  split; [rewrite <- app_assoc; reflexivity|].
  unfold tryReserveSlot. cbv zeta.
  split.
  - intros Hlt.
    destruct (current_hour_start_time st + ONE_HOUR <=? clock st).
    + reflexivity.
    + apply Nat.ltb_lt in Hlt. rewrite Hlt. reflexivity.
  - match goal with
    | |- context [(?a <? ?b)%nat] => destruct (a <? b)%nat
    end.
    + left. reflexivity.
    + right. eexists. reflexivity.
Qed.

(** *** The pass once [timedelta] is bound *)

(** With [timedelta] bound, a pass that lets the job through leaves the
    count of the window as it is, where [tryReserveSlot] would have taken
    the slot: the code counts a send after it went through (line 361). *)
Lemma grant_does_not_reserve :
  fst (check_rate_limit with_timedelta false (initial 0 0 0)) = Val (true, false)
  /\ hourly_sent_count (snd (check_rate_limit with_timedelta false (initial 0 0 0)))
     = 0%nat
  /\ tryReserveSlot SMTP_HOURLY_LIMIT 0 0 0 = (Granted, (1%nat, 0))
  /\ (hourly_sent_count (snd (check_rate_limit with_timedelta false (initial 0 0 0))),
      current_hour_start_time
        (snd (check_rate_limit with_timedelta false (initial 0 0 0))))
     <> snd (tryReserveSlot SMTP_HOURLY_LIMIT 0 0 0).
Proof. repeat split; try reflexivity. vm_compute. discriminate. Qed.

(** With [timedelta] bound, every pass through the rate limit is one
    critical section; it first resets the window (count 0, start
    now) when now >= start + 1h; then it lets the job through exactly when
    the count is below the limit of 300, without changing the count; else
    it denies, and the first denial of a pause stores the paused status
    with the end of the window.  A denied job sleeps 30 seconds after the
    lock is released and polls again.  The count grows by one in a critical
    section of its own after a send went through. *)
Theorem reservation_attempt (G : Namespace) (waiting : bool) (st : State)
    (fuel : nat) :
  bound G "timedelta" = true ->
  check_rate_limit G waiting st
  = (Val (granted st, negb (granted st)), after_check waiting st)
  /\ trace (after_check waiting st)
     = (trace st ++ [Acquire] ++ status_updates waiting st ++ [Release])%list
  /\ Forall (fun ev => exists status, ev = Db (UpdateStatus status))
            (status_updates waiting st)
  /\ (hourly_sent_count (after_check waiting st),
      current_hour_start_time (after_check waiting st))
     = (if current_hour_start_time st + ONE_HOUR <=? clock st
        then (0%nat, clock st)
        else (hourly_sent_count st, current_hour_start_time st))
  /\ (granted st = true <->
      (hourly_sent_count (after_check waiting st) < SMTP_HOURLY_LIMIT)%nat)
  /\ SMTP_HOURLY_LIMIT = 300%nat
  /\ (granted st = true ->
      rate_gate_loop G (S fuel) waiting st = (Val tt, after_check waiting st))
  /\ (granted st = false ->
      (waiting = false ->
       status_updates waiting st
       = [Db (UpdateStatus (paused_status (current_hour_start_time st + ONE_HOUR)))])
      /\ rate_gate_loop G (S fuel) waiting st
         = rate_gate_loop G fuel true (after_sleep POLL_SLEEP (after_check waiting st))
      /\ trace (after_sleep POLL_SLEEP (after_check waiting st))
         = (trace st ++ [Acquire] ++ status_updates waiting st
            ++ [Release; Sleep POLL_SLEEP])%list
      /\ clock (after_sleep POLL_SLEEP (after_check waiting st))
         = clock st + 30000000)
  /\ (forall w email_template i r body st',
        attempt_of w email_template i r = Sent body ->
        hourly_sent_count (snd (send_one G w email_template i r st'))
        = (hourly_sent_count st' + 1)%nat
        /\ trace (snd (send_one G w email_template i r st'))
           = (trace st' ++ [ SendMail (email r) body;
                             Db (UpdateSent (sent_count st' + 1));
                             Acquire; Release; Sleep SEND_DELAY_SECONDS ])%list).
Proof.
  intros B.
  split; [apply check_rate_limit_bound; exact B|].
  split; [rewrite after_check_eq; reflexivity|].
  split.
  { unfold status_updates. destruct (granted st), waiting;
      repeat constructor; eexists; reflexivity. }
  split.
  { rewrite after_check_eq. unfold reset_window, expired.
    destruct (current_hour_start_time st + ONE_HOUR <=? clock st); reflexivity. }
  split.
  { rewrite after_check_eq. cbn [hourly_sent_count]. unfold granted.
    rewrite negb_true_iff, Nat.leb_gt. reflexivity. }
  split; [reflexivity|].
  split.
  { intros Hg. rewrite rate_gate_loop_step by exact B. rewrite Hg. reflexivity. }
  split.
  { intros Hg. assert (He : expired st = false).
    { destruct (expired st) eqn:E; [|reflexivity].
      rewrite (expired_granted st E) in Hg. discriminate. }
    split; [|split; [|split]].
    - intros ->. unfold status_updates, reset_window. rewrite Hg, He. reflexivity.
    - rewrite rate_gate_loop_step by exact B. rewrite Hg. reflexivity.
    - unfold after_sleep. rewrite after_check_eq. simpl.
      rewrite <- !app_assoc. simpl. rewrite <- !app_assoc. reflexivity.
    - unfold after_sleep. rewrite after_check_eq. reflexivity. }
  intros w email_template i r body st' Ha.
  rewrite send_one_eq, Ha. simpl. rewrite <- !app_assoc. split; reflexivity.
Qed.

Lemma reservation_attempt_witness :
  check_rate_limit with_timedelta false (initial 100000000 300 0)
  = (Val (false, true), after_check false (initial 100000000 300 0))
  /\ trace (after_check false (initial 100000000 300 0))
     = [ Acquire;
         Db (UpdateStatus "Paused - Hourly Limit (300/hr). Resumes ~01:00:00");
         Release ].
Proof.
  pose proof (reservation_attempt with_timedelta false
                (initial 100000000 300 0) 0 eq_refl) as (H1 & H2 & _).
  split; [exact H1 | exact H2].
Defined.

(** ** The final status *)

Lemma statements_app tr1 tr2 :
  statements (tr1 ++ tr2) = (statements tr1 ++ statements tr2)%list.
Proof. unfold statements. apply omap_app. Qed.

Lemma job_row_app tr1 tr2 :
  job_row (tr1 ++ tr2) = fold_left apply_sql (statements tr2) (job_row tr1).
Proof. unfold job_row. rewrite statements_app. apply fold_left_app. Qed.

Lemma after_finalize_trace st :
  trace (after_finalize st)
  = (trace st
     ++ [Db (UpdateFinal
               (fst (fst (final_record (connection_error st) (sent_count st)
                            (failed_count st) (total_emails st))))
               (snd (fst (final_record (connection_error st) (sent_count st)
                            (failed_count st) (total_emails st))))
               (snd (final_record (connection_error st) (sent_count st)
                       (failed_count st) (total_emails st)))
               (clock st))]
     ++ (if server st then [Quit] else []))%list.
Proof.
  unfold after_finalize. destruct (server st); simpl.
  - rewrite <- app_assoc. reflexivity.
  - reflexivity.
Qed.

Ltac split_counts :=
  repeat match goal with
         | |- context [(?a =? ?b)%nat] => destruct (Nat.eqb_spec a b)
         | |- context [(?a <? ?b)%nat] => destruct (Nat.ltb_spec a b)
         end; simpl.

Lemma status_Completed sent failed total :
  status_from_counts sent failed total = "Completed"
  <-> failed = 0%nat /\ sent = total.
Proof.
  unfold status_from_counts. split_counts; split;
    try discriminate; try (intros [? ?]; lia); try (intros _; split; lia).
Qed.

Lemma status_Partial_Failure sent failed total :
  status_from_counts sent failed total = "Partial Failure"
  <-> (0 < sent)%nat /\ (0 < failed)%nat.
Proof.
  unfold status_from_counts. split_counts; split;
    try discriminate; try (intros [? ?]; lia); try (intros _; split; lia).
Qed.

Lemma status_Failed_All sent failed total :
  (0 < total)%nat ->
  status_from_counts sent failed total = "Failed: All emails"
  <-> sent = 0%nat /\ failed = total.
Proof.
  intros Ht. unfold status_from_counts. split_counts; split;
    try discriminate; try (intros [? ?]; lia); try (intros _; split; lia).
Qed.

Lemma status_is_a_label sent failed total :
  In (status_from_counts sent failed total)
     (["Completed"; "Partial Failure"; "Failed: All emails"] ++ fallback_labels).
Proof.
  unfold status_from_counts, fallback_labels. split_counts; tauto.
Qed.

Lemma final_status_truthy ce sent failed total :
  PyStr.truthy (fst (fst (final_record ce sent failed total))) = true.
Proof.
  unfold final_record. destruct (truthy_opt ce) eqn:E; simpl.
  - destruct ce as [msg|]; [exact E | discriminate].
  - pose proof (status_is_a_label sent failed total) as H. simpl in H.
    repeat (destruct H as [<- | H]; [reflexivity|]). contradiction.
Qed.

(** ** The function ends *)

Lemma read_rows_ends ec fc rows : forall acc,
  read_rows ec fc rows acc <> OutOfFuel.
Proof.
  induction rows as [|row rows IH]; intros acc; simpl; [discriminate|].
  destruct (strip_cell (row_get row ec)) as [a|e|] eqn:Ea;
    [|discriminate|destruct (row_get row ec); discriminate].
  destruct (strip_cell (row_get row fc)) as [b|e|] eqn:Eb;
    [|discriminate|destruct (row_get row fc); discriminate].
  destruct (valid_email a); apply IH.
Qed.

Lemma csv_header_ends fieldnames : csv_header fieldnames <> OutOfFuel.
Proof.
  unfold csv_header.
  repeat match goal with |- context [if ?b then _ else _] => destruct b end;
    discriminate.
Qed.

Lemma load_recipients_ends G w csv_path st :
  fst (load_recipients G w csv_path st) <> OutOfFuel.
Proof.
  unfold load_recipients, read_csv. unfold_py. simpl.
  destruct (csv_file w) as [e|fieldnames rows]; simpl.
  - repeat match goal with |- context [if ?b then _ else _] => destruct b end;
      simpl; discriminate.
  - pose proof (csv_header_ends fieldnames) as Hh.
    destruct (csv_header fieldnames) as [cols|e|]; [| |contradiction].
    + pose proof (read_rows_ends (snd cols) (fst cols) rows []) as Hr.
      destruct (read_rows (snd cols) (fst cols) rows []) as [rs|e|];
        [| |contradiction]; simpl.
      * destruct (length rs =? 0)%nat; discriminate.
      * repeat match goal with |- context [if ?b then _ else _] => destruct b end;
          simpl; discriminate.
    + simpl.
      repeat match goal with |- context [if ?b then _ else _] => destruct b end;
        simpl; discriminate.
Qed.

Lemma load_template_ends G w html_path initial_error st :
  fst (load_template G w html_path initial_error st) <> OutOfFuel.
Proof.
  unfold load_template, read_html. unfold_py. simpl.
  destruct (negb (truthy_opt initial_error) && (0 <? total_emails st)%nat);
    [|discriminate].
  destruct (html_file w) as [e|e|t]; simpl;
    repeat match goal with |- context [if ?b then _ else _] => destruct b end;
    simpl; discriminate.
Qed.

Lemma send_loop_ends G w email_template : forall recipients i st,
  fst (send_loop G w email_template i recipients st) <> OutOfFuel.
Proof.
  induction recipients as [|r rest IH]; intros i st; [discriminate|].
  simpl send_loop. unfold bind.
  pose proof (rate_gate_ends G st) as Hg.
  destruct (rate_gate G st) as [[[]|e|] st1]; [|discriminate|contradiction].
  rewrite send_one_eq.
  destruct (attempt_of w email_template i r) as [body|e|body e];
    try apply IH.
  destruct (issubclass (exc_type e) SMTPServerDisconnected);
    [discriminate | apply IH].
Qed.

Lemma smtp_setup_ends w use_tls use_ssl st :
  fst (smtp_setup w use_tls use_ssl st) <> OutOfFuel.
Proof.
  unfold smtp_setup. unfold_py.
  destruct use_ssl, use_tls, (smtp_connect w), (smtp_starttls w), (smtp_login w);
    simpl; discriminate.
Qed.

Lemma setup_handlers_end G e st :
  fst (except_ G e setup_handlers st) <> OutOfFuel.
Proof.
  unfold setup_handlers. cbn [except_ eval_clause]. unfold load_global.
  unfold_py.
  repeat match goal with |- context [if ?b then _ else _] => destruct b end;
    simpl; discriminate.
Qed.

Lemma smtp_session_finalizes G w use_tls use_ssl email_template recipients st :
  exists r st1,
    r <> OutOfFuel
    /\ smtp_session G w use_tls use_ssl email_template recipients st
       = (r, after_finalize st1).
Proof.
  unfold smtp_session.
  set (body := try_except G _ setup_handlers).
  assert (Hb : fst (body st) <> OutOfFuel).
  { subst body. unfold try_except.
    pose proof (smtp_setup_ends w use_tls use_ssl st) as Hs.
    unfold bind at 1.
    destruct (smtp_setup w use_tls use_ssl st) as [[[]|e|] st1];
      [| apply setup_handlers_end | contradiction].
    pose proof (send_loop_ends G w email_template recipients 0 st1) as Hl.
    destruct (send_loop G w email_template 0 recipients st1) as [[[]|e|] st2];
      [discriminate | apply setup_handlers_end | contradiction]. }
  destruct (body st) as [r st1] eqn:E.
  exists r, st1. split; [exact Hb|].
  apply try_finally_finalize; [exact E | exact Hb].
Qed.

(** The function returns or raises from every state: its loops end. *)
Lemma run_ends G w csv_path html_path use_tls use_ssl st :
  fst (run G w csv_path html_path use_tls use_ssl st) <> OutOfFuel.
Proof.
  unfold run, send_emails_background.
  unfold bind at 1. unfold datetime_now, gets. cbn [fst snd].
  unfold bind at 1. unfold emit at 1, modify. cbn [fst snd].
  unfold bind at 1.
  pose proof (load_recipients_ends G w csv_path
                (add_event (Db (UpdateStatusStart "Running" (clock st))) st)) as H1.
  destruct (load_recipients G w csv_path _) as [[p|e|] st1];
    [|discriminate|contradiction].
  unfold bind at 1.
  pose proof (load_template_ends G w html_path (snd p) st1) as H2.
  destruct (load_template G w html_path (snd p) st1) as [[q|e|] st2];
    [|discriminate|contradiction].
  destruct (truthy_opt (snd q)).
  - unfold_py. discriminate.
  - destruct (smtp_session_finalizes G w use_tls use_ssl (fst q) (fst p) st2)
      as (r & st3 & Hr & E).
    rewrite E. exact Hr.
Qed.

(** ** A disconnection in the middle of the loop, once [timedelta] is bound *)

(** A disconnection on a send ends the loop at once: the recipients after
    it are not attempted, and the connection error that is recorded makes
    the final update store nothing sent and every recipient failed. *)
Lemma disconnect_ends_loop G w email_template i r rest st st1 body e :
  rate_gate G st = (Val tt, st1) ->
  attempt_of w email_template i r = NotSent body e ->
  issubclass (exc_type e) SMTPServerDisconnected = true ->
  send_loop G w email_template i (r :: rest) st
  = (Val tt, after_disconnect (email r) (add_event (SendMail (email r) body) st1))
  /\ final_record
       (connection_error
          (after_disconnect (email r) (add_event (SendMail (email r) body) st1)))
       (sent_count st1) (failed_count st1 + 1) (total_emails st1)
     = ("Server disconnected unexpectedly (mid-send). Might be rate limited or timed out.",
        0%nat, total_emails st1).
Proof.
  intros Hg Ha Hd. split; [|reflexivity].
  simpl send_loop. erewrite bind_val; [|exact Hg].
  erewrite bind_val; [|rewrite send_one_eq, Ha, Hd; reflexivity].
  reflexivity.
Qed.

(** A job of three recipients, with [timedelta] bound: the server
    takes the first message and closes the connection on the second.  The
    third recipient is not attempted; the loop has counted one sent and one
    failed; the final update stores 0 sent and 3 failed. *)
Lemma disconnect_discards_sent_count :
  fst (run with_timedelta
         (sample_world three_rows None None (fails_at 1 disconnected))
         "recipients.csv" "mail.html" true false (initial 0 0 0)) = Val tt
  /\ send_attempts
       (trace (snd (run with_timedelta
                      (sample_world three_rows None None (fails_at 1 disconnected))
                      "recipients.csv" "mail.html" true false (initial 0 0 0))))
     = ["a@b.com"; "b@c.org"]
  /\ statements
       (trace (snd (run with_timedelta
                      (sample_world three_rows None None (fails_at 1 disconnected))
                      "recipients.csv" "mail.html" true false (initial 0 0 0))))
     = [ UpdateStatusStart "Running" 0; UpdateTotal 3; UpdateSent 1;
         InsertFailedEmail "b@c.org" "SMTPServerDisconnected (mid-send)";
         UpdateFailedStatus 1 "Error: Server Disconnected";
         UpdateFinal
           "Server disconnected unexpectedly (mid-send). Might be rate limited or timed out."
           0 3 1500000 ]
  /\ job_row
       (trace (snd (run with_timedelta
                      (sample_world three_rows None None (fails_at 1 disconnected))
                      "recipients.csv" "mail.html" true false (initial 0 0 0))))
     = mkJobRow
         "Server disconnected unexpectedly (mid-send). Might be rate limited or timed out."
         (Some 3%nat) 0 3 (Some 1500000).
Proof. vm_compute. repeat split. Qed.

(** At the same job the values stored in [sent_count] are 1, then 0. *)
Lemma stored_sent_count_decreases :
  sent_written
    (trace (snd (run with_timedelta
                   (sample_world three_rows None None (fails_at 1 disconnected))
                   "recipients.csv" "mail.html" true false (initial 0 0 0))))
  = [1%nat; 0%nat]
  /\ failed_written
       (trace (snd (run with_timedelta
                      (sample_world three_rows None None (fails_at 1 disconnected))
                      "recipients.csv" "mail.html" true false (initial 0 0 0))))
     = [1%nat; 3%nat].
Proof. vm_compute. split; reflexivity. Qed.

(** ** A connection that cannot be made *)

(** C6 at a job of three recipients in the module as it is, when the name
    of the server does not resolve: the clause for [socket.gaierror] raises
    [NameError], no connection error is recorded, and the final update
    stores a failed count of 0. *)
Lemma dns_failure_counts_nobody :
  fst (run shipped
         (sample_world three_rows (Some name_not_known) None all_accepted)
         "recipients.csv" "mail.html" true false (initial 0 0 0))
  = Raise (name_error "socket")
  /\ connection_error
       (snd (run shipped
               (sample_world three_rows (Some name_not_known) None all_accepted)
               "recipients.csv" "mail.html" true false (initial 0 0 0))) = None
  /\ job_row
       (trace (snd (run shipped
                      (sample_world three_rows (Some name_not_known) None all_accepted)
                      "recipients.csv" "mail.html" true false (initial 0 0 0))))
     = mkJobRow "Failed: Unknown (No emails sent or failed)" (Some 3%nat) 0 0 (Some 0).
Proof. vm_compute. repeat split. Qed.

(** The part of C6 that the module as it is delivers: an exception of the
    set-up that one of the first three clauses takes (and, with [socket]
    bound, any exception of the set-up) is recorded as a connection error
    whose message starts with [Failed]; the final update then stores
    nothing sent and every recipient failed, and nothing was sent. *)
Lemma setup_error_recorded G e st :
  bound G "socket" = true
  \/ issubclass (exc_type e) SMTPAuthenticationError = true
  \/ issubclass (exc_type e) SMTPConnectError = true
  \/ issubclass (exc_type e) SMTPServerDisconnected = true ->
  exists msg,
    is_Failed msg = true
    /\ except_ G e setup_handlers st = (Val tt, with_connection_error msg st).
Proof.
  intros H. unfold setup_handlers. cbn [except_ eval_clause].
  unfold load_global. rewrite !bound_smtplib, bound_ssl.
  destruct (issubclass (exc_type e) SMTPAuthenticationError) eqn:E1;
    [eexists; split; [|reflexivity]; reflexivity|].
  destruct (issubclass (exc_type e) SMTPConnectError) eqn:E2;
    [eexists; split; [|reflexivity]; reflexivity|].
  destruct (issubclass (exc_type e) SMTPServerDisconnected) eqn:E3;
    [eexists; split; [|reflexivity]; reflexivity|].
  destruct H as [H | [H | [H | H]]]; try discriminate.
  rewrite H.
  destruct (issubclass (exc_type e) gaierror);
    [eexists; split; [|reflexivity]; reflexivity|].
  destruct (issubclass (exc_type e) timeout);
    [eexists; split; [|reflexivity]; reflexivity|].
  destruct (issubclass (exc_type e) SSLError);
    [eexists; split; [|reflexivity]; reflexivity|].
  destruct (issubclass (exc_type e) SMTPException);
    [eexists; split; [|reflexivity]; reflexivity|].
  rewrite issubclass_Exception. eexists; split; [|reflexivity]; reflexivity.
Qed.

Lemma smtp_setup_sends_nothing w use_tls use_ssl st :
  send_attempts (trace (snd (smtp_setup w use_tls use_ssl st)))
  = send_attempts (trace st)
  /\ sent_count (snd (smtp_setup w use_tls use_ssl st)) = sent_count st
  /\ failed_count (snd (smtp_setup w use_tls use_ssl st)) = failed_count st
  /\ total_emails (snd (smtp_setup w use_tls use_ssl st)) = total_emails st.
Proof.
  unfold smtp_setup, send_attempts. unfold_py.
  destruct use_ssl, use_tls, (smtp_connect w), (smtp_starttls w), (smtp_login w);
    simpl; rewrite ?omap_app; simpl; rewrite ?app_nil_r; repeat split.
Qed.

Lemma smtp_setup_stores_nothing w use_tls use_ssl st :
  statements (trace (snd (smtp_setup w use_tls use_ssl st)))
  = statements (trace st).
Proof.
  unfold smtp_setup, statements. unfold_py.
  destruct use_ssl, use_tls, (smtp_connect w), (smtp_starttls w), (smtp_login w);
    simpl; rewrite ?omap_app; simpl; rewrite ?app_nil_r; reflexivity.
Qed.

Lemma setup_failure_fails_everyone G w use_tls use_ssl email_template recipients
    st e st1 :
  smtp_setup w use_tls use_ssl st = (Raise e, st1) ->
  bound G "socket" = true
  \/ issubclass (exc_type e) SMTPAuthenticationError = true
  \/ issubclass (exc_type e) SMTPConnectError = true
  \/ issubclass (exc_type e) SMTPServerDisconnected = true ->
  exists msg,
    is_Failed msg = true
    /\ smtp_session G w use_tls use_ssl email_template recipients st
       = (Val tt, after_finalize (with_connection_error msg st1))
    /\ statements (trace (after_finalize (with_connection_error msg st1)))
       = (statements (trace st1)
          ++ [UpdateFinal msg 0 (total_emails st) (clock st1)])%list
    /\ send_attempts (trace (after_finalize (with_connection_error msg st1)))
       = send_attempts (trace st).
Proof.
  intros Hs Hc.
  destruct (setup_error_recorded G e st1 Hc) as (msg & Hm & He).
  pose proof (smtp_setup_sends_nothing w use_tls use_ssl st) as (Ha & _ & _ & Ht).
  rewrite Hs in Ha, Ht. cbn [snd] in Ha, Ht.
  assert (Htr : PyStr.truthy msg = true).
  { destruct msg; [discriminate | reflexivity]. }
  exists msg. split; [exact Hm|]. split.
  { unfold smtp_session. apply try_finally_finalize; [|discriminate].
    rewrite (try_except_raise _ _ _ _ e st1); [exact He|].
    apply bind_raise. exact Hs. }
  rewrite after_finalize_trace. cbn [connection_error with_connection_error
    sent_count failed_count total_emails clock trace server].
  unfold final_record. cbn [truthy_opt default]. rewrite Htr.
  cbn [fst snd]. rewrite Ht. split.
  - rewrite !statements_app. destruct (server st1); simpl;
      rewrite ?app_nil_r; reflexivity.
  - unfold send_attempts in *. rewrite !omap_app.
    destruct (server st1); simpl; rewrite ?app_nil_r; exact Ha.
Qed.

(** However the [try] of a job that reaches the session ends,
    the [finally] runs and stores a status that is not empty, with the two
    counts and the end time.  An error of the set-up that a clause records
    gives that clause's [Failed: ...] message, with nothing sent and every
    recipient failed.  When no connection error is recorded the status
    follows from the counts of the loop: [Completed] exactly when nothing
    failed and all were sent, [Partial Failure] exactly when some were sent
    and some failed, [Failed: All emails] (for a job with recipients)
    exactly when nothing was sent and all failed, and one of the fallback
    labels in every other case. *)
Theorem final_status_rule (G : Namespace) (w : World) (use_tls use_ssl : bool)
    (email_template : option Template) (recipients : list Recipient) (st : State) :
  (exists r st1,
     r <> OutOfFuel
     /\ smtp_session G w use_tls use_ssl email_template recipients st
        = (r, after_finalize st1))
  /\ (forall st1,
        finalize st1 = (Val tt, after_finalize st1)
        /\ statements (trace (after_finalize st1))
           = (statements (trace st1)
              ++ [UpdateFinal
                    (fst (fst (final_record (connection_error st1) (sent_count st1)
                                 (failed_count st1) (total_emails st1))))
                    (snd (fst (final_record (connection_error st1) (sent_count st1)
                                 (failed_count st1) (total_emails st1))))
                    (snd (final_record (connection_error st1) (sent_count st1)
                            (failed_count st1) (total_emails st1)))
                    (clock st1)])%list
        /\ PyStr.truthy
             (fst (fst (final_record (connection_error st1) (sent_count st1)
                          (failed_count st1) (total_emails st1)))) = true)
  /\ (forall e st1,
        smtp_setup w use_tls use_ssl st = (Raise e, st1) ->
        bound G "socket" = true
        \/ issubclass (exc_type e) SMTPAuthenticationError = true
        \/ issubclass (exc_type e) SMTPConnectError = true
        \/ issubclass (exc_type e) SMTPServerDisconnected = true ->
        exists msg,
          is_Failed msg = true
          /\ statements
               (trace (snd (smtp_session G w use_tls use_ssl email_template
                              recipients st)))
             = (statements (trace st1)
                ++ [UpdateFinal msg 0 (total_emails st) (clock st1)])%list)
  /\ (forall ce sent failed total,
        truthy_opt ce = false ->
        final_record ce sent failed total
        = (status_from_counts sent failed total, sent, failed))
  /\ (forall sent failed total,
        (status_from_counts sent failed total = "Completed"
         <-> failed = 0%nat /\ sent = total)
        /\ (status_from_counts sent failed total = "Partial Failure"
            <-> (0 < sent)%nat /\ (0 < failed)%nat)
        /\ ((0 < total)%nat ->
            (status_from_counts sent failed total = "Failed: All emails"
             <-> sent = 0%nat /\ failed = total))
        /\ In (status_from_counts sent failed total)
              (["Completed"; "Partial Failure"; "Failed: All emails"]
               ++ fallback_labels)).
Proof.
  split; [apply smtp_session_finalizes|].
  split.
  { intros st1. split; [apply finalize_runs|]. split.
    - rewrite after_finalize_trace, !statements_app.
      destruct (server st1); simpl; rewrite ?app_nil_r; reflexivity.
    - apply final_status_truthy. }
  split.
  { intros e st1 Hs Hc.
    destruct (setup_failure_fails_everyone G w use_tls use_ssl email_template
                recipients st e st1 Hs Hc) as (msg & Hm & E & Hst & _).
    exists msg. split; [exact Hm|]. rewrite E. exact Hst. }
  split.
  { intros ce sent failed total Hc. unfold final_record. rewrite Hc.
    reflexivity. }
  intros sent failed total. split; [apply status_Completed|].
  split; [apply status_Partial_Failure|].
  split; [apply status_Failed_All | apply status_is_a_label].
Qed.

(** In the module as it is, each clause of the setup [try] either records
    a connection error or is the one that raises on [socket]. *)
Lemma setup_handlers_shipped e st :
  (exists msg, PyStr.truthy msg = true
               /\ except_ shipped e setup_handlers st
                  = (Val tt, with_connection_error msg st))
  \/ except_ shipped e setup_handlers st = (Raise (name_error "socket"), st).
Proof.
  destruct (issubclass (exc_type e) SMTPAuthenticationError) eqn:E1;
    [|destruct (issubclass (exc_type e) SMTPConnectError) eqn:E2;
      [|destruct (issubclass (exc_type e) SMTPServerDisconnected) eqn:E3]].
  4: { right. apply setup_clauses_unbound; [reflexivity | assumption ..]. }
  all: left;
    destruct (setup_error_recorded shipped e st) as (msg & Hm & He);
    [ tauto | exists msg; split; [destruct msg; [discriminate|reflexivity] | exact He] ].
Qed.

(** In the module as it is the stored counts cannot decrease, for the loop
    stores none: a job that reaches the session with recipients stores its
    counts once, in the final update, and the sent count it stores is 0. *)
Lemma shipped_session_stores_counts_once w use_tls use_ssl email_template
    r rest st :
  sent_count st = 0%nat ->
  exists n,
    sent_written (trace (snd (smtp_session shipped w use_tls use_ssl
                                email_template (r :: rest) st)))
    = (sent_written (trace st) ++ [0%nat])%list
    /\ failed_written (trace (snd (smtp_session shipped w use_tls use_ssl
                                     email_template (r :: rest) st)))
       = (failed_written (trace st) ++ [n])%list.
Proof.
  intros Hsent.
  pose proof (smtp_setup_sends_nothing w use_tls use_ssl st) as (_ & Hs & _ & _).
  pose proof (smtp_setup_stores_nothing w use_tls use_ssl st) as Hst.
  pose proof (smtp_setup_ends w use_tls use_ssl st) as Hends.
  assert (Hfin : forall r1 st1,
            r1 <> OutOfFuel ->
            try_except shipped
              (smtp_setup w use_tls use_ssl ;;
               send_loop shipped w email_template 0 (r :: rest))
              setup_handlers st = (r1, st1) ->
            sent_count st1 = 0%nat /\ statements (trace st1) = statements (trace st) ->
            exists n,
              sent_written (trace (snd (smtp_session shipped w use_tls use_ssl
                                          email_template (r :: rest) st)))
              = (sent_written (trace st) ++ [0%nat])%list
              /\ failed_written (trace (snd (smtp_session shipped w use_tls use_ssl
                                               email_template (r :: rest) st)))
                 = (failed_written (trace st) ++ [n])%list).
  { intros r1 st1 Hr1 E [H0 Htr]. unfold smtp_session.
    rewrite (try_finally_finalize _ st r1 st1 E Hr1). cbn [snd].
    unfold sent_written, failed_written.
    rewrite after_finalize_trace, !statements_app, Htr, !omap_app.
    eexists. split.
    - f_equal. unfold final_record. rewrite H0.
      destruct (truthy_opt (connection_error st1)), (server st1); reflexivity.
    - f_equal. destruct (server st1); reflexivity. }
  destruct (smtp_setup w use_tls use_ssl st) as [[[]|e|] st1] eqn:E;
    [| |contradiction]; cbn [snd] in Hs, Hst.
  - eapply (Hfin (Raise (name_error "socket")) (after_lock st1)); [discriminate| |].
    + rewrite (try_except_raise _ _ _ _ (name_error "timedelta") (after_lock st1)).
      * apply setup_clauses_unbound; reflexivity.
      * erewrite bind_val; [|exact E]. simpl send_loop.
        apply bind_raise. apply rate_gate_unbound. reflexivity.
    + split; [rewrite <- Hsent, <- Hs; reflexivity|].
      rewrite <- Hst. unfold after_lock, statements. simpl.
      rewrite !omap_app. simpl. rewrite !app_nil_r. reflexivity.
  - destruct (setup_handlers_shipped e st1) as [(msg & _ & He) | He].
    + eapply (Hfin (Val tt) (with_connection_error msg st1)); [discriminate| |].
      * rewrite (try_except_raise _ _ _ _ e st1); [exact He|].
        apply bind_raise. exact E.
      * split; [simpl; congruence | simpl; exact Hst].
    + eapply (Hfin (Raise (name_error "socket")) st1); [discriminate| |].
      * rewrite (try_except_raise _ _ _ _ e st1); [exact He|].
        apply bind_raise. exact E.
      * split; [congruence | exact Hst].
Qed.

(** * Further properties of the pipeline *)

(** ** What the rate limit leaves alone *)

Lemma gate_events_quiet evs :
  Forall gate_event evs ->
  send_attempts evs = [] /\ failure_records evs = []
  /\ sent_written evs = [] /\ failed_written evs = [].
Proof.
  induction 1 as [|ev evs Hev _ IH]; [repeat split|].
  destruct IH as (H1 & H2 & H3 & H4).
  unfold send_attempts, failure_records, sent_written, failed_written, statements
    in *.
  destruct ev as [[]| | | | | | | | | | |]; simpl in *; try contradiction;
    repeat split; assumption.
Qed.

Lemma gate_events_statements evs :
  Forall gate_event evs -> Forall loop_statement (statements evs).
Proof.
  induction 1 as [|ev evs Hev _ IH]; [constructor|].
  unfold statements in *.
  destruct ev as [[]| | | | | | | | | | |]; simpl in *; try contradiction;
    try exact IH.
  constructor; [exact I | exact IH].
Qed.

Lemma status_updates_gate_events waiting st :
  Forall gate_event ([Acquire] ++ status_updates waiting st ++ [Release]).
Proof.
  unfold status_updates. destruct (granted st), waiting; repeat constructor.
Qed.

Lemma rate_gate_loop_frame G : forall fuel waiting st,
  (exists evs,
     trace (snd (rate_gate_loop G fuel waiting st)) = (trace st ++ evs)%list
     /\ Forall gate_event evs)
  /\ same_locals st (snd (rate_gate_loop G fuel waiting st))
  /\ clock st <= clock (snd (rate_gate_loop G fuel waiting st)).
Proof.
  destruct (bound G "timedelta") eqn:B.
  - induction fuel as [|fuel IH]; intros waiting st.
    + simpl. split; [exists []; rewrite app_nil_r; split; [reflexivity|constructor]|].
      split; [repeat split | lia].
    + rewrite rate_gate_loop_step by exact B.
      destruct (granted st).
      * cbn [snd]. rewrite after_check_eq. cbn. split.
        { eexists. split; [reflexivity|]. apply status_updates_gate_events. }
        split; [repeat split | lia].
      * destruct (IH true (after_sleep POLL_SLEEP (after_check waiting st)))
          as ((evs & Ht & Hev) & Hl & Hc).
        unfold after_sleep in *. rewrite after_check_eq in *. cbn in *.
        split.
        { exists ((Acquire :: status_updates waiting st ++ [Release])
                  ++ [Sleep POLL_SLEEP] ++ evs)%list.
          split.
          - rewrite Ht. rewrite <- !app_assoc. reflexivity.
          - apply Forall_app. split; [apply status_updates_gate_events|].
            constructor; [exact I | exact Hev]. }
        split; [exact Hl|]. unfold POLL_SLEEP in *. lia.
  - intros [|fuel] waiting st.
    + simpl. split; [exists []; rewrite app_nil_r; split; [reflexivity|constructor]|].
      split; [repeat split | lia].
    + simpl rate_gate_loop.
      erewrite bind_raise; [|apply check_rate_limit_unbound; exact B].
      cbn. split.
      { exists [Acquire; Release]. rewrite <- app_assoc.
        split; [reflexivity | repeat constructor]. }
      split; [repeat split | lia].
Qed.

(** When the loop lets the job through, a slot is free. *)
Lemma rate_gate_loop_val_free G : forall fuel waiting st st1,
  rate_gate_loop G fuel waiting st = (Val tt, st1) ->
  (hourly_sent_count st1 < SMTP_HOURLY_LIMIT)%nat.
Proof.
  destruct (bound G "timedelta") eqn:B.
  - induction fuel as [|fuel IH]; intros waiting st st1 H; [discriminate|].
    rewrite rate_gate_loop_step in H by exact B.
    destruct (granted st) eqn:Hg.
    + injection H as <-. rewrite after_check_eq. cbn [hourly_sent_count].
      unfold granted in Hg. apply negb_true_iff, Nat.leb_gt in Hg. exact Hg.
    + eapply IH. exact H.
  - intros [|fuel] waiting st st1 H; [discriminate|].
    simpl rate_gate_loop in H.
    erewrite bind_raise in H; [|apply check_rate_limit_unbound; exact B].
    discriminate.
Qed.

(** With [timedelta] bound the rate limit always lets the job through in
    the end. *)
Lemma rate_gate_loop_returns G : forall fuel waiting st,
  bound G "timedelta" = true ->
  (polls_needed st <= fuel)%nat ->
  fst (rate_gate_loop G fuel waiting st) = Val tt.
Proof.
  intros fuel waiting st B. revert waiting st.
  induction fuel as [|fuel IH]; intros waiting st Hf.
  - unfold polls_needed in Hf. lia.
  - rewrite rate_gate_loop_step by exact B.
    destruct (granted st) eqn:Hg; [reflexivity|].
    apply IH. rewrite (polls_needed_after_sleep waiting st Hg) in Hf. lia.
Qed.

Lemma rate_gate_returns G st :
  bound G "timedelta" = true ->
  exists st1, rate_gate G st = (Val tt, st1).
Proof.
  intros B. pose proof (rate_gate_loop_returns G (polls_needed st) false st B) as H.
  unfold rate_gate. destruct (rate_gate_loop G (polls_needed st) false st) as [r st1].
  exists st1. simpl in H. rewrite H by lia. reflexivity.
Qed.

(** ** The send loop *)

Lemma send_attempts_app tr1 tr2 :
  send_attempts (tr1 ++ tr2) = (send_attempts tr1 ++ send_attempts tr2)%list.
Proof. unfold send_attempts. apply omap_app. Qed.

Lemma rate_gate_frame G st :
  same_locals st (snd (rate_gate G st))
  /\ send_attempts (trace (snd (rate_gate G st))) = send_attempts (trace st)
  /\ failure_records (trace (snd (rate_gate G st))) = failure_records (trace st)
  /\ clock st <= clock (snd (rate_gate G st))
  /\ (hourly_sent_count (snd (rate_gate G st)) <= hourly_sent_count st)%nat
  /\ (exists qs,
        statements (trace (snd (rate_gate G st))) = (statements (trace st) ++ qs)%list
        /\ Forall loop_statement qs).
Proof.
  unfold rate_gate.
  destruct (rate_gate_loop_frame G (polls_needed st) false st)
    as ((evs & Ht & Hev) & Hl & Hc).
  destruct (gate_events_quiet evs Hev) as (H1 & H2 & _).
  split; [exact Hl|]. rewrite Ht, send_attempts_app, failure_records_app, H1, H2.
  rewrite !app_nil_r. repeat split; [exact Hc| |].
  - apply rate_gate_loop_count_le.
  - exists (statements evs). rewrite statements_app.
    split; [reflexivity | apply gate_events_statements; exact Hev].
Qed.

Lemma send_loop_facts G w email_template : forall rs i st,
  loop_facts rs st (send_loop G w email_template i rs st).
Proof.
  induction rs as [|r rest IH]; intros i st.
  - unfold loop_facts. simpl. repeat split; try lia; try (left; reflexivity).
    + exists []. rewrite app_nil_r. split; [reflexivity | constructor].
    + exists []. rewrite app_nil_r. split; [reflexivity | constructor].
  - simpl send_loop. unfold bind.
    pose proof (rate_gate_frame G st)
      as ((Hs & Hf & Ht & Hce & Hsv) & Hsa & Hfr & Hck & Hh & (qg & Hq & Hqg)).
    pose proof (rate_gate_loop_val_free G (polls_needed st) false st) as Hfree.
    change (rate_gate_loop G (polls_needed st) false st) with (rate_gate G st)
      in Hfree.
    destruct (rate_gate G st) as [[[]|e|] st1]; cbn [fst snd] in *.
    2,3: unfold loop_facts; cbn [fst snd]; rewrite Hs, Hf, Ht, Hce, Hsv, Hsa, Hfr;
      repeat split; try lia; try discriminate; try (left; reflexivity);
      [ exists []; rewrite app_nil_r; split; [reflexivity | apply sublist_nil_l]
      | exists qg; split; assumption ].
    specialize (Hfree st1 eq_refl).
    rewrite send_one_eq.
    assert (Hstep : forall st2 (sent_here : bool) (failed_here : nat) l0 q1,
      loop_facts rest st2 (send_loop G w email_template (S i) rest st2) ->
      total_emails st2 = total_emails st1 -> server st2 = server st1 ->
      sent_count st2 = (sent_count st1 + (if sent_here then 1 else 0))%nat ->
      failed_count st2 = (failed_count st1 + failed_here)%nat ->
      ((if sent_here then 1 else 0) + failed_here = 1)%nat ->
      (hourly_sent_count st2 <= SMTP_HOURLY_LIMIT)%nat ->
      connection_error st2 = connection_error st1 ->
      length (failure_records (trace st2))
      = (length (failure_records (trace st1)) + failed_here)%nat ->
      send_attempts (trace st2) = (send_attempts (trace st1) ++ l0)%list ->
      l0 `sublist_of` [email r] ->
      clock st1 <= clock st2 ->
      statements (trace st2) = (statements (trace st1) ++ q1)%list ->
      Forall loop_statement q1 ->
      loop_facts (r :: rest) st (send_loop G w email_template (S i) rest st2)).
    { intros st2 sent_here failed_here l0 q1 IH2 E1 E2 E3 E4 E5 E6 E7 E8 E9 E10 E11
        E12 E13.
      unfold loop_facts in *.
      destruct IH2 as (I1 & I2 & I3 & I4 & I5 & I6 & I7 & (l & I8 & I8') & I9 & I10
                       & I11 & (qs & I12 & I12')).
      rewrite E1, E2, E3, E4, E7, E8, E9, E12 in *.
      rewrite Hs, Hf, Ht, Hce, Hsv, Hsa, Hfr, Hq in *. cbn [length].
      split; [exact I1|]. split; [exact I2|].
      split; [lia|]. split; [lia|]. split; [lia|].
      split; [intros Hv Hn; specialize (I6 Hv Hn); lia|].
      split; [lia|].
      split.
      { exists (l0 ++ l)%list. rewrite I8, <- app_assoc. split; [reflexivity|].
        change (map email (r :: rest)) with ([email r] ++ map email rest)%list.
        apply sublist_app; assumption. }
      split; [intros _; apply I9; exact E6|].
      split; [exact I10|]. split; [lia|].
      exists (qg ++ q1 ++ qs)%list. rewrite I12, <- !app_assoc.
      split; [reflexivity|]. rewrite !Forall_app. repeat split; assumption. }
    destruct (attempt_of w email_template i r) as [body|e|body e].
    + apply (Hstep _ true 0%nat [email r] [UpdateSent (sent_count st1 + 1)]);
        try apply IH; cbn;
        rewrite ?send_attempts_app, ?failure_records_app, ?statements_app; cbn;
        rewrite ?app_nil_r; try reflexivity; try lia.
      * unfold SEND_DELAY_SECONDS. lia.
      * repeat constructor.
    + apply (Hstep _ false 1%nat []
               [InsertFailedEmail (email r) (exc_str e);
                UpdateFailed (failed_count st1 + 1)]); try apply IH; cbn;
        rewrite ?send_attempts_app, ?failure_records_app, ?length_app,
          ?statements_app; cbn;
        rewrite ?app_nil_r, <- ?app_assoc; try reflexivity; try lia.
      * apply sublist_nil_l.
      * repeat constructor.
    + destruct (issubclass (exc_type e) SMTPServerDisconnected).
      * unfold loop_facts. cbn [fst snd]. cbn.
        rewrite !send_attempts_app, !failure_records_app, !length_app,
          !statements_app. cbn.
        rewrite Hs, Hf, Ht, Hsv, Hsa, Hfr, Hq, !app_nil_r.
        repeat split; try lia; try discriminate; try (right; reflexivity).
        -- exists [email r]. split; [reflexivity|].
           constructor. apply sublist_nil_l.
        -- eexists. rewrite <- !app_assoc. split; [reflexivity|].
           rewrite Forall_app. split; [exact Hqg | repeat constructor].
      * apply (Hstep _ false 1%nat [email r]
                 [InsertFailedEmail (email r) (exc_str e);
                  UpdateFailed (failed_count st1 + 1)]); try apply IH; cbn;
          rewrite ?send_attempts_app, ?failure_records_app, ?length_app,
            ?statements_app; cbn;
          rewrite ?app_nil_r, <- ?app_assoc; try reflexivity; try lia.
        repeat constructor.
Qed.

(** ** The early exits *)

Lemma csv_error_status_Failed csv_path e :
  is_Failed (csv_error_status csv_path e) = true.
Proof.
  unfold csv_error_status.
  destruct (issubclass (exc_type e) FileNotFoundError); [reflexivity|].
  destruct (issubclass (exc_type e) ValueError); reflexivity.
Qed.

Lemma html_error_status_Failed html_path e :
  is_Failed (html_error_status html_path e) = true.
Proof.
  unfold html_error_status.
  destruct (issubclass (exc_type e) FileNotFoundError); reflexivity.
Qed.

Lemma is_Failed_truthy msg : is_Failed msg = true -> PyStr.truthy msg = true.
Proof. destruct msg; [discriminate | reflexivity]. Qed.

(** Step 1 never raises: an exception becomes the status of the job. *)
Lemma load_recipients_cases G w csv_path st :
  load_recipients G w csv_path st
  = match csv_failure w with
    | Some e => (Val ([], Some (csv_error_status csv_path e)), add_event OpenCsv st)
    | None =>
        (Val (csv_recipients w,
              if (length (csv_recipients w) =? 0)%nat
              then Some "Completed (No valid recipients found)" else None),
         after_csv (length (csv_recipients w)) st)
    end.
Proof.
  unfold load_recipients, read_csv, csv_failure, csv_recipients, csv_error_status.
  unfold_py. simpl.
  destruct (csv_file w) as [e|fieldnames rows]; simpl.
  - destruct (issubclass (exc_type e) FileNotFoundError); [reflexivity|].
    destruct (issubclass (exc_type e) ValueError); [reflexivity|].
    rewrite issubclass_Exception. reflexivity.
  - pose proof (csv_header_ends fieldnames) as Hh.
    destruct (csv_header fieldnames) as [cols|e|]; [| |contradiction]; simpl.
    + pose proof (read_rows_ends (snd cols) (fst cols) rows []) as Hr.
      destruct (read_rows (snd cols) (fst cols) rows []) as [rs|e|];
        [| |contradiction]; simpl.
      * destruct (length rs =? 0)%nat; reflexivity.
      * destruct (issubclass (exc_type e) FileNotFoundError); [reflexivity|].
        destruct (issubclass (exc_type e) ValueError); [reflexivity|].
        rewrite issubclass_Exception. reflexivity.
    + destruct (issubclass (exc_type e) FileNotFoundError); [reflexivity|].
      destruct (issubclass (exc_type e) ValueError); [reflexivity|].
      rewrite issubclass_Exception. reflexivity.
Qed.

Lemma load_template_cases G w html_path st :
  (0 < total_emails st)%nat ->
  load_template G w html_path None st
  = match html_file w with
    | HtmlRaises e =>
        (Val (None, Some (html_error_status html_path e)), add_event OpenHtml st)
    | HtmlBadTemplate e =>
        (Val (None, Some (html_error_status html_path e)), after_html st)
    | HtmlTemplate t => (Val (Some t, None), after_html st)
    end.
Proof.
  intros Hn. unfold load_template, read_html, html_error_status. unfold_py. simpl.
  apply Nat.ltb_lt in Hn. rewrite Hn.
  destruct (html_file w) as [e|e|t]; simpl; try reflexivity.
  - destruct (issubclass (exc_type e) FileNotFoundError); [reflexivity|].
    rewrite issubclass_Exception. reflexivity.
  - destruct (issubclass (exc_type e) FileNotFoundError); [reflexivity|].
    rewrite issubclass_Exception. reflexivity.
Qed.

(** The four ways a job goes: the table cannot be read; it has no valid
    recipient; the template cannot be used; or the session is entered. *)
Lemma run_cases G w csv_path html_path use_tls use_ssl t count window_start :
  run G w csv_path html_path use_tls use_ssl (initial t count window_start)
  = match csv_failure w with
    | Some e =>
        (Val tt,
         add_events [ Db (UpdateStatusStart "Running" t); OpenCsv;
                      Db (UpdateStatusEnd (csv_error_status csv_path e) t) ]
           (initial t count window_start))
    | None =>
        match csv_recipients w with
        | [] =>
            (Val tt,
             add_events [ Db (UpdateStatusEnd "Completed (No valid recipients found)" t) ]
               (after_csv 0
                  (add_event (Db (UpdateStatusStart "Running" t))
                     (initial t count window_start))))
        | r :: rest =>
            match html_file w with
            | HtmlRaises e =>
                (Val tt,
                 add_events [ OpenHtml;
                              Db (UpdateStatusEnd (html_error_status html_path e) t) ]
                   (after_csv (S (length rest))
                      (add_event (Db (UpdateStatusStart "Running" t))
                         (initial t count window_start))))
            | HtmlBadTemplate e =>
                (Val tt,
                 add_events [ Db (UpdateStatusEnd (html_error_status html_path e) t) ]
                   (before_session t count window_start (S (length rest))))
            | HtmlTemplate tpl =>
                smtp_session G w use_tls use_ssl (Some tpl) (r :: rest)
                  (before_session t count window_start (S (length rest)))
            end
        end
    end.
Proof.
  unfold run, send_emails_background.
  unfold bind at 1. unfold datetime_now, gets. cbn [fst snd].
  unfold bind at 1. unfold emit at 1, modify. cbn [fst snd].
  unfold bind at 1. rewrite load_recipients_cases.
  destruct (csv_failure w) as [e|].
  - cbn [fst snd]. unfold load_template. unfold_py. cbn.
    pose proof (is_Failed_truthy _ (csv_error_status_Failed csv_path e)) as Ht.
    rewrite Ht. cbn. rewrite ?Ht. reflexivity.
  - destruct (csv_recipients w) as [|r rest]; cbn [length Nat.eqb fst snd].
    + unfold load_template. unfold_py. cbn. reflexivity.
    + unfold bind at 1. rewrite load_template_cases by (cbn; lia).
      destruct (html_file w) as [e|e|tpl]; cbn [fst snd].
      * pose proof (is_Failed_truthy _ (html_error_status_Failed html_path e)) as Ht.
        cbn [truthy_opt]. rewrite Ht. unfold_py. cbn. rewrite ?Ht. reflexivity.
      * pose proof (is_Failed_truthy _ (html_error_status_Failed html_path e)) as Ht.
        cbn [truthy_opt]. rewrite Ht. unfold_py. cbn. rewrite ?Ht. reflexivity.
      * reflexivity.
Qed.

(** ** The session *)

Lemma smtp_setup_frame w use_tls use_ssl st :
  sent_count (snd (smtp_setup w use_tls use_ssl st)) = sent_count st
  /\ failed_count (snd (smtp_setup w use_tls use_ssl st)) = failed_count st
  /\ total_emails (snd (smtp_setup w use_tls use_ssl st)) = total_emails st
  /\ connection_error (snd (smtp_setup w use_tls use_ssl st)) = connection_error st
  /\ hourly_sent_count (snd (smtp_setup w use_tls use_ssl st)) = hourly_sent_count st
  /\ clock (snd (smtp_setup w use_tls use_ssl st)) = clock st
  /\ send_attempts (trace (snd (smtp_setup w use_tls use_ssl st)))
     = send_attempts (trace st)
  /\ failure_records (trace (snd (smtp_setup w use_tls use_ssl st)))
     = failure_records (trace st)
  /\ statements (trace (snd (smtp_setup w use_tls use_ssl st)))
     = statements (trace st).
Proof.
  unfold smtp_setup, send_attempts, failure_records, statements.
  unfold_py.
  destruct use_ssl, use_tls, (smtp_connect w), (smtp_starttls w), (smtp_login w);
    simpl; rewrite ?omap_app; simpl; rewrite ?app_nil_r;
    repeat split.
Qed.

(** A clause of the setup [try] either records a connection error whose
    message starts with [Failed], or raises. *)
Lemma setup_handlers_cases G e st :
  (exists msg, is_Failed msg = true
               /\ except_ G e setup_handlers st
                  = (Val tt, with_connection_error msg st))
  \/ (exists e', except_ G e setup_handlers st = (Raise e', st)).
Proof.
  destruct (bound G "socket") eqn:B.
  - left. apply setup_error_recorded. left. exact B.
  - destruct (issubclass (exc_type e) SMTPAuthenticationError) eqn:E1;
      [left; apply setup_error_recorded; tauto|].
    destruct (issubclass (exc_type e) SMTPConnectError) eqn:E2;
      [left; apply setup_error_recorded; tauto|].
    destruct (issubclass (exc_type e) SMTPServerDisconnected) eqn:E3;
      [left; apply setup_error_recorded; tauto|].
    right. eexists. apply setup_clauses_unbound; assumption.
Qed.

Lemma loop_facts_stopped rs st r :
  r <> Val tt -> loop_facts rs st (r, st).
Proof.
  intros Hr. unfold loop_facts. cbn [fst snd].
  repeat split; try lia; try (left; reflexivity).
  - intros H. contradiction.
  - exists []. rewrite app_nil_r. split; [reflexivity | apply sublist_nil_l].
  - exists []. rewrite app_nil_r. split; [reflexivity | constructor].
Qed.

(** How the [try] of line 257 ends: in the state [sb] that the set-up or
    the loop reached, with a connection error recorded on top of it when a
    clause took an exception. *)
Lemma session_body_cases G w use_tls use_ssl email_template rs st :
  exists r0 sb,
    loop_facts rs (snd (smtp_setup w use_tls use_ssl st)) (r0, sb)
    /\ ((r0 = Val tt
         /\ try_except G
              (smtp_setup w use_tls use_ssl ;; send_loop G w email_template 0 rs)
              setup_handlers st = (Val tt, sb))
        \/ (r0 <> Val tt
            /\ exists msg,
                 is_Failed msg = true
                 /\ try_except G
                      (smtp_setup w use_tls use_ssl ;;
                       send_loop G w email_template 0 rs)
                      setup_handlers st = (Val tt, with_connection_error msg sb))
        \/ (r0 <> Val tt
            /\ exists e,
                 try_except G
                   (smtp_setup w use_tls use_ssl ;;
                    send_loop G w email_template 0 rs)
                   setup_handlers st = (Raise e, sb))).
Proof.
  pose proof (smtp_setup_ends w use_tls use_ssl st) as Hends.
  unfold try_except. unfold bind at 1 2 3.
  destruct (smtp_setup w use_tls use_ssl st) as [[[]|e|] st0] eqn:E;
    [| |contradiction]; cbn [snd].
  - pose proof (send_loop_facts G w email_template rs 0 st0) as Hl.
    pose proof (send_loop_ends G w email_template rs 0 st0) as Hle.
    destruct (send_loop G w email_template 0 rs st0) as [[[]|e|] sb];
      [| |contradiction].
    + exists (Val tt), sb. split; [exact Hl|]. left. split; reflexivity.
    + exists (Raise e), sb. split; [exact Hl|].
      destruct (setup_handlers_cases G e sb) as [(msg & Hm & He) | (e' & He)].
      * right. left. split; [discriminate|]. exists msg. split; assumption.
      * right. right. split; [discriminate|]. exists e'. exact He.
  - exists (Raise e), st0. split; [apply loop_facts_stopped; discriminate|].
    destruct (setup_handlers_cases G e st0) as [(msg & Hm & He) | (e' & He)].
    + right. left. split; [discriminate|]. exists msg. split; assumption.
    + right. right. split; [discriminate|]. exists e'. exact He.
Qed.

(** What a session leaves behind, from a state in which nothing is counted
    yet. *)
Lemma session_summary G w use_tls use_ssl email_template rs st :
  sent_count st = 0%nat -> failed_count st = 0%nat ->
  total_emails st = length rs -> connection_error st = None ->
  exists r sf status a b prefix,
    smtp_session G w use_tls use_ssl email_template rs st = (r, sf)
    /\ r <> OutOfFuel
    /\ statements (trace sf)
       = (statements (trace st) ++ prefix ++ [UpdateFinal status a b (clock sf)])%list
    /\ Forall loop_statement prefix
    /\ (a + b <= length rs)%nat
    /\ PyStr.truthy status = true
    /\ (exists l, send_attempts (trace sf) = (send_attempts (trace st) ++ l)%list
                  /\ l `sublist_of` map email rs)
    /\ (length (failure_records (trace sf))
        <= length (failure_records (trace st)) + b)%nat
    /\ ((hourly_sent_count st <= SMTP_HOURLY_LIMIT)%nat ->
        (hourly_sent_count sf <= SMTP_HOURLY_LIMIT)%nat)
    /\ sent_count sf = a /\ failed_count sf = b
    /\ (connection_error sf <> None -> a = 0%nat /\ b = length rs)
    /\ (r = Val tt -> connection_error sf = None ->
        (a + b = length rs)%nat
        /\ status = status_from_counts a b (length rs)
        /\ length (failure_records (trace sf))
           = (length (failure_records (trace st)) + b)%nat).
Proof.
  intros Hs0 Hf0 Ht0 Hc0.
  destruct (session_body_cases G w use_tls use_ssl email_template rs st)
    as (r0 & sb & Hfacts & Hcases).
  pose proof (smtp_setup_frame w use_tls use_ssl st)
    as (F1 & F2 & F3 & F4 & F5 & F6 & F7 & F8 & F9).
  unfold loop_facts in Hfacts. cbn [fst snd] in Hfacts.
  destruct Hfacts as (I1 & I2 & I3 & I4 & I5 & I6 & I7 & (l & I8 & I8') & I9 & I10
                      & I11 & (qs & I12 & I12')).
  rewrite F1, F2, F3, F4, F5, F7, F8, F9 in *.
  rewrite Hs0, Hf0, Ht0, Hc0 in *. cbn [Nat.add] in *.
  assert (Hfin : forall r st1,
    r <> OutOfFuel ->
    try_except G
      (smtp_setup w use_tls use_ssl ;; send_loop G w email_template 0 rs)
      setup_handlers st = (r, st1) ->
    smtp_session G w use_tls use_ssl email_template rs st = (r, after_finalize st1)).
  { intros r st1 Hr E. unfold smtp_session. apply try_finally_finalize; assumption. }
  assert (Hsa : forall st1, trace st1 = trace sb ->
            send_attempts (trace (after_finalize st1))
            = (send_attempts (trace st) ++ l)%list
            /\ failure_records (trace (after_finalize st1))
               = failure_records (trace sb)).
  { intros st1 E. rewrite after_finalize_trace, E.
    rewrite !send_attempts_app, !failure_records_app, I8.
    destruct (server st1); cbn; rewrite ?app_nil_r; split; reflexivity. }
  assert (Hstm : forall st1, trace st1 = trace sb ->
            statements (trace (after_finalize st1))
            = (statements (trace st) ++ qs
               ++ [UpdateFinal
                     (fst (fst (final_record (connection_error st1) (sent_count st1)
                                  (failed_count st1) (total_emails st1))))
                     (snd (fst (final_record (connection_error st1) (sent_count st1)
                                  (failed_count st1) (total_emails st1))))
                     (snd (final_record (connection_error st1) (sent_count st1)
                             (failed_count st1) (total_emails st1)))
                     (clock (after_finalize st1))])%list).
  { intros st1 E. rewrite after_finalize_trace, E, !statements_app, I12.
    unfold after_finalize.
    destruct (server st1); cbn; rewrite ?app_nil_r, <- ?app_assoc; reflexivity. }
  assert (Hh : forall st1, hourly_sent_count st1 = hourly_sent_count sb ->
            hourly_sent_count (after_finalize st1) = hourly_sent_count sb).
  { intros st1 E. unfold after_finalize. destruct (server st1); cbn; exact E. }
  assert (Hloc : forall st1,
            sent_count (after_finalize st1)
            = snd (fst (final_record (connection_error st1) (sent_count st1)
                          (failed_count st1) (total_emails st1)))
            /\ failed_count (after_finalize st1)
               = snd (final_record (connection_error st1) (sent_count st1)
                        (failed_count st1) (total_emails st1))
            /\ connection_error (after_finalize st1) = connection_error st1).
  { intros st1. unfold after_finalize. destruct (server st1); cbn; repeat split. }
  assert (Hplain : forall r, r <> OutOfFuel -> (r = Val tt -> r0 = Val tt) ->
    try_except G
      (smtp_setup w use_tls use_ssl ;; send_loop G w email_template 0 rs)
      setup_handlers st = (r, sb) ->
    exists r' sf status a b prefix,
      smtp_session G w use_tls use_ssl email_template rs st = (r', sf)
      /\ r' <> OutOfFuel
      /\ statements (trace sf)
         = (statements (trace st) ++ prefix ++ [UpdateFinal status a b (clock sf)])%list
      /\ Forall loop_statement prefix
      /\ (a + b <= length rs)%nat
      /\ PyStr.truthy status = true
      /\ (exists l, send_attempts (trace sf) = (send_attempts (trace st) ++ l)%list
                    /\ l `sublist_of` map email rs)
      /\ (length (failure_records (trace sf))
          <= length (failure_records (trace st)) + b)%nat
      /\ ((hourly_sent_count st <= SMTP_HOURLY_LIMIT)%nat ->
          (hourly_sent_count sf <= SMTP_HOURLY_LIMIT)%nat)
      /\ sent_count sf = a /\ failed_count sf = b
      /\ (connection_error sf <> None -> a = 0%nat /\ b = length rs)
      /\ (r' = Val tt -> connection_error sf = None ->
          (a + b = length rs)%nat
          /\ status = status_from_counts a b (length rs)
          /\ length (failure_records (trace sf))
             = (length (failure_records (trace st)) + b)%nat)).
  { intros r Hr Hrv E.
    destruct (Hsa sb eq_refl) as (S1 & S2).
    destruct (Hloc sb) as (L1 & L2 & L3).
    exists r, (after_finalize sb). do 3 eexists. exists qs.
    split; [apply Hfin; assumption|]. split; [exact Hr|].
    split; [apply Hstm; reflexivity|]. split; [exact I12'|].
    rewrite S1, S2, L1, L2, L3, (Hh sb eq_refl), I1.
    destruct (connection_error sb) as [m|] eqn:Ece.
    - assert (Hm : m = "Server disconnected unexpectedly (mid-send). Might be rate limited or timed out.")
        by (destruct I10 as [H|H]; [discriminate | congruence]).
      subst m. cbn. repeat split; try lia; try discriminate.
      exists l. split; [reflexivity | exact I8'].
    - unfold final_record. cbn [truthy_opt andb fst snd].
      split; [exact I5|].
      split; [apply (final_status_truthy None)|].
      split; [exists l; split; [reflexivity | exact I8']|].
      split; [lia|]. split; [exact I9|].
      split; [reflexivity|]. split; [reflexivity|].
      split; [intros H; contradiction|].
      intros Hv _. specialize (I6 (Hrv Hv) eq_refl).
      repeat split; [exact I6 | lia]. }
  destruct Hcases as [(Hr0 & E) | [(Hr0 & msg & Hm & E) | (Hr0 & e & E)]].
  - apply (Hplain (Val tt)); [discriminate | intros _; exact Hr0 | exact E].
  - destruct (Hsa (with_connection_error msg sb) eq_refl) as (S1 & S2).
    destruct (Hloc (with_connection_error msg sb)) as (L1 & L2 & L3).
    pose proof (is_Failed_truthy msg Hm) as Hmt.
    exists (Val tt), (after_finalize (with_connection_error msg sb)).
    do 3 eexists. exists qs.
    split; [apply Hfin; [discriminate | exact E]|]. split; [discriminate|].
    split; [apply Hstm; reflexivity|]. split; [exact I12'|].
    rewrite S1, S2, L1, L2, L3, (Hh (with_connection_error msg sb) eq_refl).
    unfold final_record. cbn [connection_error with_connection_error truthy_opt
      total_emails sent_count failed_count default]. rewrite Hmt.
    cbn [fst snd]. rewrite I1.
    repeat split; try lia; try exact Hmt; try exact I9; try discriminate.
    exists l. split; [reflexivity | exact I8'].
  - apply (Hplain (Raise e)); [discriminate | discriminate | exact E].
Qed.

(** ** The stored row *)

Lemma loop_statements_keep_total qs : forall row,
  Forall loop_statement qs ->
  row_total (fold_left apply_sql qs row) = row_total row.
Proof.
  induction qs as [|q qs IH]; intros row H; [reflexivity|].
  inversion H as [|? ? Hq Hqs]; subst. simpl. rewrite IH by exact Hqs.
  destruct q; simpl in *; try contradiction; reflexivity.
Qed.

Lemma job_row_ends_with_final tr pre prefix status a b t :
  statements tr = (pre ++ prefix ++ [UpdateFinal status a b t])%list ->
  Forall loop_statement prefix ->
  job_row tr
  = mkJobRow status (row_total (fold_left apply_sql pre created)) a b (Some t).
Proof.
  intros E H. unfold job_row. rewrite E, !fold_left_app. simpl.
  rewrite loop_statements_keep_total by exact H. reflexivity.
Qed.

Lemma before_session_clean t count window_start n :
  sent_count (before_session t count window_start n) = 0%nat
  /\ failed_count (before_session t count window_start n) = 0%nat
  /\ total_emails (before_session t count window_start n) = n
  /\ connection_error (before_session t count window_start n) = None
  /\ hourly_sent_count (before_session t count window_start n) = count
  /\ statements (trace (before_session t count window_start n))
     = [UpdateStatusStart "Running" t; UpdateTotal n]
  /\ send_attempts (trace (before_session t count window_start n)) = []
  /\ failure_records (trace (before_session t count window_start n)) = [].
Proof. repeat split. Qed.

(** What every job leaves in the store and on the wire, whatever the
    files, the server and the namespace. *)
Lemma job_summary G w csv_path html_path use_tls use_ssl t count window_start :
  (row_sent (job_row (trace (snd (run G w csv_path html_path use_tls use_ssl
                                    (initial t count window_start)))))
   + row_failed (job_row (trace (snd (run G w csv_path html_path use_tls use_ssl
                                        (initial t count window_start)))))
   <= length (csv_recipients w))%nat
  /\ (csv_failure w = None ->
      row_total (job_row (trace (snd (run G w csv_path html_path use_tls use_ssl
                                        (initial t count window_start)))))
      = Some (length (csv_recipients w)))
  /\ (length (failure_records
                (trace (snd (run G w csv_path html_path use_tls use_ssl
                               (initial t count window_start)))))
      <= row_failed (job_row (trace (snd (run G w csv_path html_path use_tls use_ssl
                                            (initial t count window_start))))))%nat
  /\ send_attempts (trace (snd (run G w csv_path html_path use_tls use_ssl
                                  (initial t count window_start))))
     `sublist_of` map email (csv_recipients w)
  /\ ((count <= SMTP_HOURLY_LIMIT)%nat ->
      (hourly_sent_count (snd (run G w csv_path html_path use_tls use_ssl
                                 (initial t count window_start)))
       <= SMTP_HOURLY_LIMIT)%nat)
  /\ PyStr.truthy
       (row_status (job_row (trace (snd (run G w csv_path html_path use_tls use_ssl
                                           (initial t count window_start))))))
     = true
  /\ row_end_time (job_row (trace (snd (run G w csv_path html_path use_tls use_ssl
                                          (initial t count window_start)))))
     <> None.
Proof.
  rewrite run_cases.
  destruct (csv_failure w) as [e|] eqn:Ef.
  - cbn. pose proof (is_Failed_truthy _ (csv_error_status_Failed csv_path e)) as H.
    repeat split; try lia; try discriminate; try exact H. apply sublist_nil_l.
  - destruct (csv_recipients w) as [|r rest] eqn:Er.
    + cbn. repeat split; try lia; try discriminate. constructor.
    + destruct (html_file w) as [e|e|tpl].
      * cbn. pose proof (is_Failed_truthy _ (html_error_status_Failed html_path e)) as H.
        repeat split; try lia; try discriminate; try exact H. apply sublist_nil_l.
      * cbn. pose proof (is_Failed_truthy _ (html_error_status_Failed html_path e)) as H.
        repeat split; try lia; try discriminate; try exact H. apply sublist_nil_l.
      * pose proof (before_session_clean t count window_start (S (length rest)))
          as (B1 & B2 & B3 & B4 & B5 & B6 & B7 & B8).
        destruct (session_summary G w use_tls use_ssl (Some tpl) (r :: rest)
                    (before_session t count window_start (S (length rest)))
                    B1 B2 B3 B4)
          as (r' & sf & status & a & b & prefix & E & Hr & Hst & Hpre & Hab & Htr
              & (l & Hl & Hl') & Hfr & Hh & _).
        rewrite E. cbn [snd].
        rewrite B6 in Hst. rewrite B7 in Hl. rewrite B8 in Hfr. rewrite B5 in Hh.
        rewrite (job_row_ends_with_final _ _ _ _ _ _ _ Hst Hpre).
        cbn [row_sent row_failed row_total row_status row_end_time length] in *.
        rewrite Hl.
        repeat split; try lia; try assumption; try discriminate.
Qed.

(** ** The module as shipped, for every job *)

Lemma shipped_session_fails w use_tls use_ssl email_template r rest st :
  sent_count st = 0%nat -> failed_count st = 0%nat ->
  total_emails st = S (length rest) -> connection_error st = None ->
  exists status b,
    is_Failed status = true
    /\ statements (trace (snd (smtp_session shipped w use_tls use_ssl
                                 email_template (r :: rest) st)))
       = (statements (trace st)
          ++ [UpdateFinal status 0 b
                (clock (snd (smtp_session shipped w use_tls use_ssl
                               email_template (r :: rest) st)))])%list
    /\ send_attempts (trace (snd (smtp_session shipped w use_tls use_ssl
                                    email_template (r :: rest) st)))
       = send_attempts (trace st)
    /\ hourly_sent_count (snd (smtp_session shipped w use_tls use_ssl
                                 email_template (r :: rest) st))
       = hourly_sent_count st.
Proof.
  intros Hs0 Hf0 Ht0 Hc0.
  pose proof (smtp_setup_frame w use_tls use_ssl st)
    as (F1 & F2 & F3 & F4 & F5 & F6 & F7 & F8 & F9).
  pose proof (smtp_setup_ends w use_tls use_ssl st) as Hends.
  assert (Hfin : forall r1 st1,
            r1 <> OutOfFuel ->
            try_except shipped
              (smtp_setup w use_tls use_ssl ;;
               send_loop shipped w email_template 0 (r :: rest))
              setup_handlers st = (r1, st1) ->
            sent_count st1 = 0%nat /\ failed_count st1 = 0%nat
            /\ total_emails st1 = S (length rest)
            /\ statements (trace st1) = statements (trace st)
            /\ send_attempts (trace st1) = send_attempts (trace st)
            /\ hourly_sent_count st1 = hourly_sent_count st ->
            (connection_error st1 = None
             \/ exists msg, is_Failed msg = true /\ connection_error st1 = Some msg) ->
            exists status b,
              is_Failed status = true
              /\ statements (trace (snd (smtp_session shipped w use_tls use_ssl
                                           email_template (r :: rest) st)))
                 = (statements (trace st)
                    ++ [UpdateFinal status 0 b
                          (clock (snd (smtp_session shipped w use_tls use_ssl
                                         email_template (r :: rest) st)))])%list
              /\ send_attempts (trace (snd (smtp_session shipped w use_tls use_ssl
                                              email_template (r :: rest) st)))
                 = send_attempts (trace st)
              /\ hourly_sent_count (snd (smtp_session shipped w use_tls use_ssl
                                           email_template (r :: rest) st))
                 = hourly_sent_count st).
  { intros r1 st1 Hr1 E (H1 & H2 & H3 & H5 & H6 & H7) H4. unfold smtp_session.
    rewrite (try_finally_finalize _ st r1 st1 E Hr1). cbn [snd].
    rewrite after_finalize_trace, !statements_app, !send_attempts_app, H5, H6.
    rewrite H1, H2, H3.
    destruct H4 as [H4 | (msg & Hm & H4)]; rewrite H4.
    - exists "Failed: Unknown (No emails sent or failed)", 0%nat.
      split; [reflexivity|]. unfold after_finalize.
      destruct (server st1); cbn; rewrite ?app_nil_r; repeat split; exact H7.
    - exists msg, (S (length rest)). split; [exact Hm|].
      pose proof (is_Failed_truthy msg Hm) as Hmt.
      unfold final_record, after_finalize. cbn [truthy_opt default]. rewrite Hmt.
      destruct (server st1); cbn; rewrite ?app_nil_r; repeat split; exact H7. }
  destruct (smtp_setup w use_tls use_ssl st) as [[[]|e|] st1] eqn:E;
    [| |contradiction]; cbn [snd] in *.
  - apply (Hfin (Raise (name_error "socket")) (after_lock st1)).
    + discriminate.
    + rewrite (try_except_raise _ _ _ _ (name_error "timedelta") (after_lock st1)).
      * apply setup_clauses_unbound; reflexivity.
      * erewrite bind_val; [|exact E]. simpl send_loop.
        apply bind_raise. apply rate_gate_unbound. reflexivity.
    + rewrite <- F9, <- F7. unfold after_lock, statements, send_attempts. cbn.
      rewrite !omap_app. cbn. rewrite !app_nil_r.
      repeat split; congruence.
    + left. cbn. congruence.
  - destruct (setup_handlers_cases shipped e st1) as [(msg & Hm & He) | (e' & He)].
    + apply (Hfin (Val tt) (with_connection_error msg st1)).
      * discriminate.
      * rewrite (try_except_raise _ _ _ _ e st1); [exact He|].
        apply bind_raise. exact E.
      * repeat split;
          cbn [with_connection_error trace sent_count failed_count total_emails
               hourly_sent_count]; congruence.
      * right. exists msg. split; [exact Hm | reflexivity].
    + apply (Hfin (Raise e') st1).
      * discriminate.
      * rewrite (try_except_raise _ _ _ _ e st1); [exact He|].
        apply bind_raise. exact E.
      * repeat split; congruence.
      * left. congruence.
Qed.

(** X2. In the module as it is, no job hands a message to the server, whatever
    the files and the server do; the stored sent count is 0, the shared
    count is left as it was, and the job ends in a [Failed: ...] status
    unless the table has no valid recipient. *)
Theorem shipped_module_never_sends (w : World) (csv_path html_path : string)
    (use_tls use_ssl : bool) (t : Z) (count : nat) (window_start : Z) :
  send_attempts (trace (snd (run shipped w csv_path html_path use_tls use_ssl
                               (initial t count window_start)))) = []
  /\ row_sent (job_row (trace (snd (run shipped w csv_path html_path use_tls use_ssl
                                      (initial t count window_start))))) = 0%nat
  /\ hourly_sent_count (snd (run shipped w csv_path html_path use_tls use_ssl
                               (initial t count window_start))) = count
  /\ (is_Failed
        (row_status (job_row (trace (snd (run shipped w csv_path html_path
                                            use_tls use_ssl
                                            (initial t count window_start))))))
      = true
      \/ (csv_failure w = None /\ csv_recipients w = []
          /\ row_status (job_row (trace (snd (run shipped w csv_path html_path
                                                use_tls use_ssl
                                                (initial t count window_start)))))
             = "Completed (No valid recipients found)")).
Proof.
  rewrite run_cases.
  destruct (csv_failure w) as [e|] eqn:Ef.
  - cbn. repeat split. left. apply csv_error_status_Failed.
  - destruct (csv_recipients w) as [|r rest] eqn:Er.
    + cbn. repeat split. right. repeat split.
    + destruct (html_file w) as [e|e|tpl].
      * cbn. repeat split. left. apply html_error_status_Failed.
      * cbn. repeat split. left. apply html_error_status_Failed.
      * pose proof (before_session_clean t count window_start (S (length rest)))
          as (B1 & B2 & B3 & B4 & B5 & B6 & B7 & B8).
        destruct (shipped_session_fails w use_tls use_ssl (Some tpl) r rest
                    (before_session t count window_start (S (length rest)))
                    B1 B2 B3 B4) as (status & b & Hm & Hst & Hsa & Hh).
        rewrite Hsa, Hh, B7, B5. rewrite B6 in Hst.
        rewrite (job_row_ends_with_final _ _ [] _ _ _ _ Hst ltac:(constructor)).
        cbn [row_sent row_status].
        repeat split. left. exact Hm.
Qed.

(** ** The stored row in the module as shipped *)

Lemma status_class_Failed status :
  status_class status = FailedStatus -> is_Failed status = true.
Proof.
  unfold status_class.
  destruct (PyStr.mem status fallback_labels); [discriminate|].
  destruct (String.eqb status "Completed"); [discriminate|].
  destruct (String.eqb status "Partial Failure"); [discriminate|].
  destruct (is_Failed status); [reflexivity | discriminate].
Qed.

(** In the module as it is, a clause of the setup [try] that takes an
    exception records a failed status that is no fallback label. *)
Lemma setup_handlers_shipped_class e st :
  (exists msg, status_class msg = FailedStatus
               /\ except_ shipped e setup_handlers st
                  = (Val tt, with_connection_error msg st))
  \/ except_ shipped e setup_handlers st = (Raise (name_error "socket"), st).
Proof.
  destruct (issubclass (exc_type e) SMTPAuthenticationError) eqn:E1;
    [|destruct (issubclass (exc_type e) SMTPConnectError) eqn:E2;
      [|destruct (issubclass (exc_type e) SMTPServerDisconnected) eqn:E3]].
  4: { right. apply setup_clauses_unbound; [reflexivity | assumption ..]. }
  all: left; unfold setup_handlers; cbn [except_ eval_clause]; unfold load_global;
    rewrite !bound_smtplib, ?E1, ?E2, ?E3;
    eexists; split; [|reflexivity]; reflexivity.
Qed.

(** In the module as it is, a session with recipients stores one final
    update and nothing else: either the fallback label for no count at all,
    with both counts 0, or the failed status of a set-up clause, with every
    recipient failed. *)
Lemma shipped_session_row w use_tls use_ssl email_template r rest st :
  sent_count st = 0%nat -> failed_count st = 0%nat ->
  total_emails st = S (length rest) -> connection_error st = None ->
  exists status b,
    statements (trace (snd (smtp_session shipped w use_tls use_ssl
                              email_template (r :: rest) st)))
    = (statements (trace st)
       ++ [UpdateFinal status 0 b
             (clock (snd (smtp_session shipped w use_tls use_ssl
                            email_template (r :: rest) st)))])%list
    /\ clock (snd (smtp_session shipped w use_tls use_ssl
                     email_template (r :: rest) st)) = clock st
    /\ ((status = "Failed: Unknown (No emails sent or failed)" /\ b = 0%nat)
        \/ (status_class status = FailedStatus /\ b = S (length rest))).
Proof.
  intros Hs0 Hf0 Ht0 Hc0.
  pose proof (smtp_setup_frame w use_tls use_ssl st)
    as (F1 & F2 & F3 & F4 & F5 & F6 & F7 & F8 & F9).
  pose proof (smtp_setup_ends w use_tls use_ssl st) as Hends.
  assert (Hfin : forall r1 st1,
            r1 <> OutOfFuel ->
            try_except shipped
              (smtp_setup w use_tls use_ssl ;;
               send_loop shipped w email_template 0 (r :: rest))
              setup_handlers st = (r1, st1) ->
            sent_count st1 = 0%nat /\ failed_count st1 = 0%nat
            /\ total_emails st1 = S (length rest)
            /\ statements (trace st1) = statements (trace st)
            /\ clock st1 = clock st ->
            (connection_error st1 = None
             \/ exists msg, status_class msg = FailedStatus
                            /\ connection_error st1 = Some msg) ->
            exists status b,
              statements (trace (snd (smtp_session shipped w use_tls use_ssl
                                        email_template (r :: rest) st)))
              = (statements (trace st)
                 ++ [UpdateFinal status 0 b
                       (clock (snd (smtp_session shipped w use_tls use_ssl
                                      email_template (r :: rest) st)))])%list
              /\ clock (snd (smtp_session shipped w use_tls use_ssl
                               email_template (r :: rest) st)) = clock st
              /\ ((status = "Failed: Unknown (No emails sent or failed)" /\ b = 0%nat)
                  \/ (status_class status = FailedStatus /\ b = S (length rest)))).
  { intros r1 st1 Hr1 E (H1 & H2 & H3 & H5 & H6) H4. unfold smtp_session.
    rewrite (try_finally_finalize _ st r1 st1 E Hr1). cbn [snd].
    rewrite after_finalize_trace, !statements_app, H5.
    rewrite H1, H2, H3.
    assert (Hclock : clock (after_finalize st1) = clock st).
    { unfold after_finalize. destruct (server st1); cbn; exact H6. }
    rewrite Hclock, H6.
    destruct H4 as [H4 | (msg & Hm & H4)]; rewrite H4.
    - exists "Failed: Unknown (No emails sent or failed)", 0%nat.
      split; [|split; [reflexivity | left; split; reflexivity]].
      destruct (server st1); cbn; rewrite ?app_nil_r; reflexivity.
    - exists msg, (S (length rest)).
      pose proof (is_Failed_truthy msg (status_class_Failed msg Hm)) as Hmt.
      split; [|split; [reflexivity | right; split; [exact Hm | reflexivity]]].
      unfold final_record. cbn [truthy_opt default]. rewrite Hmt.
      destruct (server st1); cbn; rewrite ?app_nil_r; reflexivity. }
  destruct (smtp_setup w use_tls use_ssl st) as [[[]|e|] st1] eqn:E;
    [| |contradiction]; cbn [snd] in *.
  - apply (Hfin (Raise (name_error "socket")) (after_lock st1)).
    + discriminate.
    + rewrite (try_except_raise _ _ _ _ (name_error "timedelta") (after_lock st1)).
      * apply setup_clauses_unbound; reflexivity.
      * erewrite bind_val; [|exact E]. simpl send_loop.
        apply bind_raise. apply rate_gate_unbound. reflexivity.
    + rewrite <- F9. unfold after_lock, statements. cbn.
      rewrite !omap_app. cbn. rewrite !app_nil_r.
      repeat split; congruence.
    + left. cbn. congruence.
  - destruct (setup_handlers_shipped_class e st1) as [(msg & Hm & He) | He].
    + apply (Hfin (Val tt) (with_connection_error msg st1)).
      * discriminate.
      * rewrite (try_except_raise _ _ _ _ e st1); [exact He|].
        apply bind_raise. exact E.
      * repeat split;
          cbn [with_connection_error trace sent_count failed_count total_emails
               clock]; congruence.
      * right. exists msg. split; [exact Hm | reflexivity].
    + apply (Hfin (Raise (name_error "socket")) st1).
      * discriminate.
      * rewrite (try_except_raise _ _ _ _ e st1); [exact He|].
        apply bind_raise. exact E.
      * repeat split; congruence.
      * left. congruence.
Qed.

Lemma never_decreases_after_zero (l : list nat) :
  (length l <= 1)%nat -> never_decreases (0%nat :: l).
Proof.
  intros Hl i j a b Hij Hi Hj.
  destruct i as [|i]; [injection Hi as <-; lia|].
  apply lookup_lt_Some in Hj. cbn [length] in Hj. lia.
Qed.

(** C3. In the module as it is, no write of a job stores a sent count or a
    failed count smaller than one written before for that job: after the
    insert of the row, with both counts 0, each of the two counts is
    written at most once over the whole sequence of statements of the job,
    in the final update. *)
Theorem stored_counts_never_decrease (w : World) (csv_path html_path : string)
    (use_tls use_ssl : bool) (t : Z) (count : nat) (window_start : Z) :
  never_decreases
    (row_sent created
     :: sent_written (trace (snd (run shipped w csv_path html_path use_tls use_ssl
                                    (initial t count window_start)))))
  /\ never_decreases
       (row_failed created
        :: failed_written (trace (snd (run shipped w csv_path html_path use_tls
                                         use_ssl (initial t count window_start)))))
  /\ (length (sent_written
                (trace (snd (run shipped w csv_path html_path use_tls use_ssl
                               (initial t count window_start))))) <= 1)%nat
  /\ (length (failed_written
                (trace (snd (run shipped w csv_path html_path use_tls use_ssl
                               (initial t count window_start))))) <= 1)%nat.
Proof.
  assert (H : (length (sent_written
                 (trace (snd (run shipped w csv_path html_path use_tls use_ssl
                                (initial t count window_start))))) <= 1)%nat
              /\ (length (failed_written
                    (trace (snd (run shipped w csv_path html_path use_tls use_ssl
                                   (initial t count window_start))))) <= 1)%nat).
  { rewrite run_cases.
    destruct (csv_failure w) as [e|]; [cbn; lia|].
    destruct (csv_recipients w) as [|r rest]; [cbn; lia|].
    destruct (html_file w) as [e|e|tpl]; [cbn; lia | cbn; lia |].
    pose proof (before_session_clean t count window_start (S (length rest)))
      as (B1 & B2 & B3 & B4 & B5 & B6 & B7 & B8).
    destruct (shipped_session_row w use_tls use_ssl (Some tpl) r rest
                (before_session t count window_start (S (length rest)))
                B1 B2 B3 B4) as (status & b & Hst & _ & _).
    unfold sent_written, failed_written. rewrite Hst, B6. cbn. lia. }
  destruct H as [H1 H2].
  split; [apply never_decreases_after_zero; exact H1|].
  split; [apply never_decreases_after_zero; exact H2|].
  split; assumption.
Qed.

Lemma status_class_from_counts sent failed total :
  (0 < total)%nat ->
  (status_class (status_from_counts sent failed total) = Completed
   <-> failed = 0%nat /\ sent = total)
  /\ (status_class (status_from_counts sent failed total) = PartialFailure
      <-> (0 < sent)%nat /\ (0 < failed)%nat)
  /\ (status_class (status_from_counts sent failed total) = FailedStatus
      <-> sent = 0%nat /\ failed = total)
  /\ status_class (status_from_counts sent failed total) <> NoTerminalStatus.
Proof.
  intros Ht. unfold status_from_counts.
  destruct (Nat.eqb_spec failed 0), (Nat.eqb_spec sent total); cbn [andb].
  1: { repeat split; try discriminate; try reflexivity; try lia;
         intros [? ?]; lia. }
  all: destruct (Nat.ltb_spec 0 failed), (Nat.ltb_spec 0 sent); cbn [andb];
    try (repeat split; try discriminate; try reflexivity; try lia;
         intros [? ?]; lia).
  all: destruct (Nat.eqb_spec failed total), (Nat.eqb_spec sent 0); cbn [andb];
    try (repeat split; try discriminate; try reflexivity; try lia;
         intros [? ?]; lia).
  all: destruct (Nat.ltb_spec 0 total); cbn [andb];
    try (repeat split; try discriminate; try reflexivity; try lia;
         intros [? ?]; lia).
  all: destruct (Nat.eqb_spec total 0);
    repeat split; try discriminate; try reflexivity; try lia;
    intros [? ?]; lia.
Qed.

(** C5. In the module as it is, every job that reaches the send phase ends
    with a row whose status is [Completed] exactly when nothing is counted
    as failed and the sent count is the total, [Partial Failure] exactly
    when both counts are positive, and a failed status exactly when nothing
    is counted as sent and the failed count is the total; the status is one
    of these or a fallback label, and it is stored with the two counts and
    the end time however the [try] ended.  The status that lines 453-464
    compute from the counts obeys the same rule for every combination of
    counts of a job with recipients, and is never missing. *)
Theorem final_status_follows_counts (w : World) (csv_path html_path : string)
    (use_tls use_ssl : bool) (t : Z) (count : nat) (window_start : Z)
    (r : Recipient) (rest : list Recipient) (tpl : Template) :
  csv_failure w = None ->
  csv_recipients w = r :: rest ->
  html_file w = HtmlTemplate tpl ->
  (exists status sent failed,
     job_row (trace (snd (run shipped w csv_path html_path use_tls use_ssl
                            (initial t count window_start))))
     = mkJobRow status (Some (S (length rest))) sent failed (Some t)
     /\ last (statements
                (trace (snd (run shipped w csv_path html_path use_tls use_ssl
                               (initial t count window_start)))))
        = Some (UpdateFinal status sent failed t)
     /\ (status_class status = Completed
         <-> failed = 0%nat /\ sent = S (length rest))
     /\ (status_class status = PartialFailure
         <-> (0 < sent)%nat /\ (0 < failed)%nat)
     /\ (status_class status = FailedStatus
         <-> sent = 0%nat /\ failed = S (length rest))
     /\ status_class status <> NoTerminalStatus)
  /\ (forall sent failed total,
        (0 < total)%nat ->
        final_record None sent failed total
        = (status_from_counts sent failed total, sent, failed)
        /\ (status_class (status_from_counts sent failed total) = Completed
            <-> failed = 0%nat /\ sent = total)
        /\ (status_class (status_from_counts sent failed total) = PartialFailure
            <-> (0 < sent)%nat /\ (0 < failed)%nat)
        /\ (status_class (status_from_counts sent failed total) = FailedStatus
            <-> sent = 0%nat /\ failed = total)
        /\ status_class (status_from_counts sent failed total) <> NoTerminalStatus).
Proof.
  intros Hf Hr Ht. split.
  - rewrite run_cases, Hf, Hr, Ht.
    pose proof (before_session_clean t count window_start (S (length rest)))
      as (B1 & B2 & B3 & B4 & B5 & B6 & B7 & B8).
    destruct (shipped_session_row w use_tls use_ssl (Some tpl) r rest
                (before_session t count window_start (S (length rest)))
                B1 B2 B3 B4) as (status & b & Hst & Hclock & Hcases).
    rewrite B6 in Hst.
    assert (Hc : clock (before_session t count window_start (S (length rest))) = t)
      by reflexivity.
    rewrite Hclock, Hc in Hst.
    exists status, 0%nat, b.
    split.
    { rewrite (job_row_ends_with_final _ _ [] _ _ _ _ Hst ltac:(constructor)).
      reflexivity. }
    split; [rewrite Hst; reflexivity|].
    destruct Hcases as [[-> ->] | [Hm ->]].
    + repeat split; try discriminate; try lia; intros [? ?]; lia.
    + rewrite Hm.
      repeat split; try discriminate; try lia; intros [? ?]; lia.
  - intros sent failed total Hpos. split; [reflexivity|].
    apply status_class_from_counts. exact Hpos.
Qed.

Lemma final_status_follows_counts_witness :
  exists status sent failed,
    job_row (trace (snd (run shipped
                           (sample_world three_rows None (Some login_refused)
                              all_accepted)
                           "recipients.csv" "mail.html" true false (initial 0 0 0))))
    = mkJobRow status (Some 3%nat) sent failed (Some 0)
    /\ (status_class status = FailedStatus <-> sent = 0%nat /\ failed = 3%nat).
Proof.
  destruct (final_status_follows_counts
              (sample_world three_rows None (Some login_refused) all_accepted)
              "recipients.csv" "mail.html" true false 0 0%nat 0
              (mkRecipient "a@b.com" "Al")
              [mkRecipient "b@c.org" "Bo"; mkRecipient "c@d.net" "Cy"] greeting
              eq_refl eq_refl eq_refl)
    as ((status & sent & failed & E & _ & _ & _ & H & _) & _).
  exists status, sent, failed. split; [exact E | exact H].
Defined.

(** ** Properties of every job *)

(** X4. The counts that a job leaves in its row never exceed the number of
    recipients read from the table; and when the table is read, that
    number is the stored total. *)
Theorem stored_counts_within_total (G : Namespace) (w : World)
    (csv_path html_path : string) (use_tls use_ssl : bool)
    (t : Z) (count : nat) (window_start : Z) :
  (row_sent (job_row (trace (snd (run G w csv_path html_path use_tls use_ssl
                                    (initial t count window_start)))))
   + row_failed (job_row (trace (snd (run G w csv_path html_path use_tls use_ssl
                                        (initial t count window_start)))))
   <= length (csv_recipients w))%nat
  /\ row_total (job_row (trace (snd (run G w csv_path html_path use_tls use_ssl
                                       (initial t count window_start)))))
     = match csv_failure w with
       | None => Some (length (csv_recipients w))
       | Some _ => None
       end.
Proof.
  split; [apply job_summary|].
  destruct (csv_failure w) as [e|] eqn:Ef.
  - rewrite run_cases, Ef. reflexivity.
  - apply job_summary. exact Ef.
Qed.

(** X5. A job never stores more failure records than the failed count of
    its row says. *)
Theorem failure_records_within_failed_count (G : Namespace) (w : World)
    (csv_path html_path : string) (use_tls use_ssl : bool)
    (t : Z) (count : nat) (window_start : Z) :
  (length (failure_records
             (trace (snd (run G w csv_path html_path use_tls use_ssl
                            (initial t count window_start)))))
   <= row_failed (job_row (trace (snd (run G w csv_path html_path use_tls use_ssl
                                         (initial t count window_start))))))%nat.
Proof. apply job_summary. Qed.

(** X6. The addresses to which a job hands a message to the server are
    addresses of the table, in the order of the table, each row at most
    once: no recipient is tried twice and none out of turn. *)
Theorem sends_follow_the_table (G : Namespace) (w : World)
    (csv_path html_path : string) (use_tls use_ssl : bool)
    (t : Z) (count : nat) (window_start : Z) :
  send_attempts (trace (snd (run G w csv_path html_path use_tls use_ssl
                               (initial t count window_start))))
  `sublist_of` map email (csv_recipients w).
Proof. apply job_summary. Qed.

(** X8. Every job comes to an end, and leaves a row with a non-empty status
    and an end time, whatever the files, the server and the namespace. *)
Theorem every_job_is_closed (G : Namespace) (w : World)
    (csv_path html_path : string) (use_tls use_ssl : bool)
    (t : Z) (count : nat) (window_start : Z) :
  fst (run G w csv_path html_path use_tls use_ssl (initial t count window_start))
  <> OutOfFuel
  /\ PyStr.truthy
       (row_status (job_row (trace (snd (run G w csv_path html_path use_tls use_ssl
                                           (initial t count window_start))))))
     = true
  /\ row_end_time (job_row (trace (snd (run G w csv_path html_path use_tls use_ssl
                                          (initial t count window_start)))))
     <> None.
Proof.
  split; [apply run_ends|]. split; apply job_summary.
Qed.

(** ** Exceptions that leave the function *)

Lemma session_result G w use_tls use_ssl email_template rs st :
  fst (smtp_session G w use_tls use_ssl email_template rs st) = Val tt
  \/ (bound G "socket" = false
      /\ fst (smtp_session G w use_tls use_ssl email_template rs st)
         = Raise (name_error "socket")).
Proof.
  assert (Hh : forall e s,
            fst (except_ G e setup_handlers s) = Val tt
            \/ (bound G "socket" = false
                /\ fst (except_ G e setup_handlers s) = Raise (name_error "socket"))).
  { intros e s. destruct (bound G "socket") eqn:B.
    - destruct (setup_error_recorded G e s (or_introl B)) as (msg & _ & E).
      rewrite E. left. reflexivity.
    - destruct (issubclass (exc_type e) SMTPAuthenticationError) eqn:E1;
        [destruct (setup_error_recorded G e s) as (msg & _ & E);
         [tauto | rewrite E; left; reflexivity]|].
      destruct (issubclass (exc_type e) SMTPConnectError) eqn:E2;
        [destruct (setup_error_recorded G e s) as (msg & _ & E);
         [tauto | rewrite E; left; reflexivity]|].
      destruct (issubclass (exc_type e) SMTPServerDisconnected) eqn:E3;
        [destruct (setup_error_recorded G e s) as (msg & _ & E);
         [tauto | rewrite E; left; reflexivity]|].
      right. split; [reflexivity|].
      rewrite setup_clauses_unbound by assumption. reflexivity. }
  destruct (try_except G
              (smtp_setup w use_tls use_ssl ;; send_loop G w email_template 0 rs)
              setup_handlers st) as [r st1] eqn:E.
  assert (Hr : r = Val tt
               \/ (bound G "socket" = false /\ r = Raise (name_error "socket"))).
  { revert E. unfold try_except. unfold bind at 1.
    pose proof (smtp_setup_ends w use_tls use_ssl st) as Hs.
    destruct (smtp_setup w use_tls use_ssl st) as [[[]|e|] st0];
      [| |contradiction].
    - pose proof (send_loop_ends G w email_template rs 0 st0) as Hl.
      destruct (send_loop G w email_template 0 rs st0) as [[[]|e|] st2];
        [| |contradiction].
      + intros [= <- _]. left. reflexivity.
      + intros E. specialize (Hh e st2). rewrite E in Hh. exact Hh.
    - intros E. specialize (Hh e st0). rewrite E in Hh. exact Hh. }
  unfold smtp_session.
  rewrite (try_finally_finalize _ st r st1 E).
  - exact Hr.
  - destruct Hr as [-> | [_ ->]]; discriminate.
Qed.

(** X9. The only exception that can leave the function is the [NameError]
    on [socket], raised while the clauses of line 411 are matched; once
    [socket] is bound the function returns for every input. *)
Theorem only_name_error_escapes (G : Namespace) (w : World)
    (csv_path html_path : string) (use_tls use_ssl : bool)
    (t : Z) (count : nat) (window_start : Z) :
  (fst (run G w csv_path html_path use_tls use_ssl (initial t count window_start))
   = Val tt
   \/ (bound G "socket" = false
       /\ fst (run G w csv_path html_path use_tls use_ssl
                 (initial t count window_start))
          = Raise (name_error "socket")))
  /\ (bound G "socket" = true ->
      fst (run G w csv_path html_path use_tls use_ssl
             (initial t count window_start)) = Val tt).
Proof.
  assert (H : fst (run G w csv_path html_path use_tls use_ssl
                     (initial t count window_start)) = Val tt
              \/ (bound G "socket" = false
                  /\ fst (run G w csv_path html_path use_tls use_ssl
                            (initial t count window_start))
                     = Raise (name_error "socket"))).
  { rewrite run_cases.
    destruct (csv_failure w); [left; reflexivity|].
    destruct (csv_recipients w); [left; reflexivity|].
    destruct (html_file w); [left; reflexivity | left; reflexivity|].
    apply session_result. }
  split; [exact H|].
  intros B. destruct H as [H | [B' _]]; [exact H | congruence].
Qed.

(** ** The early exits *)

(** X10. A table that cannot be read ends the job at once: the row gets the
    [Failed: ...] status of the clause that took the exception and the end
    time, the total stays unset, and neither the template nor the server
    is touched. *)
Theorem unreadable_table_ends_job (G : Namespace) (w : World)
    (csv_path html_path : string) (use_tls use_ssl : bool)
    (t : Z) (count : nat) (window_start : Z) (e : Exn) :
  csv_failure w = Some e ->
  fst (run G w csv_path html_path use_tls use_ssl (initial t count window_start))
  = Val tt
  /\ trace (snd (run G w csv_path html_path use_tls use_ssl
                   (initial t count window_start)))
     = [ Db (UpdateStatusStart "Running" t); OpenCsv;
         Db (UpdateStatusEnd (csv_error_status csv_path e) t) ]
  /\ job_row (trace (snd (run G w csv_path html_path use_tls use_ssl
                            (initial t count window_start))))
     = mkJobRow (csv_error_status csv_path e) None 0 0 (Some t)
  /\ is_Failed (csv_error_status csv_path e) = true
  /\ (issubclass (exc_type e) FileNotFoundError = true ->
      csv_error_status csv_path e = "Failed: CSV file not found at " +:+ csv_path).
Proof.
  intros Hf. rewrite run_cases, Hf. cbn [fst snd].
  split; [reflexivity|]. split; [reflexivity|]. split; [reflexivity|].
  split; [apply csv_error_status_Failed|].
  intros Hc. unfold csv_error_status. rewrite Hc. reflexivity.
Qed.

Lemma unreadable_table_ends_job_witness :
  job_row (trace (snd (run shipped
                         (mkWorld (CsvTable ["Name"; "Email"] sample_rows)
                                  (HtmlTemplate greeting) None None None all_accepted)
                         "recipients.csv" "mail.html" true false (initial 0 0 0))))
  = mkJobRow
      "Failed: Error reading CSV - CSV must contain 'FirstName' and 'Email' columns (case-insensitive)."
      None 0 0 (Some 0).
Proof.
  exact (proj1 (proj2 (proj2
           (unreadable_table_ends_job shipped
              (mkWorld (CsvTable ["Name"; "Email"] sample_rows)
                       (HtmlTemplate greeting) None None None all_accepted)
              "recipients.csv" "mail.html" true false 0 0%nat 0
              missing_columns eq_refl)))).
Defined.

(** X11. A template that cannot be read or compiled ends a job with
    recipients before any connection is made: the row keeps the total,
    both counts stay 0 although nobody was sent to, and the status is the
    [Failed: ...] text of the clause. *)
Theorem unusable_template_ends_job (G : Namespace) (w : World)
    (csv_path html_path : string) (use_tls use_ssl : bool)
    (t : Z) (count : nat) (window_start : Z)
    (r : Recipient) (rest : list Recipient) (e : Exn) (compiled : bool) :
  csv_failure w = None ->
  csv_recipients w = r :: rest ->
  html_failure w = Some (e, compiled) ->
  fst (run G w csv_path html_path use_tls use_ssl (initial t count window_start))
  = Val tt
  /\ trace (snd (run G w csv_path html_path use_tls use_ssl
                   (initial t count window_start)))
     = ([ Db (UpdateStatusStart "Running" t); OpenCsv;
          Db (UpdateTotal (S (length rest))); OpenHtml ]
        ++ (if compiled then [CompileTemplate] else [])
        ++ [ Db (UpdateStatusEnd (html_error_status html_path e) t) ])%list
  /\ job_row (trace (snd (run G w csv_path html_path use_tls use_ssl
                            (initial t count window_start))))
     = mkJobRow (html_error_status html_path e) (Some (S (length rest))) 0 0 (Some t)
  /\ is_Failed (html_error_status html_path e) = true
  /\ hourly_sent_count (snd (run G w csv_path html_path use_tls use_ssl
                               (initial t count window_start))) = count.
Proof.
  intros Hf Hr Hh. rewrite run_cases, Hf, Hr.
  unfold html_failure in Hh.
  destruct (html_file w) as [e'|e'|tpl]; [| |discriminate];
    injection Hh as -> <-; cbn [fst snd];
    (split; [reflexivity|]); (split; [reflexivity|]); (split; [reflexivity|]);
    (split; [apply html_error_status_Failed | reflexivity]).
Qed.

Lemma unusable_template_ends_job_witness :
  job_row (trace (snd (run shipped
                         (mkWorld (CsvTable ["FirstName"; "Email"] sample_rows)
                                  (HtmlRaises (mkExn FileNotFoundError "No such file"))
                                  None None None all_accepted)
                         "recipients.csv" "mail.html" true false (initial 0 0 0))))
  = mkJobRow "Failed: HTML template not found at mail.html" (Some 2%nat) 0 0 (Some 0).
Proof.
  exact (proj1 (proj2 (proj2
           (unusable_template_ends_job shipped
              (mkWorld (CsvTable ["FirstName"; "Email"] sample_rows)
                       (HtmlRaises (mkExn FileNotFoundError "No such file"))
                       None None None all_accepted)
              "recipients.csv" "mail.html" true false 0 0%nat 0
              (mkRecipient "a@b.com" "Al") [mkRecipient "b@c.org" "Bo"]
              (mkExn FileNotFoundError "No such file") false
              eq_refl eq_refl eq_refl)))).
Defined.

(** ** A line shorter than the header *)

Lemma read_rows_prefix email_col first_name_col before rows : forall acc,
  Forall (has_cells email_col first_name_col) before ->
  read_rows email_col first_name_col (before ++ rows) acc
  = read_rows email_col first_name_col rows
      (acc ++ recipients_of email_col first_name_col before)%list.
Proof.
  induction before as [|row before IH]; intros acc Hb.
  - unfold recipients_of. simpl. rewrite app_nil_r. reflexivity.
  - inversion Hb as [|? ? [[e He] [f Hf]] Hrest]; subst.
    assert (Hstep : read_rows email_col first_name_col ((row :: before) ++ rows) acc
                    = if kept email_col row
                      then read_rows email_col first_name_col (before ++ rows)
                             (acc ++ [recipient_of email_col first_name_col row])
                      else read_rows email_col first_name_col (before ++ rows) acc).
    { simpl. unfold kept, recipient_of, cell. rewrite He, Hf. reflexivity. }
    rewrite Hstep. unfold recipients_of. simpl. destruct (kept email_col row).
    + rewrite IH by assumption. simpl. rewrite <- app_assoc. reflexivity.
    + apply IH; assumption.
Qed.

(** C9.  A data line shorter than the header makes [csv.DictReader] give
    [None] for the missing cell; [row.get(col, '')] returns that [None],
    whose [strip] raises [AttributeError] (lines 198-199).  The clause of
    line 225 takes it: whatever rows came before and whatever the line
    holds, no row becomes a recipient, the total stays unset and the job
    ends with the status of an unexpected error. *)
Theorem short_row_fails_job (G : Namespace) (w : World)
    (csv_path html_path : string) (use_tls use_ssl : bool)
    (t : Z) (count : nat) (window_start : Z)
    (fieldnames : list string) (before after : list Row) (row : Row)
    (first_name_col email_col : string) :
  csv_file w = CsvTable fieldnames (before ++ row :: after) ->
  csv_header fieldnames = Val (first_name_col, email_col) ->
  Forall (has_cells email_col first_name_col) before ->
  row_get row email_col = None \/ row_get row first_name_col = None ->
  (forall st,
     load_recipients G w csv_path st
     = (Val ([], Some ("Failed: Unexpected error reading CSV - AttributeError: "
                       +:+ "'NoneType' object has no attribute 'strip'")),
        add_event OpenCsv st))
  /\ fst (run G w csv_path html_path use_tls use_ssl (initial t count window_start))
     = Val tt
  /\ trace (snd (run G w csv_path html_path use_tls use_ssl
                   (initial t count window_start)))
     = [ Db (UpdateStatusStart "Running" t); OpenCsv;
         Db (UpdateStatusEnd
               ("Failed: Unexpected error reading CSV - AttributeError: "
                +:+ "'NoneType' object has no attribute 'strip'") t) ]
  /\ job_row (trace (snd (run G w csv_path html_path use_tls use_ssl
                            (initial t count window_start))))
     = mkJobRow ("Failed: Unexpected error reading CSV - AttributeError: "
                 +:+ "'NoneType' object has no attribute 'strip'")
                None 0 0 (Some t).
Proof.
  intros Hw Hh Hb Hrow.
  assert (Hr : forall acc,
            read_rows email_col first_name_col (before ++ row :: after) acc
            = Raise no_strip).
  { intros acc. rewrite read_rows_prefix by exact Hb.
    apply read_rows_short_row.
    destruct Hrow as [He | Hf]; [left; exact He|].
    destruct (row_get row email_col) as [e|] eqn:E;
      [right; split; [eexists; reflexivity | exact Hf] | left; reflexivity]. }
  assert (Hfail : csv_failure w = Some no_strip).
  { unfold csv_failure. rewrite Hw, Hh. cbn [fst snd]. rewrite Hr. reflexivity. }
  split.
  { intros st. rewrite load_recipients_cases, Hfail. reflexivity. }
  rewrite run_cases, Hfail. cbn [fst snd].
  split; [reflexivity|]. split; reflexivity.
Qed.

Lemma first_line_has_cells :
  Forall (has_cells "Email" "FirstName") [row2 "Al" "a@b.com"].
Proof. repeat constructor; eexists; vm_compute; reflexivity. Qed.

Lemma short_row_fails_job_witness :
  job_row (trace (snd (run shipped short_line_world "recipients.csv" "mail.html"
                         true false (initial 0 0 0))))
  = mkJobRow
      "Failed: Unexpected error reading CSV - AttributeError: 'NoneType' object has no attribute 'strip'"
      None 0 0 (Some 0).
Proof.
  exact (proj2 (proj2 (proj2
           (short_row_fails_job shipped short_line_world
              "recipients.csv" "mail.html" true false 0 0%nat 0
              ["Email"; "FirstName"] [row2 "Al" "a@b.com"] [row2 "Cy" "c@d.net"]
              (short_row "b@c.org") "FirstName" "Email"
              eq_refl eq_refl
              first_line_has_cells
              (or_intror eq_refl))))).
Defined.

(** ** Setting the session up *)

(** X13. The commands of the set-up are issued in the order connect,
    STARTTLS (for a plain connection with [use_tls]), login, and stop at
    the first that fails: the login is sent only over a connection that
    was made and, where asked for, secured; with [use_ssl] no STARTTLS is
    sent, whatever [use_tls] says; the set-up succeeds exactly when every
    command it issues does; and the connection is there to be closed as
    soon as it was made. *)
Theorem login_follows_secured_connection (w : World) (use_tls use_ssl : bool)
    (st : State) :
  exists evs,
    trace (snd (smtp_setup w use_tls use_ssl st)) = (trace st ++ evs)%list
    /\ evs `prefix_of` setup_commands use_tls use_ssl
    /\ (In Login evs <->
        smtp_connect w = None
        /\ (use_ssl = false -> use_tls = true -> smtp_starttls w = None))
    /\ (use_ssl = true -> ~ In StartTLS evs)
    /\ (fst (smtp_setup w use_tls use_ssl st) = Val tt <->
        smtp_connect w = None
        /\ (use_ssl = false -> use_tls = true -> smtp_starttls w = None)
        /\ smtp_login w = None)
    /\ (server (snd (smtp_setup w use_tls use_ssl st)) = true <->
        server st = true \/ smtp_connect w = None).
Proof.
  unfold smtp_setup, setup_commands. unfold_py.
  destruct use_ssl, use_tls, (smtp_connect w) as [ec|],
    (smtp_starttls w) as [es|], (smtp_login w) as [el|];
    cbn [fst snd trace server add_event with_server];
    rewrite <- ?app_assoc; cbn [app];
    eexists; (split; [reflexivity|]);
    (split; [eexists; cbn [app]; reflexivity|]);
    cbn [In]; repeat split; intros;
    repeat match goal with
           | H : _ /\ _ |- _ => destruct H
           | H : _ \/ _ |- _ => destruct H
           | H : False |- _ => destruct H
           | H : forall _ : false = false, _ |- _ => specialize (H eq_refl)
           | H : forall _ : true = true, _ |- _ => specialize (H eq_refl)
           end;
    try discriminate; try tauto; try congruence; auto;
    intros H'; repeat (destruct H' as [H'|H']; [discriminate|]); destruct H'.
Qed.

(** ** The header of the table *)

Lemma mem_lower_find wanted fieldnames :
  PyStr.mem wanted (map PyStr.lower fieldnames)
  = bool_decide (is_Some (find_column wanted fieldnames)).
Proof.
  unfold PyStr.mem, find_column.
  induction fieldnames as [|name rest IH]; cbn [map existsb List.find].
  - symmetry. apply bool_decide_eq_false. intros [x Hx]. discriminate.
  - rewrite String.eqb_sym.
    destruct (String.eqb (PyStr.lower name) wanted); cbn [orb].
    + symmetry. apply bool_decide_eq_true. eexists. reflexivity.
    + exact IH.
Qed.

Lemma find_column_found wanted fieldnames name :
  find_column wanted fieldnames = Some name ->
  In name fieldnames /\ PyStr.lower name = wanted.
Proof.
  unfold find_column. intros H. apply find_some in H as [Hin Heq].
  split; [exact Hin|]. apply String.eqb_eq. exact Heq.
Qed.

Lemma lower_nonempty name wanted :
  PyStr.lower name = wanted -> PyStr.truthy wanted = true ->
  PyStr.truthy name = true.
Proof. destruct name; intros <-; [discriminate | reflexivity]. Qed.

(** X14. The header check finds the two columns whatever the case of
    their names, under the first name of the header that matches; it
    fails exactly when one of the two is missing, always with the error of
    line 188: the second check (line 194) can never fail. *)
Theorem header_names_the_columns (fieldnames : list string) :
  csv_header fieldnames
  = match find_column "firstname" fieldnames, find_column "email" fieldnames with
    | Some first_name_col, Some email_col => Val (first_name_col, email_col)
    | _, _ => Raise missing_columns
    end
  /\ (forall e, csv_header fieldnames = Raise e -> e = missing_columns)
  /\ (forall first_name_col email_col,
        csv_header fieldnames = Val (first_name_col, email_col) ->
        In first_name_col fieldnames /\ In email_col fieldnames
        /\ PyStr.lower first_name_col = "firstname"
        /\ PyStr.lower email_col = "email").
Proof.
  assert (E : csv_header fieldnames
              = match find_column "firstname" fieldnames,
                      find_column "email" fieldnames with
                | Some first_name_col, Some email_col => Val (first_name_col, email_col)
                | _, _ => Raise missing_columns
                end).
  { unfold csv_header. cbv zeta. rewrite !mem_lower_find.
    destruct (find_column "firstname" fieldnames) as [f|] eqn:Ef.
    - destruct (find_column "email" fieldnames) as [e|] eqn:Ee.
      + rewrite !bool_decide_eq_true_2 by (eexists; reflexivity).
        cbn [negb orb truthy_opt default].
        apply find_column_found in Ef as [_ Hf].
        apply find_column_found in Ee as [_ He].
        rewrite (lower_nonempty f _ Hf eq_refl), (lower_nonempty e _ He eq_refl).
        reflexivity.
      + rewrite (bool_decide_eq_false_2 (is_Some (@None string)))
          by (intros [x Hx]; discriminate).
        rewrite orb_true_r. reflexivity.
    - rewrite (bool_decide_eq_false_2 (is_Some (@None string)))
        by (intros [x Hx]; discriminate).
      reflexivity. }
  split; [exact E|]. rewrite E. split.
  - intros e.
    destruct (find_column "firstname" fieldnames);
      [destruct (find_column "email" fieldnames)|]; congruence.
  - intros f e.
    destruct (find_column "firstname" fieldnames) as [f'|] eqn:Ef;
      [destruct (find_column "email" fieldnames) as [e'|] eqn:Ee|];
      try discriminate.
    intros [= <- <-].
    apply find_column_found in Ef as [? ?].
    apply find_column_found in Ee as [? ?]. tauto.
Qed.

(** * The upload form *)

(** ** Allowed file names *)

Lemma rsplit_once_None sep s :
  rsplit_once sep s = None <-> PyStr.contains sep s = false.
Proof.
  induction s as [|c s IH]; simpl; [tauto|].
  rewrite (Ascii.eqb_sym sep c).
  destruct (rsplit_once sep s) as [[h t]|].
  - split; [discriminate|]. intros H. apply orb_false_elim in H as [_ H].
    apply IH in H. discriminate.
  - destruct (Ascii.eqb c sep); simpl.
    + split; discriminate.
    + split; intros _; [apply IH|]; reflexivity.
Qed.

Lemma rsplit_once_Some sep s head tail :
  rsplit_once sep s = Some (head, tail) <->
  s = head +:+ String sep tail /\ PyStr.contains sep tail = false.
Proof.
  revert head. induction s as [|c s IH]; intros head; simpl.
  - split; [discriminate|]. intros [H _]. destruct head; discriminate.
  - destruct (rsplit_once sep s) as [[h t]|] eqn:E.
    + split.
      * intros [= <- <-]. destruct (proj1 (IH h) eq_refl) as [-> Ht].
        split; [reflexivity | exact Ht].
      * intros [Hs Ht]. destruct head as [|c' head'].
        -- simpl in Hs. injection Hs as -> ->.
           apply rsplit_once_None in Ht. congruence.
        -- simpl in Hs. injection Hs as -> Hs.
           pose proof (proj2 (IH head') (conj Hs Ht)) as H'.
           congruence.
    + destruct (Ascii.eqb_spec c sep) as [->|Hne].
      * split.
        -- intros [= <- <-]. split; [reflexivity|].
           apply rsplit_once_None. exact E.
        -- intros [Hs Ht]. destruct head as [|c' head'].
           ++ simpl in Hs. injection Hs as ->. reflexivity.
           ++ simpl in Hs. injection Hs as -> Hs.
              pose proof (proj2 (IH head') (conj Hs Ht)) as H'. discriminate.
      * split; [discriminate|].
        intros [Hs Ht]. destruct head as [|c' head'].
        -- simpl in Hs. injection Hs as -> _. contradiction.
        -- simpl in Hs. injection Hs as -> Hs.
           pose proof (proj2 (IH head') (conj Hs Ht)) as H'. discriminate.
Qed.

Lemma allowed_file_eq filename allowed_extensions :
  allowed_file filename allowed_extensions
  = match rsplit_once "."%char filename with
    | Some (_, ext) => Val (bool_decide (PyStr.lower ext ∈ allowed_extensions))
    | None => Val false
    end.
Proof.
  unfold allowed_file, rsplit1.
  destruct (rsplit_once "." filename) as [[h t]|] eqn:E.
  - destruct (PyStr.contains "." filename) eqn:C; [reflexivity|].
    apply rsplit_once_None in C. congruence.
  - apply rsplit_once_None in E. rewrite E. reflexivity.
Qed.

Lemma allowed_file_true name allowed_extensions :
  allowed_file name allowed_extensions = Val true <->
  has_extension allowed_extensions name.
Proof.
  rewrite allowed_file_eq. unfold has_extension.
  destruct (rsplit_once "." name) as [[h t]|] eqn:E.
  - apply rsplit_once_Some in E as [-> Ht]. split.
    + intros [= Hb]. apply bool_decide_eq_true in Hb.
      exists h, t. repeat split; assumption.
    + intros (stem & ext & Hs & Hc & Hin).
      assert (E' : rsplit_once "." (h +:+ String "." t) = Some (stem, ext)).
      { apply rsplit_once_Some. split; assumption. }
      assert (E'' : rsplit_once "." (h +:+ String "." t) = Some (h, t)).
      { apply rsplit_once_Some. split; [reflexivity | assumption]. }
      rewrite E'' in E'. injection E' as -> ->.
      f_equal. apply bool_decide_eq_true. exact Hin.
  - split; [discriminate|].
    intros (stem & ext & Hs & Hc & _).
    assert (E' : rsplit_once "." name = Some (stem, ext)).
    { apply rsplit_once_Some. split; assumption. }
    congruence.
Qed.

(** X15. [allowed_file] never fails: the index [1] of line 145 is looked up
    only in a list of two.  It accepts exactly the names that end in a dot
    and an extension of the set, in any case of letters; only the text
    after the last dot counts. *)
Theorem allowed_file_accepts_extensions (filename : string)
    (allowed_extensions : gset string) :
  (exists b, allowed_file filename allowed_extensions = Val b)
  /\ (allowed_file filename allowed_extensions = Val true <->
      has_extension allowed_extensions filename)
  /\ (forall stem ext,
        PyStr.contains "."%char ext = false ->
        allowed_file (stem +:+ "." +:+ ext) allowed_extensions
        = Val (bool_decide (PyStr.lower ext ∈ allowed_extensions))).
Proof.
  rewrite allowed_file_eq. split; [|split].
  - destruct (rsplit_once "." filename) as [[h t]|]; eexists; reflexivity.
  - rewrite <- allowed_file_eq. apply allowed_file_true.
  - intros stem ext Hc. rewrite allowed_file_eq.
    rewrite (proj2 (rsplit_once_Some "." (stem +:+ "." +:+ ext) stem ext)
               (conj eq_refl Hc)).
    reflexivity.
Qed.

(** ** The checks of the view *)

Lemma truthy_opt_true o :
  truthy_opt o = true <-> exists v, o = Some v /\ v <> "".
Proof.
  destruct o as [[|c v]|]; simpl.
  - split; [discriminate | intros (v' & [= <-] & H); contradiction].
  - split; [|reflexivity]. intros _. eexists. split; [reflexivity | discriminate].
  - split; [discriminate | intros (v' & H & _); discriminate].
Qed.

Lemma has_extension_named allowed_extensions name :
  has_extension allowed_extensions name -> String.eqb name "" = false.
Proof.
  intros (stem & ext & -> & _). destruct stem; reflexivity.
Qed.

Lemma allowed_file_cases name allowed_extensions :
  (allowed_file name allowed_extensions = Val true
   /\ has_extension allowed_extensions name)
  \/ (allowed_file name allowed_extensions = Val false
      /\ ~ has_extension allowed_extensions name).
Proof.
  destruct (allowed_file name allowed_extensions) as [[]| |] eqn:E.
  - left. split; [reflexivity|]. apply allowed_file_true. exact E.
  - right. split; [reflexivity|]. intros H. apply allowed_file_true in H. congruence.
  - rewrite allowed_file_eq in E.
    destruct (rsplit_once "." name) as [[h t]|]; discriminate.
  - rewrite allowed_file_eq in E.
    destruct (rsplit_once "." name) as [[h t]|]; discriminate.
Qed.

Lemma required_fields_filled request :
  Forall (fun field => exists v, form request !! field = Some v /\ v <> "")
         required_fields <->
  negb (truthy_opt (form request !! "subject"))
  || negb (truthy_opt (form request !! "sender_email"))
  || negb (truthy_opt (form request !! "sender_password"))
  || negb (truthy_opt (form request !! "smtp_server"))
  || negb (truthy_opt (form request !! "smtp_port")) = false.
Proof.
  unfold required_fields. rewrite !Forall_cons, <- !truthy_opt_true.
  destruct (truthy_opt (form request !! "subject")),
    (truthy_opt (form request !! "sender_email")),
    (truthy_opt (form request !! "sender_password")),
    (truthy_opt (form request !! "smtp_server")),
    (truthy_opt (form request !! "smtp_port")); simpl;
    split; intros H;
    first [ reflexivity | discriminate
          | destruct H as (?&?&?&?&?&_); discriminate
          | repeat split; first [reflexivity | constructor] ].
Qed.

(** The view either turns the request down with one message and nothing
    else, or goes on to create the job; it goes on exactly for the
    well-formed requests. *)
Lemma index_checks env request s :
  (well_formed env request
   /\ exists csv_file html_file subject sender_email sender_password smtp_server
             smtp_port_str smtp_port,
        files request !! "csv_file" = Some csv_file
        /\ files request !! "html_template" = Some html_file
        /\ form request !! "subject" = Some subject
        /\ form request !! "sender_email" = Some sender_email
        /\ form request !! "sender_password" = Some sender_password
        /\ form request !! "smtp_server" = Some smtp_server
        /\ form request !! "smtp_port" = Some smtp_port_str
        /\ int_ env smtp_port_str = Some smtp_port
        /\ index env request s
           = create_job env csv_file html_file subject sender_email sender_password
               smtp_server smtp_port
               (bool_decide (form request !! "use_tls" = Some "true"))
               (bool_decide (form request !! "use_ssl" = Some "true")) s)
  \/ (~ well_formed env request
      /\ ((method request = GET /\ index env request s = (Val RenderIndex, s))
          \/ (method request = POST
              /\ exists message category,
                   category <> "success"
                   /\ index env request s
                      = (Val RedirectRequestUrl, flash message category s)))).
Proof.
  assert (Hturn : forall message category,
            category <> "success" ->
            method request = POST ->
            ~ well_formed env request ->
            index env request s
            = (Val RedirectRequestUrl, flash message category s) ->
            ~ well_formed env request
            /\ ((method request = GET /\ index env request s = (Val RenderIndex, s))
                \/ (method request = POST
                    /\ exists message category,
                         category <> "success"
                         /\ index env request s
                            = (Val RedirectRequestUrl, flash message category s)))).
  { intros m c Hc Hm Hw E. split; [exact Hw|]. right. split; [exact Hm|].
    exists m, c. split; assumption. }
  destruct (method request) eqn:Em.
  { right. split; [intros (H & _); congruence|]. left.
    split; [reflexivity|]. unfold index. rewrite Em. reflexivity. }
  destruct (files request !! "csv_file") as [c|] eqn:Ec.
  2:{ right. apply (Hturn "Missing file part" "danger");
        [discriminate | first [reflexivity | exact Em] | |].
      - intros (_ & (c & H & _) & _). congruence.
      - unfold index. rewrite Em, Ec. reflexivity. }
  destruct (files request !! "html_template") as [h|] eqn:Eh.
  2:{ right. apply (Hturn "Missing file part" "danger");
        [discriminate | first [reflexivity | exact Em] | |].
      - intros (_ & _ & (h & H & _) & _). congruence.
      - unfold index. rewrite Em, Ec, Eh. reflexivity. }
  destruct (String.eqb (filename c) "" || String.eqb (filename h) "") eqn:En.
  { right. apply (Hturn "No selected file" "warning");
      [discriminate | first [reflexivity | exact Em] | |].
    - intros (_ & (c' & Hc & Hce) & (h' & Hh & Hhe) & _).
      rewrite Ec in Hc. rewrite Eh in Hh. injection Hc as <-. injection Hh as <-.
      rewrite (has_extension_named _ _ Hce), (has_extension_named _ _ Hhe) in En.
      discriminate.
    - unfold index. rewrite Em, Ec, Eh. cbv zeta. rewrite En. reflexivity. }
  destruct (negb (truthy_opt (form request !! "subject"))
            || negb (truthy_opt (form request !! "sender_email"))
            || negb (truthy_opt (form request !! "sender_password"))
            || negb (truthy_opt (form request !! "smtp_server"))
            || negb (truthy_opt (form request !! "smtp_port"))) eqn:Ef.
  { right. apply (Hturn "Missing required form fields" "danger");
      [discriminate | first [reflexivity | exact Em] | |].
    - intros (_ & _ & _ & Hf & _). apply required_fields_filled in Hf. congruence.
    - unfold index. rewrite Em, Ec, Eh. cbv zeta. rewrite En, Ef. reflexivity. }
  pose proof (proj2 (required_fields_filled request) Ef) as Hf.
  pose proof Hf as Hf'. unfold required_fields in Hf'.
  rewrite !Forall_cons in Hf'.
  destruct Hf' as ((subject & E1 & N1) & (sender_email & E2 & N2)
                   & (sender_password & E3 & N3) & (smtp_server & E4 & N4)
                   & (smtp_port_str & E5 & N5) & _).
  destruct (int_ env smtp_port_str) as [smtp_port|] eqn:Ei.
  2:{ right. apply (Hturn "Invalid SMTP port number" "danger");
        [discriminate | first [reflexivity | exact Em] | |].
      - intros (_ & _ & _ & _ & (v & Hv & [p Hp])). congruence.
      - unfold index. rewrite Em, Ec, Eh. cbv zeta. rewrite En, Ef, E5.
        cbn [from_option id]. rewrite Ei. reflexivity. }
  destruct (allowed_file_cases (filename c) ALLOWED_EXTENSIONS_CSV)
    as [[Ea Ha] | [Ea Ha]].
  2:{ right. apply (Hturn "Invalid CSV file type" "danger");
        [discriminate | first [reflexivity | exact Em] | |].
      - intros (_ & (c' & Hc & Hce) & _). rewrite Ec in Hc.
        injection Hc as <-. contradiction.
      - unfold index. rewrite Em, Ec, Eh. cbv zeta. rewrite En, Ef, E5.
        cbn [from_option id]. rewrite Ei, Ea. reflexivity. }
  destruct (allowed_file_cases (filename h) ALLOWED_EXTENSIONS_HTML)
    as [[Eb Hb] | [Eb Hb]].
  2:{ right. apply (Hturn "Invalid HTML file type" "danger");
        [discriminate | first [reflexivity | exact Em] | |].
      - intros (_ & _ & (h' & Hh & Hhe) & _). rewrite Eh in Hh.
        injection Hh as <-. contradiction.
      - unfold index. rewrite Em, Ec, Eh. cbv zeta. rewrite En, Ef, E5.
        cbn [from_option id]. rewrite Ei, Ea, Eb. reflexivity. }
  left. split.
  - split; [exact Em|]. split; [exists c; split; [exact Ec | exact Ha]|].
    split; [exists h; split; [exact Eh | exact Hb]|].
    split; [exact Hf|]. exists smtp_port_str. split; [exact E5|].
    eexists. exact Ei.
  - exists c, h, subject, sender_email, sender_password, smtp_server,
      smtp_port_str, smtp_port.
    repeat (split; [first [reflexivity | assumption]|]).
    unfold index. rewrite Em, Ec, Eh. cbv zeta. rewrite En, Ef, E1, E2, E3, E4, E5.
    cbn [from_option id]. rewrite Ei, Ea, Eb. reflexivity.
Qed.

(** ** Creating the job *)

Lemma started_effects d evs evs' :
  started (mkSite d (evs ++ evs'))
  = (started (mkSite d evs)
     ++ omap (fun ev => match ev with StartThread args => Some args | _ => None end)
             evs')%list.
Proof. unfold started. cbn [effects]. apply omap_app. Qed.

Lemma flashes_effects d evs evs' :
  flashes (mkSite d (evs ++ evs'))
  = (flashes (mkSite d evs)
     ++ omap (fun ev => match ev with Flash m c => Some (m, c) | _ => None end)
             evs')%list.
Proof. unfold flashes. cbn [effects]. apply omap_app. Qed.

Lemma started_disk d d' evs : started (mkSite d evs) = started (mkSite d' evs).
Proof. reflexivity. Qed.

Lemma started_remove path s : started (remove_if_exists path s) = started s.
Proof.
  unfold remove_if_exists. destruct (bool_decide (path ∈ disk s)); [|reflexivity].
  rewrite started_effects. cbn. rewrite app_nil_r. reflexivity.
Qed.

Lemma flashes_remove path s : flashes (remove_if_exists path s) = flashes s.
Proof.
  unfold remove_if_exists. destruct (bool_decide (path ∈ disk s)); [|reflexivity].
  rewrite flashes_effects. cbn. rewrite app_nil_r. reflexivity.
Qed.

Lemma disk_remove path s : disk (remove_if_exists path s) = disk s ∖ {[path]}.
Proof.
  unfold remove_if_exists. destruct (bool_decide (path ∈ disk s)) eqn:E.
  - reflexivity.
  - apply bool_decide_eq_false in E. symmetry. apply difference_disjoint_L.
    apply disjoint_singleton_r. exact E.
Qed.

Lemma app_one_neq {A} (l : list A) (a : A) : (l ++ [a])%list <> l.
Proof.
  intros H. pose proof (f_equal length H) as H'.
  rewrite length_app in H'. simpl in H'. lia.
Qed.

Lemma csv_path_of_file env request csv_file :
  files request !! "csv_file" = Some csv_file ->
  csv_path_of env request
  = upload_path (unique_filename env (csv_uuid_hex env)
                   (secure_filename env (filename csv_file))).
Proof. intros H. unfold csv_path_of. rewrite H. reflexivity. Qed.

Lemma html_path_of_file env request html_file :
  files request !! "html_template" = Some html_file ->
  html_path_of env request
  = upload_path (unique_filename env (html_uuid_hex env)
                   (secure_filename env (filename html_file))).
Proof. intros H. unfold html_path_of. rewrite H. reflexivity. Qed.

(** What [create_job] does, by the outcomes it meets. *)
Lemma create_job_started env csv_file html_file subject sender_email
    sender_password smtp_server smtp_port use_tls use_ssl s :
  started (snd (create_job env csv_file html_file subject sender_email
                  sender_password smtp_server smtp_port use_tls use_ssl s))
  = (started s
     ++ match save_csv env, save_html env, db_connect env, db_insert env with
        | Saved, Saved, None, Inserted =>
            [ mkJobArgs (job_uuid_str env)
                (upload_path (unique_filename env (csv_uuid_hex env)
                                (secure_filename env (filename csv_file))))
                (upload_path (unique_filename env (html_uuid_hex env)
                                (secure_filename env (filename html_file))))
                subject sender_email sender_password smtp_server smtp_port
                use_tls use_ssl ]
        | _, _, _, _ => []
        end)%list.
Proof.
  unfold create_job, save, flash, effect.
  destruct s as [d evs].
  destruct (save_csv env) as [|e1 l1]; cbn [fst snd disk effects].
  - destruct (save_html env) as [|e2 l2]; cbn [fst snd disk effects].
    + destruct (db_connect env) as [e3|]; cbn [fst snd disk effects].
      * rewrite <- !app_assoc, started_effects. cbn. reflexivity.
      * destruct (db_insert env) as [|text|e4]; cbn [fst snd disk effects].
        -- rewrite <- !app_assoc, started_effects. cbn. reflexivity.
        -- rewrite !started_remove. rewrite <- !app_assoc, started_effects.
           cbn. reflexivity.
        -- rewrite <- !app_assoc, started_effects. cbn. reflexivity.
    + rewrite <- !app_assoc, started_effects. cbn. reflexivity.
  - rewrite <- !app_assoc, started_effects. cbn. reflexivity.
Qed.

(** X16. A request starts a job exactly when it is well formed, both files
    are saved, and the row of the job is inserted; it never starts more
    than one. *)
Theorem job_starts_iff (env : Web) (request : Request) (s : Site) :
  (started (snd (index env request s)) <> started s <->
   well_formed env request /\ save_csv env = Saved /\ save_html env = Saved
   /\ db_connect env = None /\ db_insert env = Inserted)
  /\ (length (started (snd (index env request s))) <= S (length (started s)))%nat.
Proof.
  destruct (index_checks env request s)
    as [(Hw & c & h & su & se & pw & sv & ps & p & _ & _ & _ & _ & _ & _ & _ & _ & E)
       | (Hw & [(_ & E) | (_ & m & cat & _ & E)])];
    rewrite E; clear E.
  - rewrite create_job_started.
    destruct (save_csv env) as [|e1 l1], (save_html env) as [|e2 l2],
      (db_connect env) as [e3|], (db_insert env) as [|text|e4];
      rewrite ?app_nil_r, ?length_app; cbn [length];
      (split; [|lia]); split;
      try (intros H; exfalso; apply H; reflexivity);
      try (intros (_ & H1 & H2 & H3 & H4); discriminate).
    + intros _. split; [exact Hw|]. repeat split.
    + intros _. apply app_one_neq.
  - cbn [snd]. split; [|lia]. split; [intros H; exfalso; apply H; reflexivity|].
    intros (H & _). contradiction.
  - cbn [snd]. unfold flash, effect. destruct s as [d evs]. cbn [disk effects].
    rewrite started_effects. cbn. rewrite app_nil_r. split; [|lia].
    split; [intros H; exfalso; apply H; reflexivity|].
    intros (H & _). contradiction.
Qed.

(** X17. A request that is accepted saves the table, then the template,
    inserts the row of the job as [Pending], and only then starts the
    thread, once; the thread gets the paths of the files just saved, under
    the names stored in the row, the identifier of that row, the fields of
    the form as they were sent, and the port as [int] read it; [use_tls]
    and [use_ssl] are on only for the exact text [true]. *)
Theorem accepted_request_starts_its_job (env : Web) (request : Request) (s : Site) :
  well_formed env request ->
  save_csv env = Saved -> save_html env = Saved ->
  db_connect env = None -> db_insert env = Inserted ->
  exists args csv_name html_name message,
    index env request s
    = (Val RedirectDashboard,
       mkSite ({[html_path_of env request]} ∪ ({[csv_path_of env request]} ∪ disk s))
              (effects s
               ++ [ SaveFile (csv_path_of env request);
                    SaveFile (html_path_of env request);
                    InsertJob (job_uuid_str env) csv_name html_name
                              (arg_subject args) (arg_sender_email args) "Pending";
                    StartThread args;
                    Flash message "success" ])%list)
    /\ arg_job_uuid args = job_uuid_str env
    /\ arg_csv_path args = csv_path_of env request
    /\ arg_html_path args = html_path_of env request
    /\ csv_path_of env request = upload_path csv_name
    /\ html_path_of env request = upload_path html_name
    /\ form request !! "subject" = Some (arg_subject args)
    /\ form request !! "sender_email" = Some (arg_sender_email args)
    /\ form request !! "sender_password" = Some (arg_sender_password args)
    /\ form request !! "smtp_server" = Some (arg_smtp_server args)
    /\ (exists smtp_port_str,
          form request !! "smtp_port" = Some smtp_port_str
          /\ int_ env smtp_port_str = Some (arg_smtp_port args))
    /\ (arg_use_tls args = true <-> form request !! "use_tls" = Some "true")
    /\ (arg_use_ssl args = true <-> form request !! "use_ssl" = Some "true").
Proof.
  intros Hw H1 H2 H3 H4.
  destruct (index_checks env request s)
    as [(_ & c & h & su & se & pw & sv & ps & p & Ec & Eh & E1 & E2 & E3 & E4 & E5
         & Ei & E)
       | (Hn & _)]; [|contradiction].
  rewrite E. unfold create_job, save, flash, effect. rewrite H1, H2, H3, H4.
  cbn [fst snd disk effects].
  rewrite (csv_path_of_file env request c Ec), (html_path_of_file env request h Eh).
  eexists (mkJobArgs _ _ _ _ _ _ _ _ _ _), _, _, _.
  split; [rewrite <- !app_assoc; reflexivity|].
  cbn [arg_job_uuid arg_csv_path arg_html_path arg_subject arg_sender_email
       arg_sender_password arg_smtp_server arg_smtp_port arg_use_tls arg_use_ssl].
  repeat (split; [first [reflexivity | assumption]|]).
  split; [exists ps; split; assumption|].
  split; apply bool_decide_eq_true.
Qed.

(** X18. A request that is not well formed changes nothing on the site but
    for one message: nothing is saved, no row is inserted, no thread is
    started.  A GET is answered with the form; a POST is sent back to the
    form with a message that is not a success. *)
Theorem rejected_request_changes_nothing (env : Web) (request : Request) (s : Site) :
  ~ well_formed env request ->
  (method request = GET /\ index env request s = (Val RenderIndex, s))
  \/ (method request = POST
      /\ exists message category,
           category <> "success"
           /\ index env request s
              = (Val RedirectRequestUrl,
                 mkSite (disk s) (effects s ++ [Flash message category]))).
Proof.
  intros Hn.
  destruct (index_checks env request s) as [(Hw & _) | (_ & H)]; [contradiction|].
  exact H.
Qed.

(** X19. When the insert of the row fails with a database error, the view
    removes both files it has just saved, starts no thread, and sends the
    user back with the error as the one message. *)
Theorem database_error_removes_uploads (env : Web) (request : Request) (s : Site)
    (text : string) :
  well_formed env request ->
  save_csv env = Saved -> save_html env = Saved ->
  db_connect env = None -> db_insert env = SqliteError text ->
  fst (index env request s) = Val RedirectRequestUrl
  /\ disk (snd (index env request s))
     = disk s ∖ {[csv_path_of env request; html_path_of env request]}
  /\ started (snd (index env request s)) = started s
  /\ flashes (snd (index env request s))
     = (flashes s ++ [("Database error creating job: " +:+ text, "danger")])%list
  /\ In (RemoveFile (csv_path_of env request)) (effects (snd (index env request s))).
Proof.
  intros Hw H1 H2 H3 H4.
  destruct (index_checks env request s)
    as [(_ & c & h & su & se & pw & sv & ps & p & Ec & Eh & _ & _ & _ & _ & _ & _ & E)
       | (Hn & _)]; [|contradiction].
  rewrite E.
  split.
  { unfold create_job, save. rewrite H1, H2, H3, H4. reflexivity. }
  split.
  { unfold create_job, save. rewrite H1, H2, H3, H4. cbn [fst snd].
    rewrite !disk_remove. unfold flash, effect. cbn [disk].
    rewrite (csv_path_of_file env request c Ec), (html_path_of_file env request h Eh).
    apply set_eq. intros x.
    rewrite !elem_of_difference, !elem_of_union, !elem_of_singleton. tauto. }
  split.
  { rewrite create_job_started, H1, H2, H3, H4. apply app_nil_r. }
  split.
  { unfold create_job, save. rewrite H1, H2, H3, H4. cbn [fst snd].
    rewrite !flashes_remove. unfold flash, effect. destruct s as [d evs].
    cbn [disk effects]. rewrite <- !app_assoc, flashes_effects. reflexivity. }
  unfold create_job, save. rewrite H1, H2, H3, H4. cbn [fst snd].
  rewrite (csv_path_of_file env request c Ec).
  set (csv_path := upload_path _).
  set (html_path := upload_path _).
  set (s2 := flash _ _ _).
  assert (Hin : csv_path ∈ disk s2).
  { subst s2. unfold flash, effect. cbn [disk].
    rewrite !elem_of_union, !elem_of_singleton. tauto. }
  assert (Hr : In (RemoveFile csv_path) (effects (remove_if_exists csv_path s2))).
  { unfold remove_if_exists. rewrite (bool_decide_eq_true_2 _ Hin). cbn [effects].
    apply in_or_app. right. left. reflexivity. }
  unfold remove_if_exists at 1.
  destruct (bool_decide (html_path ∈ disk (remove_if_exists csv_path s2)));
    [|exact Hr].
  cbn [effects]. apply in_or_app. left. exact Hr.
Qed.

Lemma removed_effects d evs evs' :
  removed (mkSite d (evs ++ evs'))
  = (removed (mkSite d evs)
     ++ omap (fun ev => match ev with RemoveFile path => Some path | _ => None end)
             evs')%list.
Proof. unfold removed. cbn [effects]. apply omap_app. Qed.

Lemma create_job_result env csv_file html_file subject sender_email
    sender_password smtp_server smtp_port use_tls use_ssl s :
  fst (create_job env csv_file html_file subject sender_email
         sender_password smtp_server smtp_port use_tls use_ssl s)
  = match save_csv env, save_html env, db_connect env, db_insert env with
    | SaveFails _ _, _, _, _ => Val RedirectRequestUrl
    | Saved, SaveFails _ _, _, _ => Val RedirectRequestUrl
    | Saved, Saved, Some e, _ => Raise e
    | Saved, Saved, None, Inserted => Val RedirectDashboard
    | Saved, Saved, None, SqliteError _ => Val RedirectRequestUrl
    | Saved, Saved, None, InsertRaises e => Raise e
    end.
Proof.
  unfold create_job, save.
  destruct (save_csv env), (save_html env), (db_connect env), (db_insert env);
    reflexivity.
Qed.

Lemma create_job_flashes env csv_file html_file subject sender_email
    sender_password smtp_server smtp_port use_tls use_ssl s :
  flashes (snd (create_job env csv_file html_file subject sender_email
                  sender_password smtp_server smtp_port use_tls use_ssl s))
  = (flashes s
     ++ match save_csv env, save_html env, db_connect env, db_insert env with
        | SaveFails e _, _, _, _ => [("Error saving files: " +:+ exc_str e, "danger")]
        | Saved, SaveFails e _, _, _ =>
            [("Error saving files: " +:+ exc_str e, "danger")]
        | Saved, Saved, Some _, _ => []
        | Saved, Saved, None, Inserted =>
            [("Email sending job started (Job ID: "
              +:+ substring 0 8 (job_uuid_str env)
              +:+ "...). Check the dashboard for status.", "success")]
        | Saved, Saved, None, SqliteError text =>
            [("Database error creating job: " +:+ text, "danger")]
        | Saved, Saved, None, InsertRaises _ => []
        end)%list.
Proof.
  unfold create_job, save, flash, effect.
  destruct s as [d evs].
  destruct (save_csv env) as [|e1 l1]; cbn [fst snd disk effects].
  - destruct (save_html env) as [|e2 l2]; cbn [fst snd disk effects].
    + destruct (db_connect env) as [e3|]; cbn [fst snd disk effects].
      * rewrite <- !app_assoc, flashes_effects. cbn. reflexivity.
      * destruct (db_insert env) as [|text|e4]; cbn [fst snd disk effects].
        -- rewrite <- !app_assoc, flashes_effects. cbn. reflexivity.
        -- rewrite !flashes_remove. rewrite <- !app_assoc, flashes_effects.
           cbn. reflexivity.
        -- rewrite <- !app_assoc, flashes_effects. cbn. reflexivity.
    + rewrite <- !app_assoc, flashes_effects. cbn. reflexivity.
  - rewrite <- !app_assoc, flashes_effects. cbn. reflexivity.
Qed.

(** X20. The view removes what it saved only after a database error.  When
    saving the template fails, when [get_db] raises, or when the insert
    raises another exception, no job is started, nothing is removed, and
    the table that was saved stays under the upload folder. *)
Theorem failed_request_leaves_upload (env : Web) (request : Request) (s : Site) :
  well_formed env request ->
  save_csv env = Saved ->
  save_html env <> Saved \/ db_connect env <> None
  \/ (exists e, db_insert env = InsertRaises e) ->
  started (snd (index env request s)) = started s
  /\ removed (snd (index env request s)) = removed s
  /\ csv_path_of env request ∈ disk (snd (index env request s)).
Proof.
  intros Hw H1 H.
  destruct (index_checks env request s)
    as [(_ & c & h & su & se & pw & sv & ps & p & Ec & Eh & _ & _ & _ & _ & _ & _ & E)
       | (Hn & _)]; [|contradiction].
  rewrite E. split.
  { rewrite create_job_started, H1.
    destruct (save_html env), (db_connect env), (db_insert env);
      try apply app_nil_r;
      destruct H as [H | [H | [e H]]]; try discriminate; contradiction H; reflexivity. }
  rewrite (csv_path_of_file env request c Ec).
  unfold create_job, save, flash, effect. rewrite H1. destruct s as [d evs].
  cbn [fst snd disk effects].
  destruct (save_html env) as [|e2 l2]; cbn [fst snd disk effects].
  - destruct (db_connect env) as [e3|]; cbn [fst snd disk effects].
    + split; [rewrite <- !app_assoc, removed_effects; cbn; apply app_nil_r|].
      rewrite !elem_of_union, !elem_of_singleton. tauto.
    + destruct (db_insert env) as [|text|e4]; cbn [fst snd disk effects].
      * destruct H as [H | [H | [e H]]]; try discriminate; contradiction H; reflexivity.
      * destruct H as [H | [H | [e H]]]; try discriminate; contradiction H; reflexivity.
      * split; [rewrite <- !app_assoc, removed_effects; cbn; apply app_nil_r|].
        rewrite !elem_of_union, !elem_of_singleton. tauto.
  - split; [rewrite <- !app_assoc, removed_effects; cbn; apply app_nil_r|].
    destruct l2; rewrite ?elem_of_union, !elem_of_singleton; tauto.
Qed.

(** X21. The view answers every request but in two cases, both after the
    two files were saved: [get_db] raises, whatever the exception (the call
    of line 563 stands before the [try] of line 564, so a database error
    raised there leaves the view like any other), or the insert raises an
    exception that is not a database error.  In each case that exception
    is what leaves the view; [allowed_file] never makes it fail. *)
Theorem view_raises_only_from_database (env : Web) (request : Request) (s : Site) :
  (forall e,
     fst (index env request s) = Raise e <->
     well_formed env request
     /\ save_csv env = Saved /\ save_html env = Saved
     /\ (db_connect env = Some e
         \/ (db_connect env = None /\ db_insert env = InsertRaises e)))
  /\ ((exists r, fst (index env request s) = Val r)
      \/ (exists e, fst (index env request s) = Raise e)).
Proof.
  destruct (index_checks env request s)
    as [(Hw & c & h & su & se & pw & sv & ps & p & _ & _ & _ & _ & _ & _ & _ & _ & E)
       | (Hw & [(_ & E) | (_ & m & cat & _ & E)])];
    rewrite E; clear E.
  - rewrite create_job_result.
    destruct (save_csv env) as [|e1 l1], (save_html env) as [|e2 l2],
      (db_connect env) as [e3|], (db_insert env) as [|text|e4];
      (split;
       [ intros e; split;
         [ intros H; try discriminate; injection H as <-;
           (split; [exact Hw|]); (split; [reflexivity|]); (split; [reflexivity|]);
           first [left; reflexivity | right; split; reflexivity]
         | intros (_ & H1 & H2 & H3); try discriminate;
           destruct H3 as [H3 | [H3 H4]]; try discriminate; congruence ]
       | first [ left; eexists; reflexivity | right; eexists; reflexivity ] ]).
  - cbn [fst]. split; [|left; eexists; reflexivity].
    intros e. split; [discriminate | intros (H & _); contradiction].
  - cbn [fst]. split; [|left; eexists; reflexivity].
    intros e. split; [discriminate | intros (H & _); contradiction].
Qed.

(** X22. Every POST that the view answers flashes exactly one message; the
    message is a success exactly when the answer leads to the dashboard,
    which is exactly when a job was started. *)
Theorem one_message_per_answer (env : Web) (request : Request) (s : Site)
    (r : Response) :
  method request = POST ->
  fst (index env request s) = Val r ->
  exists message category,
    flashes (snd (index env request s)) = (flashes s ++ [(message, category)])%list
    /\ (category = "success" <-> r = RedirectDashboard)
    /\ (r = RedirectDashboard <-> started (snd (index env request s)) <> started s).
Proof.
  intros Hm.
  destruct (index_checks env request s)
    as [(Hw & c & h & su & se & pw & sv & ps & p & _ & _ & _ & _ & _ & _ & _ & _ & E)
       | (Hw & [(Hg & _) | (_ & m & cat & Hc & E)])]; [| congruence |];
    rewrite E; clear E.
  - rewrite create_job_result, create_job_flashes, create_job_started.
    destruct (save_csv env) as [|e1 l1], (save_html env) as [|e2 l2],
      (db_connect env) as [e3|], (db_insert env) as [|text|e4];
      intros [= <-]; do 2 eexists; (split; [reflexivity|]);
      rewrite ?app_nil_r;
      (split; split; intros H; try discriminate; try reflexivity;
       try (exfalso; apply H; reflexivity); try apply app_one_neq).
  - cbn [fst snd]. intros [= <-]. exists m, cat.
    unfold flash, effect. destruct s as [d evs]. cbn [disk effects].
    rewrite flashes_effects, started_effects. cbn. rewrite app_nil_r.
    split; [reflexivity|].
    split; split; intros H; try discriminate; contradiction.
Qed.

(** ** Sample requests *)

Lemma sample_request_well_formed csv html insert :
  well_formed (sample_web csv html insert) sample_request.
Proof.
  split; [reflexivity|].
  split.
  { exists (mkFileStorage "list.CSV"). split; [vm_compute; reflexivity|].
    exists "list", "CSV". split; [reflexivity|]. split; [reflexivity|].
    apply (bool_decide_unpack _). vm_compute. exact I. }
  split.
  { exists (mkFileStorage "mail.html"). split; [vm_compute; reflexivity|].
    exists "mail", "html". split; [reflexivity|]. split; [reflexivity|].
    apply (bool_decide_unpack _). vm_compute. exact I. }
  split.
  { unfold required_fields. repeat apply Forall_cons_2; [| | | | |apply Forall_nil_2].
    - exists "Hello". split; [vm_compute; reflexivity | discriminate].
    - exists "me@example.org". split; [vm_compute; reflexivity | discriminate].
    - exists "secret". split; [vm_compute; reflexivity | discriminate].
    - exists "smtp.example.org". split; [vm_compute; reflexivity | discriminate].
    - exists "587". split; [vm_compute; reflexivity | discriminate]. }
  exists "587". split; [vm_compute; reflexivity|].
  exists 587. reflexivity.
Qed.

Lemma bad_port_request_not_well_formed csv html insert :
  ~ well_formed (sample_web csv html insert) bad_port_request.
Proof.
  intros (_ & _ & _ & _ & (v & Hv & [p Hp])).
  vm_compute in Hv. injection Hv as <-. discriminate.
Qed.

Lemma accepted_request_starts_its_job_witness :
  exists args csv_name html_name message,
    index (sample_web Saved Saved Inserted) sample_request empty_site
    = (Val RedirectDashboard,
       mkSite ({[html_path_of (sample_web Saved Saved Inserted) sample_request]}
               ∪ ({[csv_path_of (sample_web Saved Saved Inserted) sample_request]}
                  ∪ ∅))
              [ SaveFile (csv_path_of (sample_web Saved Saved Inserted) sample_request);
                SaveFile (html_path_of (sample_web Saved Saved Inserted) sample_request);
                InsertJob "8c1f4b1e-0d3a-4a52-9d57-0a1b2c3d4e5f" csv_name html_name
                          (arg_subject args) (arg_sender_email args) "Pending";
                StartThread args;
                Flash message "success" ])
    /\ arg_smtp_port args = 587
    /\ arg_use_tls args = true
    /\ arg_use_ssl args = false.
Proof.
  destruct (accepted_request_starts_its_job (sample_web Saved Saved Inserted)
              sample_request empty_site
              (sample_request_well_formed Saved Saved Inserted)
              eq_refl eq_refl eq_refl eq_refl)
    as (args & csv_name & html_name & message & E & _ & _ & _ & _ & _ & _ & _ & _ & _
        & (ps & Hps & Hi) & Htls & Hssl).
  exists args, csv_name, html_name, message.
  split; [exact E|].
  split.
  { vm_compute in Hps. injection Hps as <-.
    change (Some 587 = Some (arg_smtp_port args)) in Hi. congruence. }
  split.
  { apply Htls. vm_compute. reflexivity. }
  destruct (arg_use_ssl args); [|reflexivity].
  pose proof (proj1 Hssl eq_refl) as H. vm_compute in H. discriminate.
Defined.

Lemma rejected_request_changes_nothing_witness :
  exists message category,
    index (sample_web Saved Saved Inserted) bad_port_request empty_site
    = (Val RedirectRequestUrl, mkSite ∅ [Flash message category]).
Proof.
  destruct (rejected_request_changes_nothing (sample_web Saved Saved Inserted)
              bad_port_request empty_site
              (bad_port_request_not_well_formed Saved Saved Inserted))
    as [(H & _) | (_ & m & c & _ & E)]; [discriminate|].
  exists m, c. exact E.
Defined.

Lemma database_error_removes_uploads_witness :
  disk (snd (index (sample_web Saved Saved (SqliteError "UNIQUE constraint failed"))
               sample_request empty_site))
  = ∅ ∖ {[ csv_path_of (sample_web Saved Saved (SqliteError "UNIQUE constraint failed"))
             sample_request;
           html_path_of (sample_web Saved Saved (SqliteError "UNIQUE constraint failed"))
             sample_request ]}.
Proof.
  exact (proj1 (proj2
           (database_error_removes_uploads
              (sample_web Saved Saved (SqliteError "UNIQUE constraint failed"))
              sample_request empty_site "UNIQUE constraint failed"
              (sample_request_well_formed _ _ _) eq_refl eq_refl eq_refl eq_refl))).
Defined.

Lemma failed_request_leaves_upload_witness :
  csv_path_of (sample_web Saved (SaveFails (mkExn OSError "No space left on device") false)
                 Inserted) sample_request
  ∈ disk (snd (index (sample_web Saved
                         (SaveFails (mkExn OSError "No space left on device") false)
                         Inserted) sample_request empty_site)).
Proof.
  apply (failed_request_leaves_upload
           (sample_web Saved (SaveFails (mkExn OSError "No space left on device") false)
              Inserted) sample_request empty_site
           (sample_request_well_formed _ _ _) eq_refl).
  left. discriminate.
Defined.

Lemma one_message_per_answer_witness :
  exists message category,
    flashes (snd (index (sample_web Saved Saved Inserted) sample_request empty_site))
    = [(message, category)]
    /\ (category = "success" <-> RedirectDashboard = RedirectDashboard).
Proof.
  destruct (one_message_per_answer (sample_web Saved Saved Inserted) sample_request
              empty_site RedirectDashboard eq_refl eq_refl)
    as (m & c & E & H & _).
  exists m, c. split; [exact E | exact H].
Defined.
